(** * penstock: flow registry, DAG renderer and flow context

    A shallow embedding of the core of the [penstock] Python package
    ([_types.py], [_registry.py], [_dag.py], [_context.py], [_config.py],
    [_decorators.py]) together with the properties its specification
    states about it.

    Conventions of the embedding:
    - a Python [str] is a [string] (its UTF-8 bytes; comparing the bytes
      orders strings as Python orders them by code point);
    - a Python [dict] is an insertion-ordered association list with
      pairwise distinct keys ([pydict]);
    - mutable Python objects live in an explicit heap (a list indexed by
      address); a reference is an address, so aliasing is visible;
    - a function that may raise returns a [result]; stateful code is a
      state transformer [M S A];
    - locks are not modelled: every method of the registry is one atomic
      transition, and the context variable is the one of the running
      strand.

    The first part holds the embedding, the second part the lemmas and
    theorems. *)

From Stdlib Require Import String Ascii ZArith Lia.
From stdpp Require Import base tactics option list strings gmap sorting.

Set Warnings "-register-all,-clear-no-such-hyp".

(* ===================================================================== *)
(** * Exceptions and the state-and-exception monad                        *)
(* ===================================================================== *)

(** The exception classes the package raises, with their message. Any
    other exception (raised by wrapped user code or by a backend) is a
    [PyException] with its class name. *)
Inductive exn : Type :=
  | ValueError (msg : string)
  | KeyError (msg : string)
  | RuntimeError (msg : string)
  | AssertionError
  | PyException (cls msg : string).

Inductive result (A : Type) : Type :=
  | Val (a : A)
  | Exc (e : exn).
Arguments Val {A} a.
Arguments Exc {A} e.

Definition M (S A : Type) : Type := S -> result A * S.

Definition ret {S A} (a : A) : M S A := fun s => (Val a, s).

Definition raise {S A} (e : exn) : M S A := fun s => (Exc e, s).

Definition bind {S A B} (m : M S A) (k : A -> M S B) : M S B :=
  fun s => match m s with
           | (Val a, s') => k a s'
           | (Exc e, s') => (Exc e, s')
           end.

Definition gets {S A} (f : S -> A) : M S A := fun s => (Val (f s), s).

Definition modify {S} (f : S -> S) : M S unit := fun s => (Val tt, f s).

(** [try: body finally: cleanup].  The clean-up runs on every exit path;
    if it raises, its exception replaces the outcome of the body. *)
Definition try_finally {S A} (body : M S A) (cleanup : M S unit) : M S A :=
  fun s => match body s with
           | (r, s1) =>
               match cleanup s1 with
               | (Val _, s2) => (r, s2)
               | (Exc e, s2) => (Exc e, s2)
               end
           end.

Notation "'let*' x ':=' c 'in' k" := (bind c (fun x => k))
  (at level 10, x pattern, c at level 100, k at level 200).
Notation "'do' c 'then' k" := (bind c (fun _ => k))
  (at level 10, c at level 100, k at level 200).

(* ===================================================================== *)
(** * Python dictionaries with [str] keys                                 *)
(* ===================================================================== *)

Module PyDict.
Section Dict.
Context {V : Type}.

(** Insertion order is the list order. *)
Definition pydict : Type := list (string * V).

(** [d.get(k)] *)
Fixpoint get (k : string) (d : pydict) : option V :=
  match d with
  | [] => None
  | (k', v) :: d' => if String.eqb k' k then Some v else get k d'
  end.

(** [k in d] *)
Definition contains (k : string) (d : pydict) : bool :=
  match get k d with Some _ => true | None => false end.

(** [d[k] = v]: an existing key keeps its position, a new key goes
    last. *)
Fixpoint set (k : string) (v : V) (d : pydict) : pydict :=
  match d with
  | [] => [(k, v)]
  | (k', v') :: d' =>
      if String.eqb k' k then (k', v) :: d' else (k', v') :: set k v d'
  end.

(** [del d[k]] on a present key. *)
Fixpoint remove (k : string) (d : pydict) : pydict :=
  match d with
  | [] => []
  | (k', v') :: d' =>
      if String.eqb k' k then d' else (k', v') :: remove k d'
  end.

Definition keys (d : pydict) : list string := map fst d.

Definition values (d : pydict) : list V := map snd d.

(** The invariant of a Python dictionary: no key occurs twice. *)
Definition wf (d : pydict) : Prop := NoDup (keys d).

End Dict.
Arguments pydict V : clear implicits.
End PyDict.

Abbreviation pydict := PyDict.pydict.

(* ===================================================================== *)
(** * String helpers                                                      *)
(* ===================================================================== *)

(** The line feed character, Python's ["\n"]. *)
Definition nl : string := String "010"%char EmptyString.

(** [sep.join(l)] *)
Fixpoint join (sep : string) (l : list string) : string :=
  match l with
  | [] => ""
  | [x] => x
  | x :: l' => x +:+ sep +:+ join sep l'
  end.

(** [==] on tuples of strings. *)
Fixpoint tuple_eqb (l1 l2 : list string) : bool :=
  match l1, l2 with
  | [], [] => true
  | x :: l1', y :: l2' => String.eqb x y && tuple_eqb l1' l2'
  | _, _ => false
  end.

(** Truth value of a string: only the empty string is false. *)
Definition truthy (s : string) : bool :=
  match s with EmptyString => false | String _ _ => true end.

(** [s.rsplit(".", 1)] when [s] has a dot: the text before the last dot
    and the text after it. *)
Fixpoint rsplit_dot (s : string) : option (string * string) :=
  match s with
  | EmptyString => None
  | String c s' =>
      match rsplit_dot s' with
      | Some (l, r) => Some (String c l, r)
      | None =>
          if Ascii.eqb c "."%char then Some (EmptyString, s') else None
      end
  end.

(* ===================================================================== *)
(** * [_types.py]                                                         *)
(* ===================================================================== *)

(** Heap addresses. *)
Abbreviation addr := nat.

Module StepInfo.
(** [@dataclass(frozen=True, slots=True) class StepInfo] *)
Record t : Type := mk {
  name : string;
  flow_name : string;
  after : list string;
  is_entrypoint : bool
}.

(** The [__eq__] a dataclass generates: the tuples of fields are
    compared, field by field in declaration order. *)
Definition eqb (a b : t) : bool :=
  String.eqb (name a) (name b)
  && String.eqb (flow_name a) (flow_name b)
  && tuple_eqb (after a) (after b)
  && Bool.eqb (is_entrypoint a) (is_entrypoint b).
End StepInfo.

Module FlowInfo.
(** [@dataclass(frozen=True, slots=True) class FlowInfo].  The [steps]
    field refers to a dictionary object; [entrypoints] is a frozenset,
    an immutable value. *)
Record t : Type := mk {
  name : string;
  steps : addr;
  entrypoints : gset string
}.
End FlowInfo.

(* ===================================================================== *)
(** * [_registry.py]                                                      *)
(* ===================================================================== *)

Module FlowRegistry.
(** [class FlowRegistry]: [_steps] maps a flow name to (the address of)
    that flow's dictionary of steps. *)
Record t : Type := mk { _steps : pydict addr }.
End FlowRegistry.

(** The file system as [Path.write_text] sees it: what opening a path
    for writing does, and the text of each file.  Opening gives the
    file that the path names (two paths that name one file give the
    same file) or raises ([IsADirectoryError], [FileNotFoundError],
    [PermissionError], ...); the texts are kept by file, not by path. *)
Record FileSystem : Type := mkFileSystem {
  open_for_write : string -> result string;
  contents : pydict string
}.

(** A file system without files, in which the empty path names the
    current directory and every other path a file of its own. *)
Definition plain_files : FileSystem :=
  mkFileSystem
    (fun path =>
       match path with
       | EmptyString =>
           Exc (PyException "IsADirectoryError"
                            "[Errno 21] Is a directory: '.'")
       | String _ _ => Val path
       end)
    [].

(** The part of the interpreter state that the registry and the DAG
    renderer touch: the dictionary objects of type [dict[str, StepInfo]],
    the module-level [_registry] and the file system that
    [Path.write_text] writes to. *)
Record World : Type := mkWorld {
  heap : list (pydict StepInfo.t);
  _registry : FlowRegistry.t;
  files : FileSystem
}.

(** The state right after [_registry = FlowRegistry()]. *)
Definition World0 : World :=
  {| heap := []; _registry := FlowRegistry.mk []; files := plain_files |}.

(** Reading and writing the dictionary at an address.  An address that
    holds no object reads as the empty dictionary and cannot be written;
    no state that the registry reaches has such an address (see
    [wf_world] below). *)
Definition load (a : addr) : M World (pydict StepInfo.t) :=
  gets (fun w => heap w !!! a).

Definition store (a : addr) (d : pydict StepInfo.t) : M World unit :=
  modify (fun w => {| heap := <[a := d]> (heap w);
                      _registry := _registry w; files := files w |}).

(** A new dictionary object with the items of [d]; its address. *)
Definition alloc (d : pydict StepInfo.t) : M World addr :=
  fun w => (Val (length (heap w)),
            {| heap := heap w ++ [d];
               _registry := _registry w; files := files w |}).

(** [self._steps.setdefault(flow_name, {})] *)
Definition _steps_setdefault (flow_name : string) : M World addr :=
  let* reg := gets (fun w => FlowRegistry._steps (_registry w)) in
  match PyDict.get flow_name reg with
  | Some a => ret a
  | None =>
      let* a := alloc [] in
      do modify (fun w =>
           {| heap := heap w;
              _registry := FlowRegistry.mk (PyDict.set flow_name a reg);
              files := files w |})
      then ret a
  end.

Definition conflict_message (info : StepInfo.t) : string :=
  "Conflicting registration for step '" +:+ StepInfo.name info +:+ "' "
  +:+ "in flow '" +:+ StepInfo.flow_name info +:+ "'".

(** [FlowRegistry.register] *)
Definition register (info : StepInfo.t) : M World unit :=
  let* flow_steps := _steps_setdefault (StepInfo.flow_name info) in
  let* d := load flow_steps in
  match PyDict.get (StepInfo.name info) d with
  | Some existing =>
      if negb (StepInfo.eqb existing info)
      then raise (ValueError (conflict_message info))
      else ret tt
  | None => store flow_steps (PyDict.set (StepInfo.name info) info d)
  end.

Definition not_found_message (name : string) : string :=
  "Flow '" +:+ name +:+ "' not found".

(** [FlowRegistry.get_flow] *)
Definition get_flow (name : string) : M World FlowInfo.t :=
  let* reg := gets (fun w => FlowRegistry._steps (_registry w)) in
  match PyDict.get name reg with
  | None => raise (KeyError (not_found_message name))
  | Some steps =>
      let* d := load steps in
      let entrypoints : gset string :=
        list_to_set (map StepInfo.name
                       (List.filter StepInfo.is_entrypoint (PyDict.values d))) in
      let* copy := alloc d in
      ret (FlowInfo.mk name copy entrypoints)
  end.

(** [FlowRegistry.get_all_flow_names] *)
Definition get_all_flow_names : M World (list string) :=
  gets (fun w => PyDict.keys (FlowRegistry._steps (_registry w))).

Definition missing_message (step ref : string) : string :=
  "Step '" +:+ step +:+ "' references unknown step '" +:+ ref +:+ "'".

(** The list comprehension of [validate_flow], as pairs (step, ref). *)
Definition missing_refs (steps : pydict StepInfo.t) : list (string * string) :=
  flat_map (fun step =>
              map (fun ref => (StepInfo.name step, ref))
                  (List.filter (fun ref => negb (PyDict.contains ref steps))
                               (StepInfo.after step)))
           (PyDict.values steps).

Definition invalid_references_message
    (name : string) (missing : list string) : string :=
  "Flow '" +:+ name +:+ "' has invalid references:" +:+ nl
  +:+ join nl (map (fun m => "  - " +:+ m) missing).

(** [FlowRegistry.validate_flow] *)
Definition validate_flow (name : string) : M World unit :=
  let* flow := get_flow name in
  let* steps := load (FlowInfo.steps flow) in
  let missing :=
    map (fun '(step, ref) => missing_message step ref) (missing_refs steps) in
  match missing with
  | _ :: _ => raise (ValueError (invalid_references_message name missing))
  | [] => ret tt
  end.

(** [FlowRegistry.clear]: [self._steps.clear()] empties the outer
    dictionary; the inner dictionaries become unreachable from it. *)
Definition clear : M World unit :=
  modify (fun w => {| heap := heap w; _registry := FlowRegistry.mk [];
                      files := files w |}).

(** Observations and invariants of the registry. *)

Definition reg (w : World) : pydict addr := FlowRegistry._steps (_registry w).

(** The step stored under (flow, step), if any. *)
Definition lookup_step (w : World) (flow step : string) : option StepInfo.t :=
  match PyDict.get flow (reg w) with
  | Some a => PyDict.get step (heap w !!! a)
  | None => None
  end.

(** What holds of every state the registry can reach: the flows point to
    allocated, pairwise distinct dictionaries, and every dictionary has
    distinct keys. *)
Record wf_world (w : World) : Prop := {
  wf_bound : forall f a, PyDict.get f (reg w) = Some a -> a < length (heap w);
  wf_inj : forall f1 f2 a,
    PyDict.get f1 (reg w) = Some a -> PyDict.get f2 (reg w) = Some a -> f1 = f2;
  wf_flows : PyDict.wf (reg w);
  wf_heap : Forall PyDict.wf (heap w)
}.

(** [wf_world] as a check. *)
Definition wf_worldb (w : World) : bool :=
  bool_decide (Forall (fun a => a < length (heap w)) (PyDict.values (reg w)))
  && bool_decide (NoDup (PyDict.values (reg w)))
  && bool_decide (NoDup (PyDict.keys (reg w)))
  && bool_decide (Forall (fun d => NoDup (PyDict.keys d)) (heap w)).

(** The state after a sequence of [register] calls, whether or not some
    of them raise. *)
Definition register_all (infos : list StepInfo.t) (w : World) : World :=
  foldl (fun w info => (register info w).2) w infos.

(* ===================================================================== *)
(** * [_dag.py]                                                           *)
(* ===================================================================== *)

(** Edges of the diagram: (predecessor, step). *)
Definition edge : Type := (string * string)%type.

(** Python orders tuples lexicographically: equal first components leave
    the decision to the second ones. *)
Definition edge_le (e1 e2 : edge) : Prop :=
  if decide (e1.1 = e2.1) then String.le e1.2 e2.2 else String.le e1.1 e2.1.

Global Instance edge_le_dec : RelDecision edge_le.
Proof.
  intros e1 e2. unfold edge_le. destruct (decide (e1.1 = e2.1)); apply _.
Defined.

(** [sorted(names)] and [edges.sort()].  Python's sort is a stable merge
    sort; both orders are total and antisymmetric, so the sorted list is
    determined by the items alone. *)
Definition sorted (l : list string) : list string := merge_sort String.le l.

Definition sort (l : list edge) : list edge := merge_sort edge_le l.

(** [Path(path).write_text(content)]: the file is opened for writing,
    which may raise, and then holds the text. *)
Definition write_text (path content : string) : M World unit :=
  fun w =>
    match open_for_write (files w) path with
    | Val file =>
        (Val tt,
         {| heap := heap w; _registry := _registry w;
            files := mkFileSystem (open_for_write (files w))
                       (PyDict.set file content (contents (files w))) |})
    | Exc e => (Exc e, w)
    end.

Definition edge_line (e : edge) : string :=
  "    " +:+ e.1 +:+ " --> " +:+ e.2.

Definition node_line (name : string) : string := "    " +:+ name.

(** The pairs collected from the [after] relationships. *)
Definition after_edges (steps : pydict StepInfo.t) : list edge :=
  flat_map (fun step =>
              map (fun predecessor => (predecessor, StepInfo.name step))
                  (StepInfo.after step))
           (PyDict.values steps).

(** The key under which a step is registered. *)
Definition step_key (i : StepInfo.t) : string * string :=
  (StepInfo.flow_name i, StepInfo.name i).

(** The first of [infos] with the key (flow, step). *)
Definition first_registered (flow step : string) (infos : list StepInfo.t)
  : option StepInfo.t :=
  find (fun i => String.eqb (StepInfo.flow_name i) flow
                 && String.eqb (StepInfo.name i) step) infos.

(** The text of the diagram of a dictionary of steps. *)
Definition render (steps : pydict StepInfo.t) : string :=
  join nl (["graph TD"] ++
           match sort (after_edges steps) with
           | [] => map node_line (sorted (PyDict.keys steps))
           | e :: es => map edge_line (e :: es)
           end) +:+ nl.

(** Sample steps. *)
Definition step_a : StepInfo.t := StepInfo.mk "a" "order" [] true.

Definition step_b : StepInfo.t := StepInfo.mk "b" "order" ["a"] false.

Definition step_c : StepInfo.t := StepInfo.mk "c" "order" ["b"; "a"] false.

Definition world_a : World := register_all [step_a] World0.

Definition world_abc : World := register_all [step_c; step_a; step_b] World0.

(** A stand-in for [repr] on strings without quotes or escapes. *)
Definition quote (s : string) : string := "'" +:+ s +:+ "'".

Section Dag.
(** [repr] of a [str], as [{format!r}] calls it. *)
Variable repr : string -> string.

(** [generate_dag] *)
Definition generate_dag (flow_name format : string) (output : option string)
  : M World (option string) :=
  if negb (String.eqb format "mermaid")
  then raise (ValueError ("Unsupported format: " +:+ repr format))
  else
    let* info := get_flow flow_name in
    let* steps := load (FlowInfo.steps info) in
    let lines := ["graph TD"] in
    let edges := after_edges steps in
    let edges := sort edges in
    let lines :=
      match edges with
      | [] => lines ++ map node_line (sorted (PyDict.keys steps))
      | _ :: _ => lines ++ map edge_line edges
      end in
    let diagram := join nl lines +:+ nl in
    match output with
    | Some path => do write_text path diagram then ret None
    | None => ret (Some diagram)
    end.
End Dag.

(* ===================================================================== *)
(** * [_context.py]                                                       *)
(* ===================================================================== *)

(** Metadata values ([Any] in the source).  A value is an immutable
    atom or a reference to an object of the heap.  The objects are
    sorted by what [copy.deepcopy] does with them:
    - lists and dictionaries, which it copies item by item;
    - functions and classes ([OCallable]), mutable through their
      attributes, which it returns as they are;
    - objects it cannot copy ([OUncopyable], with the name of their
      type: a lock, a generator, a module), for which it raises
      [TypeError]. *)
Inductive pyval : Type :=
  | VNone
  | VBool (b : bool)
  | VInt (z : Z)
  | VStr (s : string)
  | VRef (a : addr).

Inductive pyobj : Type :=
  | OList (items : list pyval)
  | ODict (items : pydict pyval)
  | OCallable (attrs : pydict pyval)
  | OUncopyable (type_name : string).

(** [class FlowContext].  Its two slots are assigned by [__init__] only,
    so a context is the pair of its id and of the address of its
    metadata dictionary. *)
Record FlowContext : Type := mkFlowContext {
  correlation_id : string;
  _metadata : addr
}.

(** The backends a configuration can hold: the two of the package, and
    user-defined instances of [TracingBackend]. *)
Inductive backend_ref : Type :=
  | LoggingBackend
  | OTelBackend
  | UserBackend (n : nat).

(** The interpreter state seen from one execution strand:
    - [objects]: the heap of metadata containers;
    - [_flow_context_var]: this strand's value of the context variable;
    - [uuid_source], [uuid_count]: the random source behind
      [uuid.uuid4()], as the sequence of the ids it will draw and the
      number drawn so far;
    - [_backend], [_configured]: the globals of [_config.py];
    - [_HAS_OTEL]: the constant of [backends/otel.py];
    - [_flow_name_cache]: the global of [_decorators.py]. *)
Record Interp : Type := mkInterp {
  objects : list pyobj;
  _flow_context_var : option FlowContext;
  uuid_source : nat -> string;
  uuid_count : nat;
  _backend : option backend_ref;
  _configured : bool;
  _HAS_OTEL : bool;
  _flow_name_cache : gmap nat string
}.

Definition set_objects (h : list pyobj) (st : Interp) : Interp :=
  mkInterp h (_flow_context_var st) (uuid_source st) (uuid_count st)
           (_backend st) (_configured st) (_HAS_OTEL st) (_flow_name_cache st).

Definition set_context_var (c : option FlowContext) (st : Interp) : Interp :=
  mkInterp (objects st) c (uuid_source st) (uuid_count st)
           (_backend st) (_configured st) (_HAS_OTEL st) (_flow_name_cache st).

Definition set_uuid_count (n : nat) (st : Interp) : Interp :=
  mkInterp (objects st) (_flow_context_var st) (uuid_source st) n
           (_backend st) (_configured st) (_HAS_OTEL st) (_flow_name_cache st).

Definition set_config (b : option backend_ref) (c : bool) (st : Interp) : Interp :=
  mkInterp (objects st) (_flow_context_var st) (uuid_source st) (uuid_count st)
           b c (_HAS_OTEL st) (_flow_name_cache st).

(** [uuid.uuid4().hex] *)
Definition uuid4_hex : M Interp string :=
  fun st => (Val (uuid_source st (uuid_count st)),
             set_uuid_count (S (uuid_count st)) st).

(** A new container object; its address. *)
Definition new_object (o : pyobj) : M Interp addr :=
  fun st => (Val (length (objects st)), set_objects (objects st ++ [o]) st).

(** [FlowContext.__init__] *)
Definition FlowContext_init
    (correlation_id : option string) (metadata : option addr)
  : M Interp FlowContext :=
  (* self.correlation_id = correlation_id or uuid.uuid4().hex *)
  let* cid := match correlation_id with
              | Some s => if truthy s then ret s else uuid4_hex
              | None => uuid4_hex
              end in
  (* self._metadata = metadata if metadata is not None else {} *)
  let* md := match metadata with
             | Some a => ret a
             | None => new_object (ODict [])
             end in
  ret (mkFlowContext cid md).

(** The dictionary behind [self._metadata].  The methods below are
    dictionary operations; on anything else they raise. *)
Definition metadata_items (self : FlowContext) : M Interp (pydict pyval) :=
  fun st => match objects st !! _metadata self with
            | Some (ODict d) => (Val d, st)
            | _ => (Exc (PyException "TypeError" "metadata is not a dict"), st)
            end.

Definition put_object (a : addr) (o : pyobj) : M Interp unit :=
  modify (fun st => set_objects (<[a := o]> (objects st)) st).

(** [FlowContext.get_value] *)
Definition get_value (self : FlowContext) (key : string) (default : pyval)
  : M Interp pyval :=
  let* d := metadata_items self in
  ret (match PyDict.get key d with Some v => v | None => default end).

(** [FlowContext.set_value] *)
Definition set_value (self : FlowContext) (key : string) (value : pyval)
  : M Interp unit :=
  let* d := metadata_items self in
  put_object (_metadata self) (ODict (PyDict.set key value d)).

(** [FlowContext.delete_value] *)
Definition delete_value (self : FlowContext) (key : string) : M Interp unit :=
  let* d := metadata_items self in
  if PyDict.contains key d
  then put_object (_metadata self) (ODict (PyDict.remove key d))
  else raise (KeyError key).

(** [FlowContext.metadata]: [dict(self._metadata)], a new dictionary with
    the same items. *)
Definition metadata (self : FlowContext) : M Interp addr :=
  let* d := metadata_items self in
  new_object (ODict d).

(** ** [copy.deepcopy] on the values above

    The library function keeps a memo from the address of an object to
    the address of its copy; an atom is its own copy, and so is a
    function or a class; a container is copied once: the empty copy is
    recorded in the memo first, then the copies of the items are added
    to it one by one.  Copying a container inside a container is a
    nested call: the interpreter raises [RecursionError] when the calls
    nest deeper than its recursion limit leaves room for. *)

Definition RecursionError : exn :=
  PyException "RecursionError" "maximum recursion depth exceeded".

Definition cannot_pickle (type_name : string) : exn :=
  PyException "TypeError" ("cannot pickle '" +:+ type_name +:+ "' object").

(** An address that holds no object; no reference of a Python program
    is dangling (see [heap_ok]). *)
Definition dangling_reference : exn :=
  PyException "SystemError" "dangling reference".

Definition copy_state : Type := (gmap addr addr * list pyobj)%type.

(** [y.append(v)] for the list at [b] *)
Definition list_append (b : addr) (v : pyval) (h : list pyobj) : list pyobj :=
  match h !! b with
  | Some (OList ys) => <[b := OList (ys ++ [v])]> h
  | _ => h
  end.

(** [y[k] = v] for the dictionary at [b] *)
Definition dict_setitem (b : addr) (k : string) (v : pyval) (h : list pyobj)
  : list pyobj :=
  match h !! b with
  | Some (ODict d) => <[b := ODict (PyDict.set k v d)]> h
  | _ => h
  end.

(** The loops [for a in x: y.append(deepcopy(a, memo))] and
    [for key, value in x.items(): y[key] = deepcopy(value, memo)]. *)
Fixpoint copy_items {X : Type}
    (copy1 : pyval -> copy_state -> result (pyval * copy_state))
    (item : X -> pyval) (put : X -> pyval -> list pyobj -> list pyobj)
    (xs : list X) (s : copy_state) : result copy_state :=
  match xs with
  | [] => Val s
  | x :: xs' =>
      match copy1 (item x) s with
      | Val (y, (memo, h)) => copy_items copy1 item put xs' (memo, put x y h)
      | Exc e => Exc e
      end
  end.

(** [deepcopy(x, memo)], where [room] is the number of nested copies of
    containers that the recursion limit still leaves room for. *)
Fixpoint deepcopy_rec (room : nat) (x : pyval) (s : copy_state)
  : result (pyval * copy_state) :=
  match x with
  | VRef a =>
      match s.1 !! a with
      | Some b => Val (VRef b, s)
      | None =>
          let b := length s.2 in
          match s.2 !! a with
          | Some (OList xs) =>
              match room with
              | 0 => Exc RecursionError
              | S room' =>
                  match copy_items (deepcopy_rec room') id
                          (fun _ y => list_append b y) xs
                          (<[a := b]> s.1, s.2 ++ [OList []]) with
                  | Val s' => Val (VRef b, s')
                  | Exc e => Exc e
                  end
              end
          | Some (ODict kvs) =>
              match room with
              | 0 => Exc RecursionError
              | S room' =>
                  match copy_items (deepcopy_rec room') snd
                          (fun kv y => dict_setitem b kv.1 y) kvs
                          (<[a := b]> s.1, s.2 ++ [ODict []]) with
                  | Val s' => Val (VRef b, s')
                  | Exc e => Exc e
                  end
              end
          | Some (OCallable _) => Val (x, s)
          | Some (OUncopyable type_name) => Exc (cannot_pickle type_name)
          | None => Exc dangling_reference
          end
      end
  | _ => Val (x, s)
  end.

(** [copy.deepcopy(x)], called where the recursion limit of the
    interpreter leaves room for [room] nested copies (the limit is
    [sys.getrecursionlimit()], and the frames already on the stack
    count against it).  When the copy raises, the objects it had made
    are unreachable and the heap is the one before the call. *)
Definition deepcopy (room : nat) (x : pyval) : M Interp pyval :=
  fun st =>
    match deepcopy_rec room x (∅, objects st) with
    | Val (y, (_, h)) => (Val y, set_objects h st)
    | Exc e => (Exc e, st)
    end.

(** [FlowContext.fork].  The copy of a reference is a reference. *)
Definition fork (room : nat) (self : FlowContext) : M Interp FlowContext :=
  let* md := deepcopy room (VRef (_metadata self)) in
  match md with
  | VRef a => FlowContext_init (Some (correlation_id self)) (Some a)
  | _ => raise (PyException "TypeError" "metadata is not a dict")
  end.

(** [_get_or_create_context] *)
Definition _get_or_create_context : M Interp FlowContext :=
  let* ctx := gets _flow_context_var in
  match ctx with
  | Some c => ret c
  | None =>
      let* c := FlowContext_init None None in
      do modify (set_context_var (Some c)) then ret c
  end.

(** [_set_context] *)
Definition _set_context (ctx : FlowContext) : M Interp unit :=
  modify (set_context_var (Some ctx)).

(** [_reset_context] *)
Definition _reset_context : M Interp unit :=
  modify (set_context_var None).

(** [current_flow_id] *)
Definition current_flow_id : M Interp (option string) :=
  let* ctx := gets _flow_context_var in
  ret (match ctx with Some c => Some (correlation_id c) | None => None end).

(** [get_flow_context] *)
Definition get_flow_context : M Interp (option FlowContext) :=
  gets _flow_context_var.

(** [set_flow_context_value] *)
Definition set_flow_context_value (key : string) (value : pyval)
  : M Interp unit :=
  let* c := _get_or_create_context in
  set_value c key value.

(** [get_flow_context_value] *)
Definition get_flow_context_value (key : string) (default : pyval)
  : M Interp pyval :=
  let* ctx := gets _flow_context_var in
  match ctx with
  | None => ret default
  | Some c => get_value c key default
  end.

(** ** What a reader of metadata can see

    [view n h v] unfolds the value [v] in the heap [h] down to depth [n].
    Two values with the same views at every depth cannot be told apart
    by reading. *)
Inductive tree : Type :=
  | TAtom (v : pyval)
  | TList (items : list tree)
  | TDict (items : list (string * tree))
  | TCallable (attrs : list (string * tree))
  | TUncopyable (type_name : string)
  | TCut
  | TDangling.

Fixpoint view (n : nat) (h : list pyobj) (v : pyval) : tree :=
  match v with
  | VRef a =>
      match n with
      | 0 => TCut
      | S n' =>
          match h !! a with
          | Some (OList xs) => TList (map (view n' h) xs)
          | Some (ODict kvs) =>
              TDict (map (fun kv => (kv.1, view n' h kv.2)) kvs)
          | Some (OCallable kvs) =>
              TCallable (map (fun kv => (kv.1, view n' h kv.2)) kvs)
          | Some (OUncopyable type_name) => TUncopyable type_name
          | None => TDangling
          end
      end
  | _ => TAtom v
  end.

(** The values an object holds. *)
Definition obj_values (o : pyobj) : list pyval :=
  match o with
  | OList xs => xs
  | ODict kvs => PyDict.values kvs
  | OCallable kvs => PyDict.values kvs
  | OUncopyable _ => []
  end.

(** [reach h v a]: the object at [a] can be reached from the value [v]
    by following references in [h]. *)
Inductive reach (h : list pyobj) : pyval -> addr -> Prop :=
  | reach_here a : reach h (VRef a) a
  | reach_step a o v c :
      h !! a = Some o -> v ∈ obj_values o -> reach h v c ->
      reach h (VRef a) c.

(** Every reference in the heap points to an object, and every
    dictionary has distinct keys. *)
Definition val_ok (n : nat) (v : pyval) : Prop :=
  match v with VRef a => a < n | _ => True end.

Definition obj_ok (n : nat) (o : pyobj) : Prop :=
  Forall (val_ok n) (obj_values o) /\
  match o with
  | ODict kvs | OCallable kvs => PyDict.wf kvs
  | OList _ | OUncopyable _ => True
  end.

Definition heap_ok (h : list pyobj) : Prop := Forall (obj_ok (length h)) h.

(* ===================================================================== *)
(** * [_config.py]                                                        *)
(* ===================================================================== *)

(** [OTelBackend()]: the constructor fails when the library is absent. *)
Definition OTelBackend_new : M Interp backend_ref :=
  let* has := gets _HAS_OTEL in
  if negb has
  then raise (RuntimeError
         ("opentelemetry-api is required for OTelBackend. "
          +:+ "Install it with: pip install opentelemetry-api opentelemetry-sdk"))
  else ret OTelBackend.

(** [try: body except RuntimeError: handler] *)
Definition except_RuntimeError {A} (body handler : M Interp A) : M Interp A :=
  fun st => match body st with
            | (Exc (RuntimeError _), st') => handler st'
            | r => r
            end.

(** [_auto_detect] *)
Definition _auto_detect : M Interp backend_ref :=
  except_RuntimeError OTelBackend_new (ret LoggingBackend).

(** The argument of [configure]: a backend instance or a string. *)
Inductive backend_arg : Type :=
  | ArgInstance (b : backend_ref)
  | ArgStr (s : string).

Section Config.
(** [repr] of a [str], as [{backend!r}] calls it. *)
Variable repr : string -> string.

(** [configure] *)
Definition configure (backend : backend_arg) : M Interp unit :=
  let* b :=
    match backend with
    | ArgInstance b => ret b
    | ArgStr s =>
        if String.eqb s "logging" then ret LoggingBackend
        else if String.eqb s "otel" then OTelBackend_new
        else if String.eqb s "auto" then _auto_detect
        else raise (ValueError ("Unknown backend: " +:+ repr s))
    end in
  modify (set_config (Some b) true).
End Config.

(** [get_backend] *)
Definition get_backend : M Interp backend_ref :=
  let* configured := gets _configured in
  if configured
  then
    let* b := gets _backend in
    match b with
    | Some b => ret b
    | None => raise AssertionError
    end
  else
    let* b := _auto_detect in
    do modify (set_config (Some b) true) then ret b.

(** [reset] *)
Definition reset : M Interp unit := modify (set_config None false).

(** The invariant of the configuration: once configured, a backend is
    set. *)
Definition config_ok (st : Interp) : Prop :=
  _configured st = true -> _backend st <> None.

(* ===================================================================== *)
(** * [backends/base.py] and [_decorators.py]                             *)
(* ===================================================================== *)

(** A context manager: what runs on entering the [with] block, and what
    runs on leaving it, given the exception that left the block, if any;
    the latter answers whether the exception is suppressed. *)
Record ContextManager : Type := mkContextManager {
  handle : Type;
  enter : M Interp handle;
  exit : handle -> option exn -> M Interp bool
}.

(** [class TracingBackend(ABC)] *)
Record TracingBackend : Type := mkTracingBackend {
  span : string -> string -> ContextManager;
  get_correlation_id : M Interp string
}.

(** [with cm: return body].  When [exit] suppresses the exception of the
    body, control falls off the end of the function, which returns
    [None]. *)
Definition with_return (cm : ContextManager) (body : M Interp pyval)
  : M Interp pyval :=
  fun st =>
    match enter cm st with
    | (Exc e, st1) => (Exc e, st1)
    | (Val h, st1) =>
        match body st1 with
        | (Val v, st2) =>
            match exit cm h None st2 with
            | (Val _, st3) => (Val v, st3)
            | (Exc e, st3) => (Exc e, st3)
            end
        | (Exc e, st2) =>
            match exit cm h (Some e) st2 with
            | (Val true, st3) => (Val VNone, st3)
            | (Val false, st3) => (Exc e, st3)
            | (Exc e', st3) => (Exc e', st3)
            end
        end
    end.

(** The [after=] argument of the decorators. *)
Inductive after_item : Type :=
  | AfterStr (s : string)
  | AfterCallable (name : string).

Inductive after_arg : Type :=
  | AfterNone
  | AfterOne (item : after_item)
  | AfterList (items : list after_item).

Definition after_item_name (i : after_item) : string :=
  match i with AfterStr s => s | AfterCallable n => n end.

(** [_normalize_after] *)
Definition _normalize_after (after : after_arg) : list string :=
  match after with
  | AfterNone => []
  | AfterOne i => [after_item_name i]
  | AfterList l => map after_item_name l
  end.

(** A function object: its name attributes, whether it is a coroutine
    function, and its body applied to arguments. *)
Record pyfunc : Type := mkPyfunc {
  __name__ : string;
  __qualname__ : string;
  iscoroutinefunction : bool;
  call : list pyval -> M Interp pyval
}.

(** The [__penstock_step__] attribute. *)
Record marker : Type := mkMarker {
  marker_name : string;
  marker_after : list string;
  marker_is_entrypoint : bool
}.

(** A wrapper made by a decorator: its identity [id(wrapper)], the
    function attributes copied by [functools.wraps], and its marker. *)
Record wrapped : Type := mkWrapped {
  wrapper_id : nat;
  wrapper_func : pyfunc;
  __penstock_step__ : marker
}.

(** [_resolve_flow_name] *)
Definition _resolve_flow_name (fid : nat) (qualname : string) : M Interp string :=
  let* cache := gets _flow_name_cache in
  match cache !! fid with
  | Some cached => ret cached
  | None =>
      match rsplit_dot qualname with
      | Some (prefix, _) => ret prefix
      | None => ret "<unknown>"
      end
  end.

Definition outside_flow_message (step_name : string) : string :=
  "@step '" +:+ step_name +:+ "' called outside of a flow context. "
  +:+ "Ensure an @entrypoint has been called first.".

Section Decorators.
(** The behaviour of each backend instance. *)
Variable backend_impl : backend_ref -> TracingBackend.

(** The body of [wrapper] in [_make_entrypoint].  [async_wrapper] has
    the same statements with [await fn(...)] for [fn(...)]; on the
    strand that awaits it the coroutine is the same state transformer. *)
Definition entrypoint_wrapper
    (step_name : string) (fid : nat) (fn : pyfunc) (args : list pyval)
  : M Interp pyval :=
  do (let* ctx := FlowContext_init None None in _set_context ctx) then
  let* backend := get_backend in
  try_finally
    (let* flow_name := _resolve_flow_name fid (__qualname__ fn) in
     with_return (span (backend_impl backend) step_name flow_name)
                 (call fn args))
    _reset_context.

Definition entrypoint_async_wrapper
    (step_name : string) (fid : nat) (fn : pyfunc) (args : list pyval)
  : M Interp pyval :=
  do (let* ctx := FlowContext_init None None in _set_context ctx) then
  let* backend := get_backend in
  try_finally
    (let* flow_name := _resolve_flow_name fid (__qualname__ fn) in
     with_return (span (backend_impl backend) step_name flow_name)
                 (call fn args))
    _reset_context.

(** [name or fn.__name__] *)
Definition step_name_of (fn : pyfunc) (name : option string) : string :=
  match name with
  | Some n => if truthy n then n else __name__ fn
  | None => __name__ fn
  end.

(** [_make_entrypoint]; [fid] is the identity of the wrapper it
    creates. *)
Definition _make_entrypoint
    (fid : nat) (fn : pyfunc) (name : option string) (after : after_arg)
  : wrapped :=
  let step_name := step_name_of fn name in
  let after_tuple := _normalize_after after in
  mkWrapped fid
    (mkPyfunc (__name__ fn) (__qualname__ fn) (iscoroutinefunction fn)
       (if iscoroutinefunction fn
        then entrypoint_async_wrapper step_name fid fn
        else entrypoint_wrapper step_name fid fn))
    (mkMarker step_name after_tuple true).

(** The body of [wrapper] in [_make_step], and of its [async_wrapper]. *)
Definition step_wrapper
    (step_name : string) (fid : nat) (fn : pyfunc) (args : list pyval)
  : M Interp pyval :=
  let* ctx := get_flow_context in
  match ctx with
  | None => raise (RuntimeError (outside_flow_message step_name))
  | Some _ =>
      let* backend := get_backend in
      let* flow_name := _resolve_flow_name fid (__qualname__ fn) in
      with_return (span (backend_impl backend) step_name flow_name)
                  (call fn args)
  end.

Definition step_async_wrapper
    (step_name : string) (fid : nat) (fn : pyfunc) (args : list pyval)
  : M Interp pyval :=
  let* ctx := get_flow_context in
  match ctx with
  | None => raise (RuntimeError (outside_flow_message step_name))
  | Some _ =>
      let* backend := get_backend in
      let* flow_name := _resolve_flow_name fid (__qualname__ fn) in
      with_return (span (backend_impl backend) step_name flow_name)
                  (call fn args)
  end.

(** [_make_step] *)
Definition _make_step
    (fid : nat) (fn : pyfunc) (name : option string) (after : after_arg)
  : wrapped :=
  let step_name := step_name_of fn name in
  let after_tuple := _normalize_after after in
  mkWrapped fid
    (mkPyfunc (__name__ fn) (__qualname__ fn) (iscoroutinefunction fn)
       (if iscoroutinefunction fn
        then step_async_wrapper step_name fid fn
        else step_wrapper step_name fid fn))
    (mkMarker step_name after_tuple false).

(** [entrypoint] and [step]: used bare ([fn] given) or with arguments. *)
Definition entrypoint
    (fid : nat) (fn : pyfunc) (name : option string) (after : after_arg)
    (bare : bool) : wrapped :=
  if bare then _make_entrypoint fid fn None AfterNone
  else _make_entrypoint fid fn name after.

Definition step
    (fid : nat) (fn : pyfunc) (name : option string) (after : after_arg)
    (bare : bool) : wrapped :=
  if bare then _make_step fid fn None AfterNone
  else _make_step fid fn name after.
End Decorators.

(** Sample data for the decorators: a backend whose spans do nothing, a
    function that returns [current_flow_id()], one that raises, and an
    initial interpreter state whose random source draws ["id0"],
    ["id1"], and so on. *)
Definition null_span : ContextManager :=
  mkContextManager unit (ret tt) (fun _ _ => ret false).

Definition null_backend : TracingBackend :=
  mkTracingBackend (fun _ _ => null_span) (ret "").

Definition probe : pyfunc :=
  mkPyfunc "probe" "Flow.probe" false
    (fun _ => let* cid := current_flow_id in
              ret (match cid with Some s => VStr s | None => VNone end)).

Definition failing : pyfunc :=
  mkPyfunc "failing" "Flow.failing" false
    (fun _ => raise (ValueError "boom")).

Fixpoint digits (n : nat) : string :=
  match n with 0 => "" | S n' => String "1"%char (digits n') end.

Definition Interp0 : Interp :=
  mkInterp [] None (fun n => "id" +:+ digits n) 0 None false false ∅.

(** [Interp0] inside a flow whose context was restored from the id
    ["outer"]. *)
Definition Interp_outer : Interp :=
  mkInterp [ODict []] (Some (mkFlowContext "outer" 0))
           (fun n => "id" +:+ digits n) 0 (Some LoggingBackend) true false ∅.

(* ===================================================================== *)
(** * Invariants of [deepcopy]                                            *)
(* ===================================================================== *)

(** Throughout, [h0] is the heap in which the copy started.  The objects
    of [h0] are the old ones; the copy only adds objects after them. *)

(** [y] is the copy of [x] under [memo]: an atom is its own copy, a
    reference is mapped by the memo. *)
Definition copied (memo : gmap addr addr) (x y : pyval) : Prop :=
  match x with
  | VRef a => exists b, memo !! a = Some b /\ y = VRef b
  | _ => y = x
  end.

(** [o'] has the shape of [o], its items being copies of those of [o]. *)
Definition items_copied (memo : gmap addr addr) (o o' : pyobj) : Prop :=
  match o, o' with
  | OList xs, OList ys => Forall2 (copied memo) xs ys
  | ODict kvs, ODict kvs' =>
      Forall2 (fun kv kv' => kv.1 = kv'.1 /\ copied memo kv.2 kv'.2) kvs kvs'
  | _, _ => False
  end.

(** The copy of the object at [a] is complete. *)
Definition entry_ok (h0 : list pyobj) (s : copy_state) (a : addr) : Prop :=
  exists b o o',
    s.1 !! a = Some b /\ h0 !! a = Some o /\ s.2 !! b = Some o' /\
    items_copied s.1 o o'.

(** A value of a new object: an atom or a reference to a new object. *)
Definition new_val (n0 : nat) (h : list pyobj) (v : pyval) : Prop :=
  match v with VRef c => n0 <= c < length h | _ => True end.

Record base_inv (h0 : list pyobj) (s : copy_state) : Prop := {
  bi_prefix : h0 `prefix_of` s.2;
  bi_memo : forall a b,
    s.1 !! a = Some b -> a < length h0 /\ length h0 <= b < length s.2;
  bi_new : forall b o,
    length h0 <= b -> s.2 !! b = Some o ->
    Forall (new_val (length h0) s.2) (obj_values o)
}.

(** Every object in the memo whose copy is not in progress (not in [P])
    is completely copied. *)
Definition done_inv (h0 : list pyobj) (P : gset addr) (s : copy_state) : Prop :=
  forall a, is_Some (s.1 !! a) -> a ∉ P -> entry_ok h0 s a.

(** The number of objects of [R] not yet in the memo. *)
Definition todo (R : gset addr) (memo : gmap addr addr) : nat :=
  size (R ∖ dom memo).

(** What [deepcopy] copies item by item: a value is in [R] when it is an
    atom or a reference to an object listed in [R]; [R] is a copyable
    set of the heap [h] when it lists lists and dictionaries only, and
    every reference they hold is to an object of [R] again.  The
    objects reachable from a metadata dictionary that was built from
    atoms, lists and dictionaries form such a set. *)
Definition val_in (R : list addr) (v : pyval) : Prop :=
  match v with VRef c => c ∈ R | _ => True end.

Definition copyable_at (h : list pyobj) (R : list addr) (a : addr) : Prop :=
  match h !! a with
  | Some (OList xs) => Forall (val_in R) xs
  | Some (ODict kvs) => Forall (val_in R) (PyDict.values kvs)
  | _ => False
  end.

Definition copyable_set (h : list pyobj) (R : list addr) : Prop :=
  Forall (copyable_at h R) R.

(** What one call of [deepcopy] does to the state. *)
Record step_post (h0 : list pyobj) (P : gset addr) (s s' : copy_state)
  : Prop := {
  sp_base : base_inv h0 s';
  sp_done : done_inv h0 P s';
  sp_memo : s.1 ⊆ s'.1;
  sp_heap : s.2 `prefix_of` s'.2;
  sp_fresh : forall a b,
    s.1 !! a = None -> s'.1 !! a = Some b -> length s.2 <= b
}.

(** The invariant of the loop that copies the items of the object at
    [a] into the new object at [b], started in the state [s0]: [l] pairs
    the items handled so far with their copies, and [build l] is the
    new object built from them. *)
Record loop_inv (h0 : list pyobj) {X : Type} (item : X -> pyval)
    (build : list (X * pyval) -> pyobj) (a b : addr) (P : gset addr)
    (s0 s : copy_state) (l : list (X * pyval)) : Prop := {
  li_base : base_inv h0 s;
  li_done : done_inv h0 (P ∪ {[a]}) s;
  li_memo : <[a := b]> s0.1 ⊆ s.1;
  li_heap : s0.2 `prefix_of` s.2;
  li_len : b < length s.2;
  li_img : forall a' b',
    s.1 !! a' = Some b' ->
    (a' = a /\ b' = b) \/ s0.1 !! a' = Some b' \/ (s0.1 !! a' = None /\ b < b');
  li_obj : s.2 !! b = Some (build l);
  li_cop : Forall (fun p => copied s.1 (item p.1) p.2) l
}.

(** A sequence of writes to the heap: each replaces the object at an
    address. *)
Definition apply_writes (ws : list (addr * pyobj)) (h : list pyobj)
  : list pyobj :=
  foldl (fun h w => <[w.1 := w.2]> h) h ws.

(** The dictionary built so far by the loop over the items of a
    dictionary: each source item with the copy of its value. *)
Definition dict_built (l : list ((string * pyval) * pyval)) : pyobj :=
  ODict (map (fun p => (p.1.1, p.2)) l).

Global Instance val_ok_dec n v : Decision (val_ok n v).
Proof. destruct v; simpl; apply _. Defined.

Global Instance obj_ok_dec n o : Decision (obj_ok n o).
Proof. unfold obj_ok, PyDict.wf. destruct o; apply _. Defined.

Global Instance heap_ok_dec h : Decision (heap_ok h).
Proof. unfold heap_ok. apply _. Defined.

Global Instance val_in_dec R v : Decision (val_in R v).
Proof. destruct v; simpl; apply _. Defined.

Global Instance copyable_at_dec h R a : Decision (copyable_at h R a).
Proof.
  unfold copyable_at. destruct (h !! a) as [[xs|kvs|kvs|name]|]; apply _.
Defined.

Global Instance copyable_set_dec h R : Decision (copyable_set h R).
Proof. unfold copyable_set. apply _. Defined.

(** A context is usable in a heap when its metadata is a dictionary of
    that heap, and its id was accepted by [__init__]. *)
Definition ctx_ok (st : Interp) (ctx : FlowContext) : Prop :=
  correlation_id ctx <> "" /\
  exists d, objects st !! _metadata ctx = Some (ODict d).

(** Sample data for [fork]: a context whose metadata holds a number and
    a list that refers back to the metadata. *)
Definition Interp_cyclic : Interp :=
  mkInterp [ODict [("n", VInt 1); ("items", VRef 1)];
            OList [VStr "x"; VRef 0]]
           (Some (mkFlowContext "cid" 0))
           (fun n => "id" +:+ digits n) 0 (Some LoggingBackend) true false ∅.

(** A context whose metadata holds a function, which has an attribute. *)
Definition Interp_hook : Interp :=
  mkInterp [ODict [("hook", VRef 1)]; OCallable [("calls", VInt 0)]]
           (Some (mkFlowContext "cid" 0))
           (fun n => "id" +:+ digits n) 0 (Some LoggingBackend) true false ∅.

(** A context whose metadata holds a list in a list in a list. *)
Definition Interp_nested : Interp :=
  mkInterp [ODict [("deep", VRef 1)]; OList [VRef 2]; OList [VRef 3];
            OList [VInt 0]]
           (Some (mkFlowContext "cid" 0))
           (fun n => "id" +:+ digits n) 0 (Some LoggingBackend) true false ∅.

(** A context whose metadata holds a lock. *)
Definition Interp_lock : Interp :=
  mkInterp [ODict [("guard", VRef 1)]; OUncopyable "_thread.lock"]
           (Some (mkFlowContext "cid" 0))
           (fun n => "id" +:+ digits n) 0 (Some LoggingBackend) true false ∅.

(* ===================================================================== *)
(** * More observations of the registry                                   *)
(* ===================================================================== *)

(** The outcomes of a sequence of [register] calls, in order. *)
Fixpoint register_results (infos : list StepInfo.t) (w : World)
  : list (result unit) :=
  match infos with
  | [] => []
  | i :: rest => (register i w).1 :: register_results rest (register i w).2
  end.

(** The dictionary of steps of a flow, empty for an unknown flow. *)
Definition flow_steps (w : World) (flow : string) : pydict StepInfo.t :=
  match PyDict.get flow (reg w) with
  | Some a => heap w !!! a
  | None => []
  end.

(** The steps of [infos] that belong to [flow], as dictionary items. *)
Definition items_of_flow (flow : string) (infos : list StepInfo.t)
  : pydict StepInfo.t :=
  map (fun i => (StepInfo.name i, i))
      (List.filter (fun i => String.eqb (StepInfo.flow_name i) flow) infos).

(** Every entry is stored under its own names. *)
Definition keys_ok (w : World) : Prop :=
  forall f n s, lookup_step w f n = Some s ->
                StepInfo.name s = n /\ StepInfo.flow_name s = f.

(* ===================================================================== *)
(** * Sequences of calls to [_config.py]                                  *)
(* ===================================================================== *)

Inductive config_call : Type :=
  | CallConfigure (backend : backend_arg)
  | CallGetBackend
  | CallReset.

Section ConfigCalls.
Variable repr : string -> string.

Definition run_config_call (c : config_call) (st : Interp) : Interp :=
  match c with
  | CallConfigure backend => (configure repr backend st).2
  | CallGetBackend => (get_backend st).2
  | CallReset => (reset st).2
  end.

Definition run_config_calls (cs : list config_call) (st : Interp) : Interp :=
  foldl (fun st c => run_config_call c st) st cs.
End ConfigCalls.

(* ===================================================================== *)
(** * [_decorators.py]: the class decorator [flow]                        *)
(* ===================================================================== *)

(** An attribute of a class body: a function made by [entrypoint] or
    [step], which carries the marker, or anything else, for which
    [getattr(obj, _STEP_MARKER, None)] is [None]. *)
Inductive class_attr : Type :=
  | MarkedAttr (w : wrapped)
  | PlainAttr.

(** A class: its attributes in definition order ([vars(cls)]) and the
    attribute [__penstock_flow__] that [flow] stamps on it. *)
Record pyclass : Type := mkPyclass {
  class_vars : list (string * class_attr);
  __penstock_flow__ : option string
}.

(** [flow] touches both the registry and the cache of flow names. *)
Record Program : Type := mkProgram {
  world : World;
  interp : Interp
}.

Definition in_world {A} (m : M World A) : M Program A :=
  fun p => match m (world p) with
           | (r, w) => (r, mkProgram w (interp p))
           end.

Definition in_interp {A} (m : M Interp A) : M Program A :=
  fun p => match m (interp p) with
           | (r, st) => (r, mkProgram (world p) st)
           end.

(** [_flow_name_cache[fid] = name] *)
Definition _flow_name_cache_set (fid : nat) (name : string) : M Interp unit :=
  modify (fun st =>
    mkInterp (objects st) (_flow_context_var st) (uuid_source st)
             (uuid_count st) (_backend st) (_configured st) (_HAS_OTEL st)
             (<[fid := name]> (_flow_name_cache st))).

(** The loop of [decorator] over the attributes. *)
Fixpoint flow_scan (name : string) (attrs : list (string * class_attr))
  : M Program unit :=
  match attrs with
  | [] => ret tt
  | (attr_name, obj) :: rest =>
      do match obj with
         | MarkedAttr w =>
             let marker := __penstock_step__ w in
             let info := StepInfo.mk (marker_name marker) name
                                     (marker_after marker)
                                     (marker_is_entrypoint marker) in
             do in_world (register info) then
             in_interp (_flow_name_cache_set (wrapper_id w) name)
         | PlainAttr => ret tt
         end
      then flow_scan name rest
  end.

(** [flow(name)(cls)] *)
Definition flow (name : string) (cls : pyclass) : M Program pyclass :=
  let cls := mkPyclass (class_vars cls) (Some name) in
  do flow_scan name (class_vars cls) then ret cls.

(** The wrappers among the attributes of a class. *)
Fixpoint marked_wrappers (attrs : list (string * class_attr)) : list wrapped :=
  match attrs with
  | [] => []
  | (_, MarkedAttr w) :: rest => w :: marked_wrappers rest
  | (_, PlainAttr) :: rest => marked_wrappers rest
  end.

(** The step that [flow] registers for a wrapper. *)
Definition step_of_wrapper (name : string) (w : wrapped) : StepInfo.t :=
  StepInfo.mk (marker_name (__penstock_step__ w)) name
              (marker_after (__penstock_step__ w))
              (marker_is_entrypoint (__penstock_step__ w)).

(* ===================================================================== *)
(** * [backends/logging.py]                                               *)
(* ===================================================================== *)

(** [LoggingBackend.get_correlation_id] *)
Definition LoggingBackend_get_correlation_id : M Interp string :=
  let* cid := current_flow_id in
  match cid with
  | Some c => ret c
  | None =>
      let* ctx := _get_or_create_context in
      ret (correlation_id ctx)
  end.

(* ===================================================================== *)
(** * [contrib/celery.py]                                                 *)
(* ===================================================================== *)

(** The body of [wrapper] in [flow_task]; [headers] is the value of the
    keyword argument [__penstock_headers__], if it was passed. *)
Definition flow_task_wrapper
    (fn : pyfunc) (args : list pyval) (headers : option (pydict string))
  : M Interp pyval :=
  (* headers = kwargs.pop("__penstock_headers__", {}) *)
  let headers := match headers with Some h => h | None => [] end in
  let cid := PyDict.get "penstock_correlation_id" headers in
  let* ctx := FlowContext_init cid None in
  do _set_context ctx then
  try_finally (call fn args) _reset_context.

(** [_penstock_headers], the helper attached to the wrapper. *)
Definition _penstock_headers : M Interp (pydict string) :=
  let* cid := current_flow_id in
  ret (match cid with
       | Some c => [("penstock_correlation_id", c)]
       | None => []
       end).

(* ===================================================================== *)
(** * [contrib/django.py]                                                 *)
(* ===================================================================== *)

(** [FlowMiddleware.__call__]; a response is the mapping of its
    headers. *)
Definition FlowMiddleware_call
    (get_response : pyval -> M Interp (pydict string)) (request : pyval)
  : M Interp (pydict string) :=
  let* ctx := FlowContext_init None None in
  do _set_context ctx then
  try_finally
    (let* response := get_response request in
     ret (PyDict.set "X-Correlation-ID" (correlation_id ctx) response))
    _reset_context.

(* ===================================================================== *)
(** * [contrib/structlog.py]                                              *)
(* ===================================================================== *)

(** [flow_processor]; the updated [event_dict] is the result. *)
Definition flow_processor
    (_logger : pyval) (_method_name : string) (event_dict : pydict pyval)
  : M Interp (pydict pyval) :=
  let* cid := current_flow_id in
  ret (match cid with
       | Some c => PyDict.set "flow_id" (VStr c) event_dict
       | None => event_dict
       end).

(* ===================================================================== *)
(** * Auxiliary notions for the statements about the decorators           *)
(* ===================================================================== *)

(** Whether a string contains a dot. *)
Fixpoint has_dot (s : string) : bool :=
  match s with
  | EmptyString => false
  | String c s' => Ascii.eqb c "."%char || has_dot s'
  end.

(** [LoggingBackend.span].  The log records and the clock are not part
    of the interpreter state; what is left of the generator is the call
    of [get_correlation_id] on entering, and an exit that lets the
    exception of the block through. *)
Definition LoggingBackend_span (step_name flow_name : string) : ContextManager :=
  mkContextManager unit
    (do LoggingBackend_get_correlation_id then ret tt)
    (fun _ _ => ret false).

Definition LoggingBackend_impl : TracingBackend :=
  mkTracingBackend LoggingBackend_span LoggingBackend_get_correlation_id.

(** A span that, inside a flow, leaves the interpreter state alone and
    never suppresses an exception. *)
Definition transparent (cm : ContextManager) : Prop :=
  (exists h, forall st, _flow_context_var st <> None -> enter cm st = (Val h, st)) /\
  (forall h e st, exit cm h e st = (Val false, st)).

(** The interpreter state with another cache of flow names. *)
Definition with_flow_name_cache (m : gmap nat string) (st : Interp) : Interp :=
  mkInterp (objects st) (_flow_context_var st) (uuid_source st)
           (uuid_count st) (_backend st) (_configured st) (_HAS_OTEL st) m.

(** The steps that [flow] registers for the attributes [attrs]. *)
Definition steps_of_attrs (name : string) (attrs : list (string * class_attr))
  : list StepInfo.t :=
  map (step_of_wrapper name) (marked_wrappers attrs).

(** The cache of flow names after [flow] has gone over the wrappers
    [ws]. *)
Definition cache_after (name : string) (ws : list wrapped)
    (cache : gmap nat string) : gmap nat string :=
  foldl (fun m w => <[wrapper_id w := name]> m) cache ws.

(** Sample data for [flow]: a class with an entrypoint, a plain
    attribute and a step. *)
Definition sample_class : pyclass :=
  mkPyclass
    [("receive", MarkedAttr (_make_entrypoint (fun _ => LoggingBackend_impl)
                               1 probe None AfterNone));
     ("limit", PlainAttr);
     ("ship", MarkedAttr (_make_step (fun _ => LoggingBackend_impl)
                            2 failing (Some "ship")
                            (AfterOne (AfterCallable "probe"))))]
    None.

Definition Program0 : Program := mkProgram World0 Interp0.

(** A registry in which the flow already has another step ["ship"]. *)
Definition world_ship : World :=
  register_all [StepInfo.mk "ship" "order" [] false] World0.

(* ===================================================================== *)
(** * Part II: lemmas and theorems                                         *)
(* ===================================================================== *)

(* ===================================================================== *)
(** * Facts about dictionaries                                            *)
(* ===================================================================== *)

Module PyDictFacts.
Import PyDict.
Section Facts.
Context {V : Type}.
Implicit Types (d : pydict V) (k : string) (v : V).

Lemma get_None k d : get k d = None <-> k ∉ keys d.
Proof.
  induction d as [|[k' v] d IH]; simpl.
  - split; [intros _; apply not_elem_of_nil | done].
  - rewrite not_elem_of_cons. destruct (String.eqb_spec k' k) as [->|Hne].
    + split; [done | intros [H _]; done].
    + rewrite IH. split; [intros H; split; [congruence | done] | tauto].
Qed.

Lemma get_Some_elem k v d : get k d = Some v -> (k, v) ∈ d.
Proof.
  induction d as [|[k' v'] d IH]; simpl; [done|].
  destruct (String.eqb_spec k' k) as [->|Hne].
  - intros [= ->]. left.
  - intros H. right. auto.
Qed.

Lemma elem_get k v d : wf d -> (k, v) ∈ d -> get k d = Some v.
Proof.
  unfold wf. induction d as [|[k' v'] d IH]; simpl.
  - intros _ H. by apply elem_of_nil in H.
  - rewrite NoDup_cons. intros [Hni Hnd] [E|I]%elem_of_cons.
    + injection E as -> ->. by rewrite String.eqb_refl.
    + destruct (String.eqb_spec k' k) as [->|Hne]; [|auto].
      exfalso. apply Hni. apply (list_elem_of_fmap_2 fst) in I. exact I.
Qed.

Lemma contains_true k d : contains k d = true <-> k ∈ keys d.
Proof.
  unfold contains. destruct (get k d) eqn:E.
  - split; [intros _ | done].
    apply get_Some_elem in E. by apply (list_elem_of_fmap_2 fst) in E.
  - apply get_None in E. split; [done | tauto].
Qed.

Lemma contains_false k d : contains k d = false <-> k ∉ keys d.
Proof.
  rewrite <- contains_true. destruct (contains k d); split; congruence.
Qed.

Lemma set_absent k v d : get k d = None -> set k v d = d ++ [(k, v)].
Proof.
  induction d as [|[k' v'] d IH]; simpl; [done|].
  destruct (String.eqb k' k); [done|].
  intros H. by rewrite IH.
Qed.

Lemma get_set_eq k v d : get k (set k v d) = Some v.
Proof.
  induction d as [|[k' v'] d IH]; simpl.
  - by rewrite String.eqb_refl.
  - destruct (String.eqb k' k) eqn:E; simpl; by rewrite E.
Qed.

Lemma get_set_ne k k' v d : k <> k' -> get k' (set k v d) = get k' d.
Proof.
  intros Hne. induction d as [|[k0 v0] d IH]; simpl.
  - by destruct (String.eqb_spec k k').
  - destruct (String.eqb_spec k0 k) as [->|H0]; simpl.
    + by destruct (String.eqb_spec k k').
    + by destruct (String.eqb k0 k').
Qed.

Lemma keys_set_present k v d :
  get k d <> None -> keys (set k v d) = keys d.
Proof.
  induction d as [|[k' v'] d IH]; simpl; [done|].
  destruct (String.eqb k' k); simpl; [done|].
  intros H. by rewrite IH.
Qed.

Lemma wf_set k v d : wf d -> wf (set k v d).
Proof.
  unfold wf. intros Hd. destruct (get k d) eqn:E.
  - rewrite keys_set_present; [done | congruence].
  - rewrite set_absent by done. unfold keys. rewrite map_app. simpl.
    apply NoDup_app. split; [done|]. split.
    + intros x Hx ->%list_elem_of_singleton. by apply get_None in E.
    + apply NoDup_singleton.
Qed.

Lemma wf_nil : wf ([] : pydict V).
Proof. apply NoDup_nil_2. Qed.

(** Two well-formed dictionaries with the same lookups hold the same
    items, possibly in another insertion order. *)
Lemma same_get_Permutation d1 d2 :
  wf d1 -> wf d2 -> (forall k, get k d1 = get k d2) -> d1 ≡ₚ d2.
Proof.
  intros H1 H2 Hg. apply NoDup_Permutation.
  - eapply NoDup_fmap_1. exact H1.
  - eapply NoDup_fmap_1. exact H2.
  - intros [k v]. split; intros Hin.
    + apply get_Some_elem. rewrite <- Hg. by apply elem_get.
    + apply get_Some_elem. rewrite Hg. by apply elem_get.
Qed.

End Facts.
End PyDictFacts.

(* ===================================================================== *)
(** * Structural equality of [StepInfo]                                   *)
(* ===================================================================== *)

Lemma tuple_eqb_spec l1 l2 : reflect (l1 = l2) (tuple_eqb l1 l2).
Proof.
  revert l2. induction l1 as [|x l1 IH]; intros [|y l2]; simpl;
    try (constructor; congruence).
  destruct (String.eqb_spec x y) as [->|Hne]; simpl.
  - destruct (IH l2) as [->|Hne]; constructor; congruence.
  - constructor. congruence.
Qed.

(** The generated [__eq__] holds exactly when the four fields agree. *)
Lemma StepInfo_eqb_spec a b : reflect (a = b) (StepInfo.eqb a b).
Proof.
  destruct a as [n1 f1 a1 e1], b as [n2 f2 a2 e2].
  unfold StepInfo.eqb; simpl.
  destruct (String.eqb_spec n1 n2) as [->|?]; simpl;
    [|constructor; congruence].
  destruct (String.eqb_spec f1 f2) as [->|?]; simpl;
    [|constructor; congruence].
  destruct (tuple_eqb_spec a1 a2) as [->|?]; simpl;
    [|constructor; congruence].
  destruct (Bool.eqb_spec e1 e2) as [->|?]; constructor; congruence.
Qed.

Lemma StepInfo_eqb_refl a : StepInfo.eqb a a = true.
Proof. by destruct (StepInfo_eqb_spec a a). Qed.

Lemma StepInfo_fields_eq (a b : StepInfo.t) :
  a = b <->
  StepInfo.name a = StepInfo.name b /\
  StepInfo.flow_name a = StepInfo.flow_name b /\
  StepInfo.after a = StepInfo.after b /\
  StepInfo.is_entrypoint a = StepInfo.is_entrypoint b.
Proof.
  split; [by intros ->|]. destruct a, b; simpl.
  intros (-> & -> & -> & ->). done.
Qed.

(* ===================================================================== *)
(** * The registry                                                        *)
(* ===================================================================== *)

Section RegistryFacts.
Import PyDictFacts.

Lemma register_existing_flow info w a :
  PyDict.get (StepInfo.flow_name info) (reg w) = Some a ->
  register info w =
    match PyDict.get (StepInfo.name info) (heap w !!! a) with
    | Some existing =>
        if negb (StepInfo.eqb existing info)
        then (Exc (ValueError (conflict_message info)), w)
        else (Val tt, w)
    | None =>
        (Val tt,
         {| heap := <[a := PyDict.set (StepInfo.name info) info (heap w !!! a)]>
                      (heap w);
            _registry := _registry w; files := files w |})
    end.
Proof.
  intros Hf. unfold register, _steps_setdefault, bind, gets, load. simpl.
  unfold reg in Hf. rewrite Hf. simpl.
  destruct (PyDict.get (StepInfo.name info) (heap w !!! a)) as [e|]; [|done].
  by destruct (StepInfo.eqb e info).
Qed.

Lemma register_new_flow info w :
  PyDict.get (StepInfo.flow_name info) (reg w) = None ->
  register info w =
    (Val tt,
     {| heap := heap w ++ [[(StepInfo.name info, info)]];
        _registry :=
          FlowRegistry.mk
            (PyDict.set (StepInfo.flow_name info) (length (heap w)) (reg w));
        files := files w |}).
Proof.
  intros Hf.
  unfold register, _steps_setdefault, bind, gets, load, alloc, modify, store.
  simpl. unfold reg in Hf. rewrite Hf. simpl.
  rewrite list_lookup_total_middle by done. simpl.
  unfold modify; simpl. f_equal. f_equal.
  rewrite insert_app_r_alt by done. by rewrite Nat.sub_diag.
Qed.

Lemma wf_World0 : wf_world World0.
Proof. split; simpl; try done. apply wf_nil. Qed.

Lemma lookup_total_wf (h : list (pydict StepInfo.t)) a :
  Forall PyDict.wf h -> PyDict.wf (h !!! a).
Proof.
  intros Hh. rewrite list_lookup_total_alt.
  destruct (h !! a) as [d|] eqn:E; simpl.
  - eapply Forall_lookup_1; eauto.
  - apply wf_nil.
Qed.

Lemma register_wf info w : wf_world w -> wf_world (register info w).2.
Proof.
  intros [Hb Hi Hf Hh].
  destruct (PyDict.get (StepInfo.flow_name info) (reg w)) as [a|] eqn:E.
  - rewrite (register_existing_flow _ _ _ E).
    destruct (PyDict.get (StepInfo.name info) (heap w !!! a)) as [e|] eqn:En.
    + by destruct (StepInfo.eqb e info).
    + simpl. split; simpl; unfold reg; simpl; try done.
      * intros f b Hfb. rewrite length_insert. eauto.
      * apply Forall_insert; [done|]. apply wf_set.
        by apply lookup_total_wf.
  - rewrite (register_new_flow _ _ E). simpl.
    split; unfold reg; simpl.
    + intros f b. rewrite length_app. simpl.
      destruct (decide (StepInfo.flow_name info = f)) as [<-|Hne].
      * rewrite get_set_eq. intros [= <-]. lia.
      * rewrite get_set_ne by done. intros H%Hb. lia.
    + intros f1 f2 b.
      destruct (decide (StepInfo.flow_name info = f1)) as [<-|Hne1];
      destruct (decide (StepInfo.flow_name info = f2)) as [<-|Hne2]; try done.
      * rewrite get_set_eq, get_set_ne by done.
        intros [= <-] H%Hb. lia.
      * rewrite get_set_eq, get_set_ne by done.
        intros H%Hb [= <-]. lia.
      * rewrite !get_set_ne by done. apply Hi.
    + by apply wf_set.
    + apply Forall_app. split; [done|]. apply Forall_singleton.
      apply (wf_set _ _ []), wf_nil.
Qed.

Lemma register_all_wf infos w : wf_world w -> wf_world (register_all infos w).
Proof.
  revert w. induction infos as [|i infos IH]; intros w Hw; simpl; [done|].
  apply IH. by apply register_wf.
Qed.

(** Registering under a free key stores the step and leaves every other
    key as it was. *)
Lemma register_fresh info w :
  wf_world w ->
  lookup_step w (StepInfo.flow_name info) (StepInfo.name info) = None ->
  exists w',
    register info w = (Val tt, w') /\
    lookup_step w' (StepInfo.flow_name info) (StepInfo.name info) = Some info /\
    forall f n, (f, n) <> (StepInfo.flow_name info, StepInfo.name info) ->
                lookup_step w' f n = lookup_step w f n.
Proof.
  intros [Hb Hi Hf Hh]. unfold lookup_step.
  destruct (PyDict.get (StepInfo.flow_name info) (reg w)) as [a|] eqn:E.
  - intros En. rewrite (register_existing_flow _ _ _ E), En.
    eexists. split; [done|]. unfold reg in *; simpl. rewrite E.
    pose proof (Hb _ _ E) as Ha.
    split.
    + rewrite list_lookup_total_insert_eq by done. apply get_set_eq.
    + intros f n Hne. destruct (PyDict.get f _) as [b|] eqn:Eb; [|done].
      destruct (decide (a = b)) as [<-|Hab].
      * rewrite list_lookup_total_insert_eq by done.
        assert (f = StepInfo.flow_name info) as -> by eauto.
        apply get_set_ne. congruence.
      * by rewrite list_lookup_total_insert_ne.
  - intros _. rewrite (register_new_flow _ _ E).
    eexists. split; [done|]. unfold reg in *; simpl.
    rewrite get_set_eq. split.
    + rewrite list_lookup_total_middle by done. simpl.
      by rewrite String.eqb_refl.
    + intros f n Hne.
      destruct (decide (StepInfo.flow_name info = f)) as [<-|Hnf].
      * rewrite get_set_eq, E, list_lookup_total_middle by done.
        simpl. destruct (String.eqb_spec (StepInfo.name info) n);
          [congruence|done].
      * rewrite get_set_ne by done.
        destruct (PyDict.get f _) as [b|] eqn:Eb; [|done].
        rewrite lookup_total_app_l; [done|eauto].
Qed.

(** Registering under a taken key never changes the state. *)
Lemma register_existing info w existing :
  lookup_step w (StepInfo.flow_name info) (StepInfo.name info) = Some existing ->
  register info w =
    (if StepInfo.eqb existing info then Val tt
     else Exc (ValueError (conflict_message info)), w).
Proof.
  unfold lookup_step.
  destruct (PyDict.get (StepInfo.flow_name info) (reg w)) as [a|] eqn:E; [|done].
  intros En. rewrite (register_existing_flow _ _ _ E), En.
  by destruct (StepInfo.eqb existing info).
Qed.

End RegistryFacts.

(** A checker for [wf_world], to establish it of a given state by
    computation. *)
Section WfCheck.
Import PyDictFacts.

Lemma NoDup_values_inj {V} (d : pydict V) k1 k2 v :
  NoDup (PyDict.values d) -> (k1, v) ∈ d -> (k2, v) ∈ d -> k1 = k2.
Proof.
  unfold PyDict.values. induction d as [|[k0 v0] d IH]; simpl.
  - intros _ H. by apply elem_of_nil in H.
  - rewrite NoDup_cons. intros [Hni Hnd] [E1|I1]%elem_of_cons [E2|I2]%elem_of_cons.
    + congruence.
    + injection E1 as -> ->. destruct Hni.
      by apply (list_elem_of_fmap_2 snd) in I2.
    + injection E2 as -> ->. destruct Hni.
      by apply (list_elem_of_fmap_2 snd) in I1.
    + auto.
Qed.

Lemma wf_worldb_sound w : wf_worldb w = true -> wf_world w.
Proof.
  unfold wf_worldb. rewrite !andb_true_iff.
  intros [[[H1 H2] H3] H4].
  apply bool_decide_eq_true_1 in H1, H2, H3, H4.
  split; try done.
  - intros f a Hg%get_Some_elem.
    apply (list_elem_of_fmap_2 snd) in Hg.
    rewrite Forall_forall in H1. by apply H1.
  - intros f1 f2 a Hg1%get_Some_elem Hg2%get_Some_elem.
    by eapply NoDup_values_inj.
Qed.
End WfCheck.

(** ** Registration: insert, no-op or conflict *)


(** C1. [register] on a free (flow, step) key inserts the step and
    touches no other key, and registering the same step once more
    changes nothing; on a taken key whose entry has the same four fields
    it returns normally and leaves the state as it is; on a taken key
    whose entry differs in some field it raises [ValueError] with a
    message naming the step and the flow, and the stored entry is still
    the one retrieved afterwards. *)
Theorem register_insert_noop_or_conflict (info : StepInfo.t) (w : World) :
  wf_world w ->
  let f := StepInfo.flow_name info in
  let n := StepInfo.name info in
  match lookup_step w f n with
  | None =>
      exists w',
        register info w = (Val tt, w') /\
        lookup_step w' f n = Some info /\
        (forall f' n', (f', n') <> (f, n) ->
                       lookup_step w' f' n' = lookup_step w f' n') /\
        register info w' = (Val tt, w')
  | Some existing =>
      (StepInfo.name existing = StepInfo.name info /\
       StepInfo.flow_name existing = StepInfo.flow_name info /\
       StepInfo.after existing = StepInfo.after info /\
       StepInfo.is_entrypoint existing = StepInfo.is_entrypoint info ->
       register info w = (Val tt, w)) /\
      (~ (StepInfo.name existing = StepInfo.name info /\
          StepInfo.flow_name existing = StepInfo.flow_name info /\
          StepInfo.after existing = StepInfo.after info /\
          StepInfo.is_entrypoint existing = StepInfo.is_entrypoint info) ->
       register info w =
         (Exc (ValueError ("Conflicting registration for step '" +:+ n
                           +:+ "' in flow '" +:+ f +:+ "'")), w) /\
       lookup_step (register info w).2 f n = Some existing)
  end.
Proof.
  intros Hw f n. destruct (lookup_step w f n) as [existing|] eqn:E.
  - rewrite (register_existing _ _ _ E). split.
    + intros ->%StepInfo_fields_eq. by rewrite StepInfo_eqb_refl.
    + intros Hne. destruct (StepInfo_eqb_spec existing info) as [->|_].
      * destruct Hne. by apply StepInfo_fields_eq.
      * done.
  - destruct (register_fresh info w Hw E) as (w' & Hr & Hl & Hfr).
    exists w'. repeat split; try done.
    by rewrite (register_existing _ _ _ Hl), StepInfo_eqb_refl.
Qed.

Lemma register_insert_noop_or_conflict_witness :
  wf_world world_a /\
  ((StepInfo.name step_a = "a" /\ StepInfo.flow_name step_a = "order" /\
    StepInfo.after step_a = ["a"] /\ StepInfo.is_entrypoint step_a = true ->
    register (StepInfo.mk "a" "order" ["a"] true) world_a = (Val tt, world_a)) /\
   (~ (StepInfo.name step_a = "a" /\ StepInfo.flow_name step_a = "order" /\
       StepInfo.after step_a = ["a"] /\ StepInfo.is_entrypoint step_a = true) ->
    register (StepInfo.mk "a" "order" ["a"] true) world_a =
      (Exc (ValueError
              "Conflicting registration for step 'a' in flow 'order'"),
       world_a) /\
    lookup_step (register (StepInfo.mk "a" "order" ["a"] true) world_a).2
                "order" "a" = Some step_a)).
Proof.
  assert (Hwf : wf_world world_a) by (apply wf_worldb_sound; reflexivity).
  split; [exact Hwf|].
  exact (register_insert_noop_or_conflict
           (StepInfo.mk "a" "order" ["a"] true) world_a Hwf).
Defined.

(** The cases of the test suite: a step declared twice, and a step
    declared again with another entry point flag. *)
Example register_twice :
  register_all [step_a; step_a] World0 = register_all [step_a] World0
  /\ (register step_a world_a).1 = Val tt.
Proof. split; reflexivity. Qed.

Example register_conflict :
  register (StepInfo.mk "a" "order" [] false) world_a
  = (Exc (ValueError "Conflicting registration for step 'a' in flow 'order'"),
     world_a).
Proof. reflexivity. Qed.

(** ** Snapshots *)

Section SnapshotFacts.
Import PyDictFacts.

Lemma get_flow_found name w a :
  PyDict.get name (reg w) = Some a ->
  get_flow name w =
    (Val (FlowInfo.mk name (length (heap w))
            (list_to_set
               (map StepInfo.name
                  (List.filter StepInfo.is_entrypoint
                     (PyDict.values (heap w !!! a)))))),
     {| heap := heap w ++ [heap w !!! a];
        _registry := _registry w; files := files w |}).
Proof.
  intros Hg. unfold get_flow, bind, gets, load, alloc, ret; simpl.
  unfold reg in Hg. by rewrite Hg.
Qed.

Lemma get_flow_missing name w :
  PyDict.get name (reg w) = None ->
  get_flow name w = (Exc (KeyError (not_found_message name)), w).
Proof.
  intros Hg. unfold get_flow, bind, gets, raise; simpl.
  unfold reg in Hg. by rewrite Hg.
Qed.

(** A dictionary that is not one of the registry's is out of the reach
    of [register]. *)
Lemma register_frame info w a :
  wf_world w ->
  a < length (heap w) ->
  (forall f, PyDict.get f (reg w) <> Some a) ->
  heap (register info w).2 !!! a = heap w !!! a /\
  a < length (heap (register info w).2) /\
  (forall f, PyDict.get f (reg (register info w).2) <> Some a).
Proof.
  intros Hw Ha Hfree.
  destruct (PyDict.get (StepInfo.flow_name info) (reg w)) as [b|] eqn:E.
  - rewrite (register_existing_flow _ _ _ E).
    destruct (PyDict.get (StepInfo.name info) (heap w !!! b)) as [e|].
    + by destruct (StepInfo.eqb e info).
    + simpl. rewrite length_insert. split; [|done].
      apply list_lookup_total_insert_ne. intros ->. by apply (Hfree _ E).
  - rewrite (register_new_flow _ _ E). simpl. rewrite length_app. simpl.
    split; [by apply lookup_total_app_l|]. split; [lia|].
    intros f. unfold reg; simpl.
    destruct (decide (StepInfo.flow_name info = f)) as [<-|Hne].
    + rewrite get_set_eq. intros [= <-]. lia.
    + rewrite get_set_ne by done. apply Hfree.
Qed.

Lemma register_all_frame infos w a :
  wf_world w ->
  a < length (heap w) ->
  (forall f, PyDict.get f (reg w) <> Some a) ->
  heap (register_all infos w) !!! a = heap w !!! a /\
  (forall f, PyDict.get f (reg (register_all infos w)) <> Some a).
Proof.
  revert w. induction infos as [|i infos IH]; intros w Hw Ha Hfree; simpl.
  - done.
  - destruct (register_frame i w a Hw Ha Hfree) as (Hh & Hl & Hf).
    destruct (IH (register i w).2 (register_wf _ _ Hw) Hl Hf) as [IH1 IH2].
    split; [by rewrite IH1 | done].
Qed.

Lemma get_flow_wf name w : wf_world w -> wf_world (get_flow name w).2.
Proof.
  intros [Hb Hi Hf Hh].
  destruct (PyDict.get name (reg w)) as [a|] eqn:E.
  - rewrite (get_flow_found _ _ _ E). split; unfold reg; simpl; try done.
    + intros f b H%Hb. rewrite length_app. lia.
    + apply Forall_app. split; [done|]. apply Forall_singleton.
      by apply lookup_total_wf.
  - by rewrite (get_flow_missing _ _ E).
Qed.

End SnapshotFacts.

(** C2. The [FlowInfo] that [get_flow] returns holds the steps of the
    flow as they were at the call, in a dictionary of its own: it is
    none of the registry's dictionaries, and after any later [register]
    calls, for this flow or another, it still holds the same items; its
    entry points are the set computed at the call. *)
Theorem get_flow_snapshot_isolated
    (name : string) (w w1 : World) (fi : FlowInfo.t)
    (later : list StepInfo.t) :
  wf_world w ->
  get_flow name w = (Val fi, w1) ->
  exists a,
    PyDict.get name (reg w) = Some a /\
    heap w1 !!! FlowInfo.steps fi = heap w !!! a /\
    FlowInfo.entrypoints fi =
      list_to_set (map StepInfo.name
                     (List.filter StepInfo.is_entrypoint
                        (PyDict.values (heap w !!! a)))) /\
    heap (register_all later w1) !!! FlowInfo.steps fi
      = heap w1 !!! FlowInfo.steps fi /\
    (forall f, PyDict.get f (reg (register_all later w1))
               <> Some (FlowInfo.steps fi)).
Proof.
  intros Hw Hg.
  destruct (PyDict.get name (reg w)) as [a|] eqn:E.
  2: { by rewrite (get_flow_missing _ _ E) in Hg. }
  pose proof (get_flow_wf name w Hw) as Hw1.
  rewrite (get_flow_found _ _ _ E) in Hg, Hw1.
  injection Hg as <- <-. simpl in *.
  exists a. split; [done|]. split.
  { by rewrite list_lookup_total_middle. }
  split; [done|].
  apply register_all_frame; simpl.
  - exact Hw1.
  - rewrite length_app; simpl; lia.
  - intros f Hf. apply (wf_bound _ Hw) in Hf. lia.
Qed.

Lemma get_flow_snapshot_isolated_witness :
  wf_world world_a /\
  get_flow "order" world_a =
    (Val (FlowInfo.mk "order" 1 {["a"]}),
     mkWorld [[("a", step_a)]; [("a", step_a)]]
             (FlowRegistry.mk [("order", 0)]) plain_files) /\
  exists a,
    PyDict.get "order" (reg world_a) = Some a /\
    [("a", step_a)] = heap world_a !!! a /\
    ({["a"]} : gset string) =
      list_to_set (map StepInfo.name
                     (List.filter StepInfo.is_entrypoint
                        (PyDict.values (heap world_a !!! a)))) /\
    heap (register_all [step_b]
            (mkWorld [[("a", step_a)]; [("a", step_a)]]
                     (FlowRegistry.mk [("order", 0)]) plain_files)) !!! 1
      = [("a", step_a)] /\
    (forall f, PyDict.get f
                 (reg (register_all [step_b]
                         (mkWorld [[("a", step_a)]; [("a", step_a)]]
                                  (FlowRegistry.mk [("order", 0)]) plain_files)))
               <> Some 1).
Proof.
  assert (Hwf : wf_world world_a) by (apply wf_worldb_sound; reflexivity).
  assert (Hg : get_flow "order" world_a =
    (Val (FlowInfo.mk "order" 1 {["a"]}),
     mkWorld [[("a", step_a)]; [("a", step_a)]]
             (FlowRegistry.mk [("order", 0)]) plain_files)).
  { reflexivity. }
  split; [exact Hwf|]. split; [exact Hg|].
  exact (get_flow_snapshot_isolated "order" world_a _ _ [step_b] Hwf Hg).
Defined.

(** The scenario of the specification: steps [a] and [b] under the flow
    ["order"]; the snapshot holds both and has [a] as its entry point. *)
Example get_flow_order :
  let w := register_all [step_a; step_b] World0 in
  (get_flow "order" w).1 = Val (FlowInfo.mk "order" 1 {["a"]}) /\
  heap (get_flow "order" w).2 !!! 1 = [("a", step_a); ("b", step_b)] /\
  (validate_flow "order" w).1 = Val tt.
Proof. split; [reflexivity|]. split; reflexivity. Qed.

(** The copy matters: the registry's own dictionary of the flow does
    change when a step is registered later. *)
Example registry_dictionary_changes :
  heap (register_all [step_b] world_a) !!! 0 = [("a", step_a); ("b", step_b)]
  /\ heap world_a !!! 0 = [("a", step_a)].
Proof. split; reflexivity. Qed.

(** ** Validation *)

Lemma missing_refs_spec (steps : pydict StepInfo.t) x y :
  (x, y) ∈ missing_refs steps <->
  exists s, s ∈ PyDict.values steps /\ StepInfo.name s = x /\
            y ∈ StepInfo.after s /\ y ∉ PyDict.keys steps.
Proof.
  unfold missing_refs. rewrite list_elem_of_In, in_flat_map. split.
  - intros (s & Hs & Hin). apply in_map_iff in Hin as (r & [= <- <-] & Hr).
    apply filter_In in Hr as [Hr Hc].
    exists s. rewrite !list_elem_of_In. repeat split; try done.
    apply negb_true_iff, PyDictFacts.contains_false in Hc.
    by rewrite <- list_elem_of_In.
  - intros (s & Hs & <- & Hy & Hn). exists s.
    rewrite <- list_elem_of_In. split; [done|].
    apply in_map_iff. exists y. split; [done|].
    apply filter_In. rewrite <- list_elem_of_In. split; [done|].
    by apply negb_true_iff, PyDictFacts.contains_false.
Qed.

(** C3. [validate_flow] on a flow that was never registered raises the
    [KeyError] of the lookup and checks nothing.  On a registered flow
    it collects every pair of a step and of a name in its [after] list
    that is not a step name of the flow, and nothing else: with no such
    pair it returns normally; otherwise it raises one [ValueError] whose
    message lists each pair on a line of its own, as
    [Step 'X' references unknown step 'Y']. *)
Theorem validate_flow_reports_all_missing (name : string) (w : World) :
  match PyDict.get name (reg w) with
  | None =>
      validate_flow name w =
        (Exc (KeyError ("Flow '" +:+ name +:+ "' not found")), w)
  | Some a =>
      let steps := heap w !!! a in
      exists (missing : list (string * string)) (w' : World),
        (forall x y,
            (x, y) ∈ missing <->
            exists s, s ∈ PyDict.values steps /\ StepInfo.name s = x /\
                      y ∈ StepInfo.after s /\ y ∉ PyDict.keys steps) /\
        validate_flow name w =
          (match missing with
           | [] => Val tt
           | _ :: _ =>
               Exc (ValueError
                      ("Flow '" +:+ name +:+ "' has invalid references:" +:+ nl
                       +:+ join nl
                             (map (fun '(x, y) =>
                                     "  - Step '" +:+ x
                                     +:+ "' references unknown step '"
                                     +:+ y +:+ "'")
                                  missing)))
           end, w')
  end.
Proof.
  destruct (PyDict.get name (reg w)) as [a|] eqn:E.
  - intros steps. exists (missing_refs steps). eexists.
    split; [apply missing_refs_spec|].
    unfold validate_flow, bind. rewrite (get_flow_found _ _ _ E).
    unfold load, gets; simpl. rewrite list_lookup_total_middle by done.
    fold steps.
    assert (Hmap : forall l : list (string * string),
      map (fun m => "  - " +:+ m)
          (map (fun '(step, ref) => missing_message step ref) l)
      = map (fun '(x, y) => "  - Step '" +:+ x
                            +:+ "' references unknown step '" +:+ y +:+ "'")
            l).
    { intros l. rewrite map_map. apply map_ext. by intros [x y]. }
    destruct (missing_refs steps) as [|[x y] l] eqn:Em; [done|].
    rewrite <- Hmap. done.
  - unfold validate_flow, bind. by rewrite (get_flow_missing _ _ E).
Qed.

(** The scenario of the specification: two steps that reference three
    distinct missing predecessors; all three are reported. *)
Example validate_flow_three_missing :
  (validate_flow "f"
     (register_all [StepInfo.mk "x" "f" ["m1"; "m2"] true;
                    StepInfo.mk "y" "f" ["x"; "m3"] false] World0)).1
  = Exc (ValueError
           ("Flow 'f' has invalid references:" +:+ nl
            +:+ "  - Step 'x' references unknown step 'm1'" +:+ nl
            +:+ "  - Step 'x' references unknown step 'm2'" +:+ nl
            +:+ "  - Step 'y' references unknown step 'm3'")).
Proof. reflexivity. Qed.

(** C5. A flow made of [a] after [b] and [b] after [a] passes
    [validate_flow]: the two references resolve, and nothing looks for a
    cycle. *)
Theorem validate_flow_accepts_cycle (flow a b : string) (ea eb : bool) :
  (validate_flow flow
     (register_all [StepInfo.mk a flow [b] ea; StepInfo.mk b flow [a] eb]
                   World0)).1
  = Val tt.
Proof.
  unfold register_all; cbn [foldl].
  rewrite (register_new_flow _ World0) by done. cbn [snd].
  set (w1 := {| heap := _ |}).
  assert (Hf : PyDict.get flow (reg w1) = Some 0).
  { unfold reg; simpl. by rewrite String.eqb_refl. }
  rewrite (register_existing_flow (StepInfo.mk b flow [a] eb) w1 0 Hf).
  simpl. destruct (String.eqb_spec a b) as [->|Hab].
  - assert (Hv : forall w, w = w1 -> (validate_flow flow w).1 = Val tt).
    { intros w ->. unfold validate_flow, bind.
      rewrite (get_flow_found _ _ _ Hf). unfold load, gets; simpl.
      unfold missing_refs; simpl. unfold PyDict.contains; simpl.
      by rewrite String.eqb_refl. }
    destruct (negb _); by apply Hv.
  - unfold validate_flow, bind.
    erewrite get_flow_found; [|unfold reg; simpl; by rewrite String.eqb_refl].
    unfold load, gets; simpl.
    unfold missing_refs; simpl. unfold PyDict.contains; simpl.
    rewrite !String.eqb_refl.
    destruct (String.eqb_spec a b); [done|]. simpl. done.
Qed.

(* ===================================================================== *)
(** * The DAG renderer                                                    *)
(* ===================================================================== *)

Global Instance edge_le_total : Total edge_le.
Proof.
  intros [a b] [c d]. unfold edge_le; simpl.
  destruct (decide (a = c)) as [->|Hne].
  - rewrite decide_True by done. apply (total String.le).
  - rewrite decide_False by done. apply (total String.le).
Qed.

Global Instance edge_le_antisym : AntiSymm (=) edge_le.
Proof.
  intros [a b] [c d]. unfold edge_le; simpl.
  destruct (decide (a = c)) as [->|Hne].
  - rewrite decide_True by done. intros H1 H2. f_equal.
    by apply (anti_symm String.le).
  - rewrite decide_False by done. intros H1 H2. destruct Hne.
    by apply (anti_symm String.le).
Qed.

Global Instance edge_le_trans : Transitive edge_le.
Proof.
  intros [a b] [c d] [e f]. unfold edge_le; simpl.
  destruct (decide (a = c)) as [->|Hac].
  - destruct (decide (c = e)) as [->|Hce]; [apply transitivity | done].
  - destruct (decide (c = e)) as [->|Hce].
    + by rewrite decide_False by done.
    + intros H1 H2. destruct (decide (a = e)) as [->|Hae].
      * destruct Hac. by apply (anti_symm String.le).
      * by etrans.
Qed.

(** [edge_le] is the lexicographic order on pairs. *)
Lemma edge_le_lex a b c d :
  edge_le (a, b) (c, d) <->
  (a <> c /\ String.le a c) \/ (a = c /\ String.le b d).
Proof.
  unfold edge_le; simpl. destruct (decide (a = c)); tauto.
Qed.

Section SortFacts.
Context {A : Type} (R : relation A) `{!RelDecision R}
        `{!Total R} `{!Transitive R} `{!AntiSymm (=) R}.

(** The sorted list depends on the items only, not on their order. *)
Lemma merge_sort_perm (l1 l2 : list A) :
  l1 ≡ₚ l2 -> merge_sort R l1 = merge_sort R l2.
Proof.
  intros Hp. apply (Sorted_unique R).
  - by apply Sorted_merge_sort.
  - by apply Sorted_merge_sort.
  - by rewrite !merge_sort_Permutation.
Qed.

Lemma merge_sort_nil_inv (l : list A) : merge_sort R l = [] -> l = [].
Proof.
  intros H. apply Permutation_nil_r. rewrite <- H.
  by rewrite merge_sort_Permutation.
Qed.
End SortFacts.

Section DagFacts.
Variable repr : string -> string.

Lemma generate_dag_found flow_name output w a :
  PyDict.get flow_name (reg w) = Some a ->
  generate_dag repr flow_name "mermaid" output w =
    let w1 := {| heap := heap w ++ [heap w !!! a];
                 _registry := _registry w; files := files w |} in
    match output with
    | None => (Val (Some (render (heap w !!! a))), w1)
    | Some path =>
        match open_for_write (files w) path with
        | Val file =>
            (Val None,
             {| heap := heap w1; _registry := _registry w1;
                files := mkFileSystem (open_for_write (files w))
                           (PyDict.set file (render (heap w !!! a))
                                       (contents (files w))) |})
        | Exc e => (Exc e, w1)
        end
    end.
Proof.
  intros Hg. unfold generate_dag; simpl. unfold bind.
  rewrite (get_flow_found _ _ _ Hg). unfold load, gets; simpl.
  rewrite list_lookup_total_middle by done.
  unfold render, write_text. simpl.
  destruct (sort (after_edges (heap w !!! a))); destruct output as [path|];
    try done; simpl; by destruct (open_for_write (files w) path).
Qed.

Lemma after_edges_perm (d1 d2 : pydict StepInfo.t) :
  d1 ≡ₚ d2 -> after_edges d1 ≡ₚ after_edges d2.
Proof.
  intros Hp. unfold after_edges, PyDict.values.
  apply Permutation_flat_map. by apply Permutation_map.
Qed.

(** The diagram does not depend on the insertion order of the steps. *)
Lemma render_perm (d1 d2 : pydict StepInfo.t) :
  d1 ≡ₚ d2 -> render d1 = render d2.
Proof.
  intros Hp. unfold render, sort, sorted.
  rewrite (merge_sort_perm edge_le _ _ (after_edges_perm _ _ Hp)).
  rewrite (merge_sort_perm String.le (PyDict.keys d1) (PyDict.keys d2)).
  - done.
  - unfold PyDict.keys. by apply Permutation_map.
Qed.

End DagFacts.

(** ** The registry after a sequence of registrations *)

Section RegisterAllFacts.
Import PyDictFacts.

Lemma first_registered_cons flow step i infos :
  first_registered flow step (i :: infos) =
    if decide (step_key i = (flow, step)) then Some i
    else first_registered flow step infos.
Proof.
  unfold first_registered, step_key; simpl.
  destruct (String.eqb_spec (StepInfo.flow_name i) flow) as [->|Hf]; simpl.
  - destruct (String.eqb_spec (StepInfo.name i) step) as [->|Hn].
    + by rewrite decide_True.
    + rewrite decide_False; [done | congruence].
  - rewrite decide_False; [done | congruence].
Qed.

(** The entry of a key is the first step registered under it. *)
Lemma lookup_register_all infos w f n :
  wf_world w ->
  lookup_step (register_all infos w) f n =
    match lookup_step w f n with
    | Some e => Some e
    | None => first_registered f n infos
    end.
Proof.
  revert w. induction infos as [|i infos IH]; intros w Hw.
  - simpl. by destruct (lookup_step w f n).
  - change (register_all (i :: infos) w)
      with (register_all infos (register i w).2).
    rewrite (IH _ (register_wf i w Hw)), first_registered_cons.
    unfold step_key.
    destruct (lookup_step w (StepInfo.flow_name i) (StepInfo.name i))
      as [e0|] eqn:E0.
    + rewrite (register_existing _ _ _ E0). simpl.
      destruct (lookup_step w f n) eqn:E; [done|].
      rewrite decide_False; [done|]. intros [= <- <-]. congruence.
    + destruct (register_fresh i w Hw E0) as (w' & -> & Hl & Hfr). simpl.
      destruct (decide ((StepInfo.flow_name i, StepInfo.name i) = (f, n)))
        as [[= <- <-]|Hne].
      * by rewrite Hl, E0.
      * by rewrite (Hfr f n) by congruence.
Qed.

Lemma flow_registered_register i w f :
  is_Some (PyDict.get f (reg (register i w).2)) <->
  is_Some (PyDict.get f (reg w)) \/ StepInfo.flow_name i = f.
Proof.
  destruct (PyDict.get (StepInfo.flow_name i) (reg w)) as [a|] eqn:E.
  - assert (reg (register i w).2 = reg w) as ->.
    { rewrite (register_existing_flow _ _ _ E).
      destruct (PyDict.get (StepInfo.name i) (heap w !!! a)) as [e0|];
        [by destruct (StepInfo.eqb e0 i)|done]. }
    split; [by left|]. intros [H| <-]; [done | by rewrite E].
  - rewrite (register_new_flow _ _ E). unfold reg at 1; simpl.
    destruct (decide (StepInfo.flow_name i = f)) as [<-|Hne].
    + rewrite get_set_eq. split; [by right | by eexists].
    + rewrite get_set_ne by done. split; [by left | by intros [H|H]].
Qed.

Lemma flow_registered_register_all infos w f :
  is_Some (PyDict.get f (reg (register_all infos w))) <->
  is_Some (PyDict.get f (reg w)) \/
  exists i, i ∈ infos /\ StepInfo.flow_name i = f.
Proof.
  revert w. induction infos as [|i infos IH]; intros w; simpl.
  - split; [by left|]. intros [H|(i & Hi & _)]; [done|].
    by apply elem_of_nil in Hi.
  - rewrite IH, flow_registered_register. split.
    + intros [[H|H]|(j & Hj & Hf)].
      * by left.
      * right. exists i. split; [left | done].
      * right. exists j. split; [by right | done].
    + intros [H|(j & [->|Hj]%elem_of_cons & Hf)].
      * left. by left.
      * left. by right.
      * right. by exists j.
Qed.

Lemma first_registered_Some f n infos i :
  first_registered f n infos = Some i -> i ∈ infos /\ step_key i = (f, n).
Proof.
  induction infos as [|j infos IH]; [done|].
  rewrite first_registered_cons. case_decide as Hk.
  - intros [= ->]. split; [left | done].
  - intros [H1 H2]%IH. split; [by right | done].
Qed.

Lemma first_registered_None f n infos :
  first_registered f n infos = None ->
  forall i, i ∈ infos -> step_key i <> (f, n).
Proof.
  induction infos as [|j infos IH]; intros Hfi i Hi.
  - by apply elem_of_nil in Hi.
  - rewrite first_registered_cons in Hfi. case_decide as Hk; [done|].
    apply elem_of_cons in Hi as [->|Hi]; [done | by apply IH].
Qed.

Lemma NoDup_key_inj (infos : list StepInfo.t) i j :
  NoDup (map step_key infos) -> i ∈ infos -> j ∈ infos ->
  step_key i = step_key j -> i = j.
Proof.
  induction infos as [|x infos IH]; simpl.
  - intros _ H. by apply elem_of_nil in H.
  - rewrite NoDup_cons.
    intros [Hni Hnd] [->|Hi]%elem_of_cons [->|Hj]%elem_of_cons Hk.
    + done.
    + destruct Hni. rewrite Hk. by apply (list_elem_of_fmap_2 step_key).
    + destruct Hni. rewrite <- Hk. by apply (list_elem_of_fmap_2 step_key).
    + auto.
Qed.

(** With pairwise distinct keys, the order of registration does not
    matter for what is stored. *)
Lemma first_registered_perm f n infos1 infos2 :
  NoDup (map step_key infos1) -> infos1 ≡ₚ infos2 ->
  first_registered f n infos1 = first_registered f n infos2.
Proof.
  intros Hnd Hp.
  destruct (first_registered f n infos1) as [i|] eqn:E1;
  destruct (first_registered f n infos2) as [j|] eqn:E2; try done.
  - apply first_registered_Some in E1 as [Hi Hki], E2 as [Hj Hkj].
    f_equal. apply (NoDup_key_inj infos1); try done.
    + by rewrite Hp.
    + congruence.
  - apply first_registered_Some in E1 as [Hi Hki].
    rewrite Hp in Hi. by destruct (first_registered_None _ _ _ E2 i Hi).
  - apply first_registered_Some in E2 as [Hj Hkj].
    rewrite <- Hp in Hj. by destruct (first_registered_None _ _ _ E1 j Hj).
Qed.

End RegisterAllFacts.

Section DagTheorems.
Variable repr : string -> string.

(** States that hold the same steps for a flow give the same diagram. *)
Lemma generate_dag_same_steps flow_name w1 w2 a1 a2 :
  wf_world w1 -> wf_world w2 ->
  PyDict.get flow_name (reg w1) = Some a1 ->
  PyDict.get flow_name (reg w2) = Some a2 ->
  (forall n, PyDict.get n (heap w1 !!! a1) = PyDict.get n (heap w2 !!! a2)) ->
  (generate_dag repr flow_name "mermaid" None w1).1
  = (generate_dag repr flow_name "mermaid" None w2).1.
Proof.
  intros Hw1 Hw2 H1 H2 Hsame.
  rewrite (generate_dag_found _ _ _ _ _ H1), (generate_dag_found _ _ _ _ _ H2).
  simpl. do 2 f_equal. apply render_perm.
  apply PyDictFacts.same_get_Permutation; [| |done].
  - apply lookup_total_wf, Hw1.
  - apply lookup_total_wf, Hw2.
Qed.

(** Registering the same steps in another order gives the same diagram,
    for every flow. *)
Lemma generate_dag_registration_order flow_name infos1 infos2 :
  NoDup (map step_key infos1) -> infos1 ≡ₚ infos2 ->
  (generate_dag repr flow_name "mermaid" None (register_all infos1 World0)).1
  = (generate_dag repr flow_name "mermaid" None (register_all infos2 World0)).1.
Proof.
  intros Hnd Hp.
  pose proof (register_all_wf infos1 World0 wf_World0) as Hw1.
  pose proof (register_all_wf infos2 World0 wf_World0) as Hw2.
  pose proof (flow_registered_register_all infos1 World0 flow_name) as Hr1.
  pose proof (flow_registered_register_all infos2 World0 flow_name) as Hr2.
  assert (Hlk : forall n,
    lookup_step (register_all infos1 World0) flow_name n
    = lookup_step (register_all infos2 World0) flow_name n).
  { intros n. rewrite !lookup_register_all by apply wf_World0.
    simpl. by apply first_registered_perm. }
  destruct (PyDict.get flow_name (reg (register_all infos1 World0)))
    as [a1|] eqn:E1;
  destruct (PyDict.get flow_name (reg (register_all infos2 World0)))
    as [a2|] eqn:E2.
  - apply (generate_dag_same_steps _ _ _ a1 a2); try done.
    intros n. specialize (Hlk n). unfold lookup_step in Hlk.
    by rewrite E1, E2 in Hlk.
  - exfalso. destruct Hr1 as [Hr1 _]. destruct Hr1 as [[? H]|(i & Hi & Hf)].
    + by eexists.
    + done.
    + rewrite Hp in Hi. destruct Hr2 as [_ Hr2].
      destruct Hr2 as [? H]; [right; by exists i | done].
  - exfalso. destruct Hr2 as [Hr2 _]. destruct Hr2 as [[? H]|(i & Hi & Hf)].
    + by eexists.
    + done.
    + rewrite <- Hp in Hi. destruct Hr1 as [_ Hr1].
      destruct Hr1 as [? H]; [right; by exists i | done].
  - unfold generate_dag; simpl. unfold bind.
    by rewrite !get_flow_missing.
Qed.

End DagTheorems.

(** C4. For a registered flow, [generate_dag] returns the line
    [graph TD] followed by a body, each line ended by a line feed.  When
    the [after] lists of the steps give at least one (predecessor, step)
    pair, the body has one line [    predecessor --> step] per pair, the
    pairs in lexicographic order.  When they give none, the body has
    one line [    name] per step, the names in order.  A second call
    returns the same text, and so does a call on any state that holds
    the same steps for the flow, whatever their insertion order; in
    particular, registering the same steps in another order gives the
    same text. *)
Theorem generate_dag_sorted_and_deterministic
    (repr : string -> string) (flow_name : string) (w : World) (a : addr) :
  wf_world w ->
  PyDict.get flow_name (reg w) = Some a ->
  let steps := heap w !!! a in
  let pairs :=
    flat_map (fun s => map (fun p => (p, StepInfo.name s)) (StepInfo.after s))
             (PyDict.values steps) in
  exists (body : list string) (w' : World),
    generate_dag repr flow_name "mermaid" None w =
      (Val (Some (join nl ("graph TD" :: body) +:+ nl)), w') /\
    (pairs <> [] ->
     exists es : list (string * string),
       body = map (fun e => "    " +:+ e.1 +:+ " --> " +:+ e.2) es /\
       es ≡ₚ pairs /\ StronglySorted edge_le es) /\
    (pairs = [] ->
     exists ns : list string,
       body = map (fun n => "    " +:+ n) ns /\
       ns ≡ₚ PyDict.keys steps /\ StronglySorted String.le ns) /\
    (generate_dag repr flow_name "mermaid" None w').1 =
      Val (Some (join nl ("graph TD" :: body) +:+ nl)) /\
    (forall w2 a2,
        wf_world w2 ->
        PyDict.get flow_name (reg w2) = Some a2 ->
        (forall n, PyDict.get n (heap w2 !!! a2) = PyDict.get n steps) ->
        (generate_dag repr flow_name "mermaid" None w2).1 =
          Val (Some (join nl ("graph TD" :: body) +:+ nl))) /\
    (forall infos1 infos2,
        w = register_all infos1 World0 ->
        NoDup (map step_key infos1) -> infos1 ≡ₚ infos2 ->
        (generate_dag repr flow_name "mermaid" None
           (register_all infos2 World0)).1 =
          Val (Some (join nl ("graph TD" :: body) +:+ nl))).
Proof.
  intros Hw Hg steps pairs.
  pose proof (generate_dag_found repr flow_name None w a Hg) as Hrun.
  simpl in Hrun. fold steps in Hrun.
  set (body := match sort (after_edges steps) with
               | [] => map node_line (sorted (PyDict.keys steps))
               | e :: es => map edge_line (e :: es)
               end).
  assert (Hrender : render steps = join nl ("graph TD" :: body) +:+ nl) by done.
  rewrite Hrender in Hrun.
  exists body. eexists. split; [exact Hrun|].
  assert (Hpairs : pairs = after_edges steps) by done.
  split; [|split; [|split; [|split]]].
  - intros Hne. exists (sort (after_edges steps)). split; [|split].
    + unfold body. destruct (sort (after_edges steps)) eqn:Es; [|done].
      apply (merge_sort_nil_inv edge_le) in Es. destruct Hne.
      by rewrite Hpairs.
    + rewrite Hpairs. apply merge_sort_Permutation.
    + apply StronglySorted_merge_sort; apply _.
  - intros Hnil. exists (sorted (PyDict.keys steps)). split; [|split].
    + unfold body. rewrite <- Hpairs, Hnil. done.
    + apply merge_sort_Permutation.
    + apply StronglySorted_merge_sort; apply _.
  - pose proof (get_flow_wf flow_name w Hw) as Hw1.
    rewrite (get_flow_found _ _ _ Hg) in Hw1. simpl in Hw1.
    etrans; [apply (generate_dag_same_steps repr flow_name _ w a a Hw1 Hw Hg Hg)|].
    + intros n. simpl. rewrite lookup_total_app_l; [done|].
      apply (wf_bound _ Hw _ _ Hg).
    + by rewrite Hrun.
  - intros w2 a2 Hw2 Hg2 Hsame.
    rewrite (generate_dag_same_steps repr flow_name w2 w a2 a); try done.
    by rewrite Hrun.
  - intros infos1 infos2 -> Hnd Hp.
    rewrite <- (generate_dag_registration_order repr flow_name infos1 infos2)
      by done.
    by rewrite Hrun.
Qed.

Lemma generate_dag_sorted_and_deterministic_witness :
  wf_world world_abc /\
  PyDict.get "order" (reg world_abc) = Some 0 /\
  let steps := heap world_abc !!! 0 in
  let pairs :=
    flat_map (fun s => map (fun p => (p, StepInfo.name s)) (StepInfo.after s))
             (PyDict.values steps) in
  exists (body : list string) (w' : World),
    generate_dag quote "order" "mermaid" None world_abc =
      (Val (Some (join nl ("graph TD" :: body) +:+ nl)), w') /\
    (pairs <> [] ->
     exists es : list (string * string),
       body = map (fun e => "    " +:+ e.1 +:+ " --> " +:+ e.2) es /\
       es ≡ₚ pairs /\ StronglySorted edge_le es) /\
    (pairs = [] ->
     exists ns : list string,
       body = map (fun n => "    " +:+ n) ns /\
       ns ≡ₚ PyDict.keys steps /\ StronglySorted String.le ns) /\
    (generate_dag quote "order" "mermaid" None w').1 =
      Val (Some (join nl ("graph TD" :: body) +:+ nl)) /\
    (forall w2 a2,
        wf_world w2 ->
        PyDict.get "order" (reg w2) = Some a2 ->
        (forall n, PyDict.get n (heap w2 !!! a2) = PyDict.get n steps) ->
        (generate_dag quote "order" "mermaid" None w2).1 =
          Val (Some (join nl ("graph TD" :: body) +:+ nl))) /\
    (forall infos1 infos2,
        world_abc = register_all infos1 World0 ->
        NoDup (map step_key infos1) -> infos1 ≡ₚ infos2 ->
        (generate_dag quote "order" "mermaid" None
           (register_all infos2 World0)).1 =
          Val (Some (join nl ("graph TD" :: body) +:+ nl))).
Proof.
  assert (Hwf : wf_world world_abc) by (apply wf_worldb_sound; reflexivity).
  assert (Hg : PyDict.get "order" (reg world_abc) = Some 0) by reflexivity.
  split; [exact Hwf|]. split; [exact Hg|].
  exact (generate_dag_sorted_and_deterministic quote "order" world_abc 0 Hwf Hg).
Defined.

(** The scenario of the specification, and one with three steps
    registered out of order. *)
Example generate_dag_order :
  (generate_dag quote "order" "mermaid" None
     (register_all [step_a; step_b] World0)).1
  = Val (Some ("graph TD" +:+ nl +:+ "    a --> b" +:+ nl)).
Proof. reflexivity. Qed.

Example generate_dag_abc :
  (generate_dag quote "order" "mermaid" None world_abc).1
  = Val (Some ("graph TD" +:+ nl +:+ "    a --> b" +:+ nl
               +:+ "    a --> c" +:+ nl +:+ "    b --> c" +:+ nl)).
Proof. reflexivity. Qed.

(** C9. With a format other than ["mermaid"], [generate_dag] raises
    [ValueError] and leaves the state untouched, whatever the registry
    holds and whether or not the flow is registered: the registry is not
    consulted.  With the format ["mermaid"] and a flow name that is not
    registered, it raises the [KeyError] that [get_flow] raises. *)
Theorem generate_dag_errors
    (repr : string -> string) (flow_name format : string)
    (output : option string) (w : World) :
  (format <> "mermaid" ->
   generate_dag repr flow_name format output w =
     (Exc (ValueError ("Unsupported format: " +:+ repr format)), w)) /\
  (PyDict.get flow_name (reg w) = None ->
   get_flow flow_name w =
     (Exc (KeyError ("Flow '" +:+ flow_name +:+ "' not found")), w) /\
   generate_dag repr flow_name "mermaid" output w =
     (Exc (KeyError ("Flow '" +:+ flow_name +:+ "' not found")), w)).
Proof.
  split.
  - intros Hf. unfold generate_dag.
    by destruct (String.eqb_spec format "mermaid").
  - intros Hg. split; [by apply get_flow_missing|].
    unfold generate_dag; simpl. unfold bind.
    by rewrite (get_flow_missing _ _ Hg).
Qed.

Lemma generate_dag_errors_witness :
  ("dot" <> "mermaid" /\
   generate_dag quote "order" "dot" None world_a =
     (Exc (ValueError ("Unsupported format: " +:+ quote "dot")), world_a)) /\
  (PyDict.get "nope" (reg world_a) = None /\
   get_flow "nope" world_a =
     (Exc (KeyError ("Flow '" +:+ "nope" +:+ "' not found")), world_a) /\
   generate_dag quote "nope" "mermaid" None world_a =
     (Exc (KeyError ("Flow '" +:+ "nope" +:+ "' not found")), world_a)).
Proof.
  assert (H1 : "dot" <> "mermaid") by discriminate.
  assert (H2 : PyDict.get "nope" (reg world_a) = None) by reflexivity.
  split.
  - split; [exact H1|].
    exact (proj1 (generate_dag_errors quote "order" "dot" None world_a) H1).
  - split; [exact H2|].
    exact (proj2 (generate_dag_errors quote "nope" "dot" None world_a) H2).
Defined.

(* ===================================================================== *)
(** * The flow context and the decorators                                 *)
(* ===================================================================== *)

Section ContextFacts.

Lemma FlowContext_init_fresh st :
  FlowContext_init None None st =
    (Val (mkFlowContext (uuid_source st (uuid_count st)) (length (objects st))),
     mkInterp (objects st ++ [ODict []]) (_flow_context_var st)
              (uuid_source st) (S (uuid_count st))
              (_backend st) (_configured st) (_HAS_OTEL st)
              (_flow_name_cache st)).
Proof. done. Qed.

Lemma get_backend_context st :
  _flow_context_var (get_backend st).2 = _flow_context_var st.
Proof.
  unfold get_backend, bind, gets; simpl.
  destruct (_configured st).
  - by destruct (_backend st).
  - unfold _auto_detect, except_RuntimeError, OTelBackend_new, bind, gets; simpl.
    by destruct (_HAS_OTEL st).
Qed.

(** With the invariant of the configuration, [get_backend] returns. *)
Lemma get_backend_returns st :
  config_ok st -> exists b, (get_backend st).1 = Val b.
Proof.
  intros Hc. unfold get_backend, bind, gets; simpl.
  destruct (_configured st) eqn:E.
  - destruct (_backend st) eqn:Eb; [by eexists|]. by destruct (Hc E).
  - unfold _auto_detect, except_RuntimeError, OTelBackend_new, bind, gets; simpl.
    destruct (_HAS_OTEL st); by eexists.
Qed.

Lemma get_backend_config_ok st : config_ok st -> config_ok (get_backend st).2.
Proof.
  intros Hc. unfold get_backend, bind, gets; simpl.
  destruct (_configured st) eqn:E.
  - by destruct (_backend st).
  - unfold _auto_detect, except_RuntimeError, OTelBackend_new, bind, gets; simpl.
    by destruct (_HAS_OTEL st).
Qed.

Lemma reset_config_ok st : config_ok (reset st).2.
Proof. done. Qed.

Lemma configure_config_ok repr arg st :
  config_ok st -> config_ok (configure repr arg st).2.
Proof.
  intros Hc. unfold configure, bind. destruct arg as [b|s]; [done|].
  destruct (String.eqb s "logging"); [done|].
  destruct (String.eqb s "otel").
  { unfold OTelBackend_new, bind, gets; simpl. by destruct (_HAS_OTEL st). }
  destruct (String.eqb s "auto"); [|done].
  unfold _auto_detect, except_RuntimeError, OTelBackend_new, bind, gets; simpl.
  by destruct (_HAS_OTEL st).
Qed.

Lemma _resolve_flow_name_pure fid qualname st :
  exists s, _resolve_flow_name fid qualname st = (Val s, st).
Proof.
  unfold _resolve_flow_name, bind, gets; simpl.
  destruct (_flow_name_cache st !! fid); [by eexists|].
  destruct (rsplit_dot qualname) as [[p q]|]; by eexists.
Qed.

(** Whatever the body and the clean-up of a [try ... finally] do, the
    state it ends in is one the clean-up ends in. *)
Lemma try_finally_reset {A} (body : M Interp A) st :
  _flow_context_var (try_finally body _reset_context st).2 = None.
Proof.
  unfold try_finally. destruct (body st) as [r s1]. done.
Qed.

End ContextFacts.

Section DecoratorTheorems.
Variable backend_impl : backend_ref -> TracingBackend.

Lemma entrypoint_wrapper_unfold step_name fid fn args st :
  entrypoint_wrapper backend_impl step_name fid fn args st =
    let fresh := mkFlowContext (uuid_source st (uuid_count st))
                               (length (objects st)) in
    let st1 := mkInterp (objects st ++ [ODict []]) (Some fresh)
                        (uuid_source st) (S (uuid_count st))
                        (_backend st) (_configured st) (_HAS_OTEL st)
                        (_flow_name_cache st) in
    match get_backend st1 with
    | (Val backend, st2) =>
        try_finally
          (let* flow_name := _resolve_flow_name fid (__qualname__ fn) in
           with_return (span (backend_impl backend) step_name flow_name)
                       (call fn args))
          _reset_context st2
    | (Exc e, st2) => (Exc e, st2)
    end.
Proof. done. Qed.

Lemma entrypoint_wrapper_clears step_name fid fn args st :
  config_ok st ->
  _flow_context_var (entrypoint_wrapper backend_impl step_name fid fn args st).2
  = None.
Proof.
  intros Hc. rewrite entrypoint_wrapper_unfold. cbv zeta.
  set (st1 := mkInterp _ _ _ _ _ _ _ _).
  assert (Hc1 : config_ok st1) by done.
  destruct (get_backend_returns st1 Hc1) as [b Hb].
  destruct (get_backend st1) as [r st2]. simpl in Hb. subst r.
  apply try_finally_reset.
Qed.

End DecoratorTheorems.

(** C7. A call of a function made by [_make_entrypoint], for a plain
    function or a coroutine function, ends with the context variable of
    the strand unset, whether the call returns a value or raises:
    [get_flow_context()] then returns [None]. *)
Theorem entrypoint_call_clears_context
    (backend_impl : backend_ref -> TracingBackend)
    (fid : nat) (fn : pyfunc) (name : option string) (after : after_arg)
    (args : list pyval) (st st' : Interp) (r : result pyval) :
  config_ok st ->
  call (wrapper_func (_make_entrypoint backend_impl fid fn name after)) args st
    = (r, st') ->
  _flow_context_var st' = None /\
  get_flow_context st' = (Val None, st').
Proof.
  intros Hc Hcall.
  assert (H : _flow_context_var st' = None).
  { replace st' with
      (call (wrapper_func (_make_entrypoint backend_impl fid fn name after))
            args st).2 by (by rewrite Hcall).
    simpl. destruct (iscoroutinefunction fn);
      by apply entrypoint_wrapper_clears. }
  split; [done|]. unfold get_flow_context, gets. by rewrite H.
Qed.

Lemma entrypoint_call_clears_context_witness :
  config_ok Interp_outer /\
  call (wrapper_func
          (_make_entrypoint (fun _ => null_backend) 7 failing None AfterNone))
       [] Interp_outer
    = (Exc (ValueError "boom"),
       mkInterp [ODict []; ODict []] None (fun n => "id" +:+ digits n) 1
                (Some LoggingBackend) true false ∅) /\
  _flow_context_var
    (mkInterp [ODict []; ODict []] None (fun n => "id" +:+ digits n) 1
              (Some LoggingBackend) true false ∅) = None /\
  get_flow_context
    (mkInterp [ODict []; ODict []] None (fun n => "id" +:+ digits n) 1
              (Some LoggingBackend) true false ∅)
  = (Val None,
     mkInterp [ODict []; ODict []] None (fun n => "id" +:+ digits n) 1
              (Some LoggingBackend) true false ∅).
Proof.
  assert (Hc : config_ok Interp_outer) by (intros _; discriminate).
  assert (Hcall :
    call (wrapper_func
            (_make_entrypoint (fun _ => null_backend) 7 failing None AfterNone))
         [] Interp_outer
    = (Exc (ValueError "boom"),
       mkInterp [ODict []; ODict []] None (fun n => "id" +:+ digits n) 1
                (Some LoggingBackend) true false ∅)) by reflexivity.
  split; [exact Hc|]. split; [exact Hcall|].
  exact (entrypoint_call_clears_context (fun _ => null_backend) 7 failing None
           AfterNone [] Interp_outer _ _ Hc Hcall).
Defined.

(** The cases of the test suite: an entry point that returns
    [current_flow_id()] sees the id drawn for it, and the context is
    unset afterwards. *)
Example entrypoint_creates_and_resets :
  let r := call (wrapper_func
                   (_make_entrypoint (fun _ => null_backend) 1 probe None
                                     AfterNone)) [] Interp0 in
  r.1 = Val (VStr "id") /\ get_flow_context r.2 = (Val None, r.2).
Proof. split; reflexivity. Qed.

(** C8. A call of a function made by [_make_step], for a plain function
    or a coroutine function, while the context variable is unset raises
    [RuntimeError] with a message naming the step, and the state is the
    one before the call: the wrapped function has not run, no span was
    opened, no context was created. *)
Theorem step_call_outside_flow_raises
    (backend_impl : backend_ref -> TracingBackend)
    (fid : nat) (fn : pyfunc) (name : option string) (after : after_arg)
    (args : list pyval) (st : Interp) :
  _flow_context_var st = None ->
  call (wrapper_func (_make_step backend_impl fid fn name after)) args st
    = (Exc (RuntimeError
              ("@step '" +:+ step_name_of fn name
               +:+ "' called outside of a flow context. "
               +:+ "Ensure an @entrypoint has been called first.")),
       st).
Proof.
  intros Hnone. simpl.
  destruct (iscoroutinefunction fn);
    unfold step_wrapper, step_async_wrapper, bind, get_flow_context, gets;
    by rewrite Hnone.
Qed.

Lemma step_call_outside_flow_raises_witness :
  _flow_context_var Interp0 = None /\
  call (wrapper_func
          (_make_step (fun _ => null_backend) 3 probe None (AfterOne (AfterStr "start"))))
       [] Interp0
    = (Exc (RuntimeError
              ("@step '" +:+ step_name_of probe None
               +:+ "' called outside of a flow context. "
               +:+ "Ensure an @entrypoint has been called first.")),
       Interp0).
Proof.
  assert (H : _flow_context_var Interp0 = None) by reflexivity.
  split; [exact H|].
  exact (step_call_outside_flow_raises (fun _ => null_backend) 3 probe None
           (AfterOne (AfterStr "start")) [] Interp0 H).
Defined.

(** C10. Called while another flow context is current, a function made
    by [_make_entrypoint] first installs a context of its own: its id is
    the next one that [uuid4] draws, its metadata a new empty
    dictionary.  Nothing in the call depends on the context that was
    current: the outcome and the final state are the same for every
    prior value of the context variable.  A wrapped function that
    returns [current_flow_id()] returns the new id (under a backend
    whose spans leave the context variable alone and do not raise).
    When the call ends, the context variable is unset: the context of
    the caller is not put back. *)
Theorem entrypoint_nested_replaces_and_drops_outer
    (backend_impl : backend_ref -> TracingBackend)
    (fid : nat) (fn : pyfunc) (name : option string) (after : after_arg)
    (args : list pyval) (st : Interp) (outer : FlowContext) :
  _flow_context_var st = Some outer ->
  config_ok st ->
  let fresh := mkFlowContext (uuid_source st (uuid_count st))
                             (length (objects st)) in
  let run f := call (wrapper_func (_make_entrypoint backend_impl fid f name after))
                    args in
  (let* ctx := FlowContext_init None None in _set_context ctx) st
    = (Val tt,
       mkInterp (objects st ++ [ODict []]) (Some fresh)
                (uuid_source st) (S (uuid_count st))
                (_backend st) (_configured st) (_HAS_OTEL st)
                (_flow_name_cache st)) /\
  (forall other : option FlowContext,
      run fn (set_context_var other st) = run fn st) /\
  ((forall b s f st0, exists h st1,
       enter (span (backend_impl b) s f) st0 = (Val h, st1) /\
       _flow_context_var st1 = _flow_context_var st0) ->
   (forall b s f h e st0, exists x st1,
       exit (span (backend_impl b) s f) h e st0 = (Val x, st1)) ->
   (run probe st).1 = Val (VStr (correlation_id fresh))) /\
  (forall r st',
      run fn st = (r, st') ->
      _flow_context_var st' = None /\
      get_flow_context st' = (Val None, st') /\
      _flow_context_var st' <> Some outer).
Proof.
  intros Hout Hc fresh run. split; [done|]. split; [|split].
  - intros other. unfold run; simpl.
    destruct (iscoroutinefunction fn); done.
  - intros Henter Hexit. unfold run; simpl.
    rewrite entrypoint_wrapper_unfold. cbv zeta.
    set (st1 := mkInterp _ _ _ _ _ _ _ _).
    assert (Hc1 : config_ok st1) by done.
    destruct (get_backend_returns st1 Hc1) as [b Hb].
    pose proof (get_backend_context st1) as Hctx.
    destruct (get_backend st1) as [rb st2]. simpl in Hb, Hctx. subst rb.
    unfold try_finally, bind.
    destruct (_resolve_flow_name_pure fid (__qualname__ probe) st2) as [s ->].
    unfold with_return.
    destruct (Henter b (step_name_of probe name) s st2) as (h & st3 & -> & Hv).
    unfold current_flow_id, bind, gets, ret; simpl.
    rewrite Hv, Hctx. simpl.
    destruct (Hexit b (step_name_of probe name) s h None st3) as (x & st4 & ->).
    done.
  - intros r st' Hrun.
    destruct (entrypoint_call_clears_context backend_impl fid fn name after
                args st st' r Hc Hrun) as [H1 H2].
    split; [done|]. split; [done|]. by rewrite H1.
Qed.

Lemma entrypoint_nested_replaces_and_drops_outer_witness :
  _flow_context_var Interp_outer = Some (mkFlowContext "outer" 0) /\
  config_ok Interp_outer /\
  (call (wrapper_func
           (_make_entrypoint (fun _ => null_backend) 7 probe None AfterNone))
        [] Interp_outer).1 = Val (VStr "id") /\
  forall r st',
    call (wrapper_func
            (_make_entrypoint (fun _ => null_backend) 7 probe None AfterNone))
         [] Interp_outer = (r, st') ->
    _flow_context_var st' = None /\
    get_flow_context st' = (Val None, st') /\
    _flow_context_var st' <> Some (mkFlowContext "outer" 0).
Proof.
  assert (Hout : _flow_context_var Interp_outer
                 = Some (mkFlowContext "outer" 0)) by reflexivity.
  assert (Hc : config_ok Interp_outer) by (intros _; discriminate).
  split; [exact Hout|]. split; [exact Hc|].
  pose proof (entrypoint_nested_replaces_and_drops_outer
                (fun _ => null_backend) 7 probe None AfterNone []
                Interp_outer (mkFlowContext "outer" 0) Hout Hc) as H.
  cbv zeta in H. destruct H as (_ & _ & Hprobe & Hexit).
  split; [|exact Hexit].
  apply Hprobe.
  - intros b s f st0. exists tt, st0. by split.
  - intros b s f h e st0. exists false, st0. reflexivity.
Defined.

(* ===================================================================== *)
(** * [deepcopy] copies everything and shares nothing                     *)
(* ===================================================================== *)

Section CopyBasics.

Lemma copied_mono memo memo' x y :
  memo ⊆ memo' -> copied memo x y -> copied memo' x y.
Proof.
  intros Hsub. destruct x; simpl; try done.
  intros (b & Hb & ->). exists b. split; [|done].
  by eapply lookup_weaken.
Qed.

Lemma items_copied_mono memo memo' o o' :
  memo ⊆ memo' -> items_copied memo o o' -> items_copied memo' o o'.
Proof.
  intros Hsub. destruct o, o'; simpl; try done.
  - intros H. eapply Forall2_impl; [exact H|].
    intros x y. by apply copied_mono.
  - intros H. eapply Forall2_impl; [exact H|].
    intros x y [H1 H2]. split; [done|]. by eapply copied_mono.
Qed.

Lemma todo_mono (R : gset addr) (memo memo' : gmap addr addr) :
  memo ⊆ memo' -> todo R memo' <= todo R memo.
Proof.
  intros Hsub. unfold todo. apply subseteq_size.
  apply subseteq_dom in Hsub. set_solver.
Qed.

Lemma todo_insert (R : gset addr) (memo : gmap addr addr) a b :
  a ∈ R -> memo !! a = None -> todo R (<[a := b]> memo) < todo R memo.
Proof.
  intros Ha Hn. unfold todo. apply subset_size.
  rewrite dom_insert_L. apply not_elem_of_dom in Hn.
  set_solver.
Qed.

Lemma todo_empty (R : gset addr) : todo R ∅ = size R.
Proof. unfold todo. by rewrite dom_empty_L, difference_empty_L. Qed.

Lemma size_list_to_set_le (l : list addr) :
  size (list_to_set l : gset addr) <= length l.
Proof.
  induction l as [|a l IH].
  - rewrite list_to_set_nil, size_empty. done.
  - rewrite list_to_set_cons. cbn [length].
    destruct (decide (a ∈ (list_to_set l : gset addr))) as [Hin|Hni].
    + assert (({[a]} ∪ list_to_set l : gset addr) = list_to_set l) as ->
        by set_solver.
      lia.
    + rewrite size_union by set_solver. rewrite size_singleton. lia.
Qed.

Lemma prefix_insert_ge {A} (l1 l2 : list A) i x :
  l1 `prefix_of` l2 -> length l1 <= i -> l1 `prefix_of` <[i := x]> l2.
Proof.
  intros [k ->] Hi. rewrite insert_app_r_alt by done. by eexists.
Qed.

Lemma prefix_lookup_lt_eq {A} (l1 l2 : list A) i :
  l1 `prefix_of` l2 -> i < length l1 -> l2 !! i = l1 !! i.
Proof. intros [k ->] Hi. by apply lookup_app_l. Qed.

Lemma new_val_mono n0 (h h' : list pyobj) v :
  length h <= length h' -> new_val n0 h v -> new_val n0 h' v.
Proof. destruct v; simpl; try done. lia. Qed.

End CopyBasics.

Section CopyState.
Variable h0 : list pyobj.

Lemma step_post_refl P s :
  base_inv h0 s -> done_inv h0 P s -> step_post h0 P s s.
Proof.
  intros Hb Hd. split; [done | done | done | done |].
  intros a b H1 H2. congruence.
Qed.

Lemma entry_ok_mono s s' a :
  s.1 ⊆ s'.1 -> s.2 `prefix_of` s'.2 -> entry_ok h0 s a -> entry_ok h0 s' a.
Proof.
  intros Hm Hp (b & o & o' & H1 & H2 & H3 & H4).
  exists b, o, o'. split; [by eapply lookup_weaken|]. split; [done|].
  split; [by eapply prefix_lookup_Some|]. by eapply items_copied_mono.
Qed.

Lemma copied_new_val s x y :
  base_inv h0 s -> copied s.1 x y -> new_val (length h0) s.2 y.
Proof.
  intros Hb. destruct x; simpl; try (by intros ->).
  intros (b & Hm & ->). simpl. by apply (bi_memo _ _ Hb) in Hm as [_ ?].
Qed.

Lemma base_inv_bound s : base_inv h0 s -> length h0 <= length s.2.
Proof. intros Hb. apply prefix_length, Hb. Qed.

End CopyState.

(** The loop that copies the items of one container, given what one
    call of [deepcopy] on an item achieves. *)
Section CopyLoop.
Variable h0 : list pyobj.
Context {X : Type}.
Variable copy1 : pyval -> copy_state -> result (pyval * copy_state).
Variable item : X -> pyval.
Variable put : X -> pyval -> list pyobj -> list pyobj.
Variable build : list (X * pyval) -> pyobj.
Variable good : list X -> Prop.
Variable bound : nat.
Variable R : list addr.
Variables a b : addr.
Variable P : gset addr.
Variable s0 : copy_state.

Hypothesis Hcopy1 : forall x s Q,
  base_inv h0 s -> done_inv h0 Q s -> val_in R x ->
  todo (list_to_set R) s.1 < bound ->
  exists y s', copy1 x s = Val (y, s') /\ step_post h0 Q s s' /\
               copied s'.1 x y.
Hypothesis Hput : forall l x y h,
  good (map fst l ++ [x]) -> h !! b = Some (build l) ->
  put x y h = <[b := build (l ++ [(x, y)])]> h.
Hypothesis Hvalues : forall l, obj_values (build l) = map snd l.
Hypothesis Hgood : forall l1 l2, good (l1 ++ l2) -> good l1.
Hypothesis Hb : b = length s0.2.
Hypothesis Hs0 : base_inv h0 s0.

Local Abbreviation LI := (loop_inv h0 item build a b P s0).

Lemma loop_inv_step s l x y s1 :
  LI s l ->
  good (map fst l ++ [x]) ->
  step_post h0 (P ∪ {[a]}) s s1 ->
  copied s1.1 (item x) y ->
  LI (s1.1, put x y s1.2) (l ++ [(x, y)]).
Proof.
  intros [Lb Ld Lm Lh Ll Li Lo Lc] Hg [Sb Sd Sm Sh Sf] Hy.
  assert (Hobj : s1.2 !! b = Some (build l)) by (by eapply prefix_lookup_Some).
  rewrite (Hput l x y _ Hg Hobj).
  assert (Hlen : b < length s1.2).
  { apply prefix_length in Sh. lia. }
  assert (Hb0 : length h0 <= b).
  { rewrite Hb. by apply base_inv_bound. }
  assert (Himg : forall a' b',
    s1.1 !! a' = Some b' ->
    (a' = a /\ b' = b) \/ s0.1 !! a' = Some b' \/ (s0.1 !! a' = None /\ b < b')).
  { intros a' b' H1. destruct (s.1 !! a') as [b''|] eqn:E.
    - pose proof (lookup_weaken _ _ _ _ E Sm) as H2.
      rewrite H1 in H2. injection H2 as ->. by apply Li.
    - right. right. split.
      + destruct (s0.1 !! a') as [c|] eqn:E0; [|done].
        destruct (decide (a' = a)) as [->|Hne].
        * assert (s.1 !! a = Some b) as H2.
          { eapply lookup_weaken; [|exact Lm]. apply lookup_insert_eq. }
          congruence.
        * assert (s.1 !! a' = Some c) as H2.
          { eapply lookup_weaken; [|exact Lm]. by rewrite lookup_insert_ne. }
          congruence.
      + specialize (Sf a' b' E H1). lia. }
  split; simpl.
  - split; simpl.
    + apply prefix_insert_ge; [apply Sb | done].
    + intros a' b' Hm. rewrite length_insert. by apply (bi_memo _ _ Sb).
    + intros b' o Hb' Ho.
      destruct (decide (b = b')) as [<-|Hne].
      * rewrite list_lookup_insert_eq in Ho by done. injection Ho as <-.
        rewrite Hvalues, map_app. apply Forall_app. split.
        -- pose proof (bi_new _ _ Sb b _ Hb0 Hobj) as Hn.
           rewrite Hvalues in Hn.
           eapply Forall_impl; [exact Hn|]. intros v.
           apply new_val_mono. by rewrite length_insert.
        -- apply Forall_singleton. simpl.
           eapply new_val_mono; [|by eapply copied_new_val].
           by rewrite length_insert.
      * rewrite list_lookup_insert_ne in Ho by done.
        eapply Forall_impl; [by apply (bi_new _ _ Sb b' o)|]. intros v.
        apply new_val_mono. by rewrite length_insert.
  - intros a' Ha' HP.
    destruct (Sd a' Ha' HP) as (b' & o & o' & H1 & H2 & H3 & H4).
    exists b', o, o'. simpl. repeat split; try done.
    rewrite list_lookup_insert_ne; [done|].
    destruct (Himg a' b' H1) as [[-> _]|[H0|[_ Hlt]]].
    + set_solver.
    + apply (bi_memo _ _ Hs0) in H0. lia.
    + lia.
  - by etrans.
  - apply prefix_insert_ge; [by etrans | lia].
  - by rewrite length_insert.
  - done.
  - by apply list_lookup_insert_eq.
  - apply Forall_app. split.
    + eapply Forall_impl; [exact Lc|]. intros p. by apply copied_mono.
    + by apply Forall_singleton.
Qed.

Lemma copy_items_loop xs :
  forall l s,
    LI s l ->
    Forall (fun x => val_in R (item x)) xs ->
    good (map fst l ++ xs) ->
    todo (list_to_set R) s.1 < bound ->
    exists s' l',
      copy_items copy1 item put xs s = Val s' /\
      LI s' l' /\ map fst l' = map fst l ++ xs.
Proof.
  induction xs as [|x xs IH]; intros l s HL Hv Hg Hf.
  - exists s, l. by rewrite app_nil_r.
  - apply Forall_cons in Hv as [Hx Hv]. simpl.
    destruct (Hcopy1 (item x) s (P ∪ {[a]}) (li_base _ _ _ _ _ _ _ _ _ HL)
                (li_done _ _ _ _ _ _ _ _ _ HL)
                Hx Hf) as (y & [memo1 h1] & -> & Hpost & Hy).
    assert (Hg1 : good (map fst l ++ [x])).
    { apply (Hgood _ xs). by rewrite <- app_assoc. }
    pose proof (loop_inv_step s l x y _ HL Hg1 Hpost Hy) as HL1.
    simpl in HL1.
    destruct (IH (l ++ [(x, y)]) (memo1, put x y h1) HL1 Hv) as (s' & l' & Hr & HL' & Hm).
    + rewrite map_app. simpl. by rewrite <- app_assoc.
    + simpl. pose proof (todo_mono (list_to_set R) _ _ (sp_memo _ _ _ _ Hpost)).
      simpl in *. lia.
    + exists s', l'. split; [done|]. split; [done|].
      rewrite Hm, map_app. simpl. by rewrite <- app_assoc.
Qed.

(** The state right after the empty copy is recorded in the memo. *)
Lemma loop_inv_init :
  done_inv h0 P s0 ->
  a < length h0 ->
  s0.1 !! a = None ->
  LI (<[a := b]> s0.1, s0.2 ++ [build []]) [].
Proof.
  intros Hd Ha Hn.
  assert (Hb0 : length h0 <= b).
  { rewrite Hb. by apply base_inv_bound. }
  split; simpl.
  - split; simpl.
    + etrans; [apply Hs0|]. by apply prefix_app_r.
    + intros a' b'. rewrite length_app; simpl.
      destruct (decide (a = a')) as [<-|Hne].
      * rewrite lookup_insert_eq. intros [= <-]. lia.
      * rewrite lookup_insert_ne by done.
        intros H%(bi_memo _ _ Hs0). lia.
    + intros b' o Hb' Ho.
      destruct (decide (b' < length s0.2)) as [Hlt|Hge].
      * rewrite lookup_app_l in Ho by done.
        eapply Forall_impl; [by apply (bi_new _ _ Hs0 b' o)|]. intros v.
        apply new_val_mono. rewrite length_app. lia.
      * apply lookup_lt_Some in Ho as Hlt. rewrite length_app in Hlt.
        simpl in Hlt. assert (b' = length s0.2) as -> by lia.
        rewrite list_lookup_middle in Ho by done. injection Ho as <-.
        by rewrite Hvalues.
  - intros a' Ha' HP.
    assert (a' <> a) by set_solver.
    simpl in Ha'. rewrite lookup_insert_ne in Ha' by done.
    eapply (entry_ok_mono h0 s0); simpl.
    + by apply insert_subseteq.
    + by apply prefix_app_r.
    + apply Hd; [done | set_solver].
  - done.
  - by apply prefix_app_r.
  - rewrite length_app; simpl. lia.
  - intros a' b'. destruct (decide (a = a')) as [<-|Hne].
    + rewrite lookup_insert_eq. intros [= <-]. by left.
    + rewrite lookup_insert_ne by done. intros H. right. by left.
  - by apply list_lookup_middle.
  - done.
Qed.

(** When the loop is over, the call has achieved its post-condition. *)
Lemma loop_inv_post s l o :
  LI s l ->
  s0.1 !! a = None ->
  h0 !! a = Some o ->
  items_copied s.1 o (build l) ->
  step_post h0 P s0 s /\ copied s.1 (VRef a) (VRef b).
Proof.
  intros [Lb Ld Lm Lh Ll Li Lo Lc] Hn Ho Hic.
  assert (Hab : s.1 !! a = Some b).
  { eapply lookup_weaken; [|exact Lm]. apply lookup_insert_eq. }
  split; [|by exists b].
  split; try done.
  - intros a' Ha' HP. destruct (decide (a' = a)) as [->|Hne].
    + by exists b, o, (build l).
    + apply Ld; [done | set_solver].
  - etrans; [|exact Lm]. by apply insert_subseteq.
  - intros a' b' H0 H1. destruct (Li a' b' H1) as [[-> ->]|[H2|[_ Hlt]]].
    + by rewrite Hb.
    + congruence.
    + lia.
Qed.

End CopyLoop.

Section DeepcopySpec.
Variable h0 : list pyobj.
Variable R : list addr.
Hypothesis Hok : heap_ok h0.
Hypothesis HR : copyable_set h0 R.

Lemma list_append_put b (l : list (pyval * pyval)) (x y : pyval) h :
  h !! b = Some (OList (map snd l)) ->
  list_append b y h = <[b := OList (map snd (l ++ [(x, y)]))]> h.
Proof. intros Hh. unfold list_append. by rewrite Hh, map_app. Qed.

Lemma dict_setitem_put b (l : list ((string * pyval) * pyval))
    (x : string * pyval) (y : pyval) h :
  NoDup (map fst (map fst l ++ [x])) ->
  h !! b = Some (dict_built l) ->
  dict_setitem b x.1 y h = <[b := dict_built (l ++ [(x, y)])]> h.
Proof.
  intros Hnd Hh. unfold dict_setitem, dict_built in *. rewrite Hh.
  rewrite PyDictFacts.set_absent, map_app; [done|].
  apply PyDictFacts.get_None. unfold PyDict.keys.
  rewrite map_app in Hnd. simpl in Hnd.
  apply NoDup_app in Hnd as (_ & Hdis & _).
  intros Hin. apply (Hdis x.1); [|by left].
  rewrite !map_map in *. simpl in Hin. exact Hin.
Qed.

Lemma copyable_at_lookup a :
  a ∈ R ->
  exists o, h0 !! a = Some o /\
            Forall (val_in R) (obj_values o) /\
            match o with OList _ | ODict _ => True | _ => False end.
Proof.
  intros Ha. unfold copyable_set in HR. rewrite Forall_forall in HR.
  specialize (HR a Ha). unfold copyable_at in HR.
  destruct (h0 !! a) as [[xs|kvs|kvs|name]|]; try done; by eexists.
Qed.

Lemma deepcopy_rec_spec fuel :
  forall x s P,
    base_inv h0 s -> done_inv h0 P s -> val_in R x ->
    todo (list_to_set R) s.1 < fuel ->
    exists y s', deepcopy_rec fuel x s = Val (y, s') /\
                 step_post h0 P s s' /\ copied s'.1 x y.
Proof.
  induction fuel as [|fuel IH]; intros x s P Hb Hd Hx Hf; [lia|].
  destruct x as [| | | |a];
    try (eexists _, s; split; [done|]; split; [by apply step_post_refl|done]).
  destruct s as [memo h]. simpl in *.
  destruct (memo !! a) as [b|] eqn:Hm.
  { exists (VRef b), (memo, h). split; [done|].
    split; [by apply step_post_refl | by exists b]. }
  destruct (copyable_at_lookup a Hx) as (o & Ho & Hvals & Hkind).
  assert (Ha : a < length h0) by (by eapply lookup_lt_Some).
  pose proof (prefix_lookup_Some _ _ _ _ Ho (bi_prefix _ _ Hb)) as Hho.
  simpl in Hho. rewrite Hho.
  pose proof (Forall_lookup_1 _ _ _ _ Hok Ho) as [_ Hwf].
  assert (Hf' : todo (list_to_set R) (<[a := length h]> memo) < fuel).
  { assert (HaR : a ∈ (list_to_set R : gset addr))
      by (by apply elem_of_list_to_set).
    pose proof (todo_insert (list_to_set R) memo a (length h) HaR Hm). lia. }
  destruct o as [xs|kvs|kvs|name]; try done.
  - set (put := fun (_ : pyval) y => list_append (length h) y).
    set (build := fun l : list (pyval * pyval) => OList (map snd l)).
    set (good := fun _ : list pyval => True).
    assert (Hput : forall l x y h',
      good (map fst l ++ [x]) -> h' !! length h = Some (build l) ->
      put x y h' = <[length h := build (l ++ [(x, y)])]> h').
    { intros l x y h' _ Hh. by apply list_append_put. }
    assert (Hvalues : forall l, obj_values (build l) = map snd l) by done.
    assert (Hgood : forall l1 l2 : list pyval, good (l1 ++ l2) -> good l1)
      by done.
    pose proof (loop_inv_init h0 (deepcopy_rec fuel) id put build good fuel R
                  a (length h) P (memo, h) IH Hput Hvalues Hgood eq_refl Hb
                  Hd Ha Hm) as HL.
    destruct (copy_items_loop h0 (deepcopy_rec fuel) id put build good fuel R
                a (length h) P (memo, h) IH Hput Hvalues Hgood eq_refl Hb
                xs [] _ HL Hvals I Hf')
      as (s' & l' & Hrun & HL' & Hl').
    simpl in Hl'.
    destruct (loop_inv_post h0 (deepcopy_rec fuel) id put build good fuel R
                a (length h) P (memo, h) IH Hput Hvalues Hgood eq_refl Hb
                s' l' (OList xs) HL' Hm Ho) as [Hpost Hcop].
    { simpl. pose proof (li_cop _ _ _ _ _ _ _ _ _ HL') as Hc.
      rewrite <- Hl'. clear -Hc. induction Hc as [|[x y] l Hxy Hc IHc]; simpl.
      - constructor.
      - constructor; done. }
    subst put build good. simpl in Hrun. rewrite Hrun.
    by exists (VRef (length h)), s'.
  - set (put := fun (kv : string * pyval) y =>
                  dict_setitem (length h) kv.1 y).
    set (good := fun ks : list (string * pyval) => NoDup (map fst ks)).
    assert (Hput : forall l x y h',
      good (map fst l ++ [x]) -> h' !! length h = Some (dict_built l) ->
      put x y h' = <[length h := dict_built (l ++ [(x, y)])]> h').
    { intros l x y h' Hg Hh. by apply dict_setitem_put. }
    assert (Hvalues : forall l, obj_values (dict_built l) = map snd l).
    { intros l. unfold dict_built; simpl. unfold PyDict.values.
      by rewrite map_map. }
    assert (Hgood : forall l1 l2 : list (string * pyval),
               good (l1 ++ l2) -> good l1).
    { intros l1 l2. unfold good. rewrite map_app.
      intros H. by apply NoDup_app in H as [? _]. }
    assert (Hvals' : Forall (fun x : string * pyval => val_in R x.2) kvs).
    { simpl in Hvals. unfold PyDict.values in Hvals.
      clear -Hvals. induction kvs as [|kv kvs IHk]; [constructor|].
      simpl in Hvals. apply Forall_cons in Hvals as [H1 H2].
      constructor; [done | by apply IHk]. }
    pose proof (loop_inv_init h0 (deepcopy_rec fuel) snd put dict_built good
                  fuel R a (length h) P (memo, h) IH Hput Hvalues Hgood eq_refl
                  Hb Hd Ha Hm) as HL.
    destruct (copy_items_loop h0 (deepcopy_rec fuel) snd put dict_built good
                fuel R a (length h) P (memo, h) IH Hput Hvalues Hgood eq_refl
                Hb kvs [] _ HL Hvals' Hwf Hf')
      as (s' & l' & Hrun & HL' & Hl').
    simpl in Hl'.
    destruct (loop_inv_post h0 (deepcopy_rec fuel) snd put dict_built good
                fuel R a (length h) P (memo, h) IH Hput Hvalues Hgood eq_refl
                Hb s' l' (ODict kvs) HL' Hm Ho) as [Hpost Hcop].
    { simpl. pose proof (li_cop _ _ _ _ _ _ _ _ _ HL') as Hc.
      rewrite <- Hl'. clear -Hc. induction Hc as [|[x y] l Hxy Hc IHc]; simpl.
      - constructor.
      - constructor; done. }
    subst put good. unfold dict_built in Hrun. simpl in Hrun. rewrite Hrun.
    by exists (VRef (length h)), s'.
Qed.

End DeepcopySpec.

(** ** Views and reachability *)

Section ViewFacts.

(** A view depends on the reachable objects only. *)
Lemma view_frame n :
  forall (h h' : list pyobj) v,
    (forall c, reach h v c -> h' !! c = h !! c) ->
    view n h' v = view n h v.
Proof.
  induction n as [|n IH]; intros h h' v Hfr; destruct v as [| | | |a];
    try done.
  simpl. rewrite (Hfr a) by constructor.
  destruct (h !! a) as [[xs|kvs|kvs|name]|] eqn:E; [| | |done|done].
  - f_equal. apply map_ext_in. intros x Hx%list_elem_of_In. apply IH.
    intros c Hc. apply Hfr. by eapply reach_step.
  - f_equal. apply map_ext_in. intros [k x] Hx%list_elem_of_In. simpl.
    f_equal. apply IH. intros c Hc. apply Hfr.
    eapply reach_step; [done| |done]. simpl.
    by apply (list_elem_of_fmap_2 snd) in Hx.
  - f_equal. apply map_ext_in. intros [k x] Hx%list_elem_of_In. simpl.
    f_equal. apply IH. intros c Hc. apply Hfr.
    eapply reach_step; [done| |done]. simpl.
    by apply (list_elem_of_fmap_2 snd) in Hx.
Qed.

Variable h0 : list pyobj.
Hypothesis Hok : heap_ok h0.

(** From an old value only old objects are reached, however the heap
    was extended. *)
Lemma reach_old h v c :
  h0 `prefix_of` h -> val_ok (length h0) v -> reach h v c -> c < length h0.
Proof.
  intros Hp Hv Hr. induction Hr as [a|a o v c Ha Hin Hr IH]; [done|].
  apply IH. simpl in Hv.
  rewrite (prefix_lookup_lt_eq _ _ _ Hp Hv) in Ha.
  pose proof (Forall_lookup_1 _ _ _ _ Hok Ha) as [Hvals _].
  rewrite Forall_forall in Hvals. by apply Hvals.
Qed.

(** From a new value only new objects are reached. *)
Lemma reach_new s v c :
  base_inv h0 s -> new_val (length h0) s.2 v -> reach s.2 v c ->
  length h0 <= c.
Proof.
  intros Hb Hv Hr. induction Hr as [a|a o v c Ha Hin Hr IH].
  - simpl in Hv. lia.
  - apply IH. simpl in Hv.
    pose proof (bi_new _ _ Hb a o (proj1 Hv) Ha) as Hvals.
    rewrite Forall_forall in Hvals. by apply Hvals.
Qed.

(** The view of an old value is the one it had. *)
Lemma view_old n h v :
  h0 `prefix_of` h -> val_ok (length h0) v -> view n h v = view n h0 v.
Proof.
  intros Hp Hv. apply view_frame. intros c Hc.
  apply prefix_lookup_lt_eq; [done|].
  by eapply (reach_old h0).
Qed.

(** With every copy complete, a copy has the view of its original. *)
Lemma view_copied s :
  base_inv h0 s -> done_inv h0 ∅ s ->
  forall n x y, copied s.1 x y -> view n s.2 y = view n h0 x.
Proof.
  intros Hb Hd. induction n as [|n IH]; intros x y Hc.
  - destruct x; simpl in Hc; try (by subst). by destruct Hc as (b & _ & ->).
  - destruct x as [| | | |a]; simpl in Hc; try (by subst).
    destruct Hc as (b & Hm & ->).
    destruct (Hd a) as (b' & o & o' & H1 & H2 & H3 & H4); [by eexists|done|].
    assert (b' = b) as -> by congruence.
    simpl. rewrite H2, H3.
    destruct o as [xs|kvs|kvs|name], o' as [ys|kvs'|kvs'|name'];
      simpl in H4; try done.
    + f_equal. clear -H4 IH. induction H4 as [|x y xs ys Hxy H4 IH4]; simpl.
      * done.
      * f_equal; [by apply IH | done].
    + f_equal. clear -H4 IH.
      induction H4 as [|[k x] [k' y] xs ys [Hk Hxy] H4 IH4]; simpl in *.
      * done.
      * f_equal; [|done]. f_equal; [done | by apply IH].
Qed.

End ViewFacts.
(** ** [fork] *)

Section ForkFacts.

Lemma base_inv_start h0 : base_inv h0 (∅, h0).
Proof.
  split; simpl.
  - done.
  - intros a b H. simpl in H. by rewrite lookup_empty in H.
  - intros b o Hb Ho. apply lookup_lt_Some in Ho. lia.
Qed.

(** More room does not change a copy that succeeded. *)
Lemma copy_items_mono {X : Type}
    (c1 c2 : pyval -> copy_state -> result (pyval * copy_state))
    (item : X -> pyval) (put : X -> pyval -> list pyobj -> list pyobj) xs :
  (forall x s r, c1 x s = Val r -> c2 x s = Val r) ->
  forall s s', copy_items c1 item put xs s = Val s' ->
               copy_items c2 item put xs s = Val s'.
Proof.
  intros Hc. induction xs as [|x xs IH]; intros s s'; simpl; [done|].
  destruct (c1 (item x) s) as [[y [memo h]]|e] eqn:E; [|done].
  rewrite (Hc _ _ _ E). apply IH.
Qed.

Lemma deepcopy_rec_mono n :
  forall m x s r,
    n <= m -> deepcopy_rec n x s = Val r -> deepcopy_rec m x s = Val r.
Proof.
  induction n as [|n IH]; intros m x s r Hnm.
  - destruct x as [| | | |a]; destruct m; try done; simpl.
    all: destruct (s.1 !! a); [done|].
    all: by destruct (s.2 !! a) as [[xs|kvs|kvs|name]|].
  - destruct m as [|m]; [lia|].
    destruct x as [| | | |a]; try done; simpl.
    destruct (s.1 !! a); [done|].
    destruct (s.2 !! a) as [[xs|kvs|kvs|name]|]; try done.
    + destruct (copy_items (deepcopy_rec n) _ _ _ _) as [s1|e] eqn:E; [|done].
      intros [= <-].
      by rewrite (copy_items_mono (deepcopy_rec n) (deepcopy_rec m) _ _ _
                    (fun x s r => IH m x s r ltac:(lia)) _ _ E).
    + destruct (copy_items (deepcopy_rec n) _ _ _ _) as [s1|e] eqn:E; [|done].
      intros [= <-].
      by rewrite (copy_items_mono (deepcopy_rec n) (deepcopy_rec m) _ _ _
                    (fun x s r => IH m x s r ltac:(lia)) _ _ E).
Qed.

(** With room for as many nested copies as there are objects to copy,
    [deepcopy] of a reference returns. *)
Lemma deepcopy_rec_top h0 R a room :
  heap_ok h0 -> copyable_set h0 R -> a ∈ R -> length R < room ->
  exists b memo h',
    deepcopy_rec room (VRef a) (∅, h0) = Val (VRef b, (memo, h')) /\
    base_inv h0 (memo, h') /\ done_inv h0 ∅ (memo, h') /\
    memo !! a = Some b.
Proof.
  intros Hok HR Ha Hroom.
  destruct (deepcopy_rec_spec h0 R Hok HR room (VRef a) (∅, h0) ∅)
    as (y & [memo h'] & Hrun & Hpost & (b & Hm & ->)).
  - apply base_inv_start.
  - intros a' [b' H]. simpl in H. by rewrite lookup_empty in H.
  - done.
  - simpl. rewrite todo_empty.
    pose proof (size_list_to_set_le R). lia.
  - exists b, memo, h'. split; [done|]. split; [apply Hpost|].
    split; [apply Hpost | done].
Qed.

(** A copy that succeeded, with whatever room, is the complete one. *)
Lemma deepcopy_rec_returned h0 R a room y memo h' :
  heap_ok h0 -> copyable_set h0 R -> a ∈ R ->
  deepcopy_rec room (VRef a) (∅, h0) = Val (y, (memo, h')) ->
  exists b,
    y = VRef b /\ base_inv h0 (memo, h') /\ done_inv h0 ∅ (memo, h') /\
    memo !! a = Some b.
Proof.
  intros Hok HR Ha Hrun.
  destruct (deepcopy_rec_top h0 R a (room + S (length R)) Hok HR Ha)
    as (b & memo1 & h1 & Hrun1 & Hb & Hd & Hm); [lia|].
  rewrite (deepcopy_rec_mono room (room + S (length R)) _ _ _ ltac:(lia) Hrun)
    in Hrun1.
  injection Hrun1 as -> -> ->. by exists b.
Qed.

Lemma fork_run room ctx st b memo h' :
  correlation_id ctx <> "" ->
  deepcopy_rec room (VRef (_metadata ctx)) (∅, objects st)
    = Val (VRef b, (memo, h')) ->
  fork room ctx st
  = (Val (mkFlowContext (correlation_id ctx) b), set_objects h' st).
Proof.
  intros Hid Hrun. unfold fork, bind, deepcopy. rewrite Hrun.
  unfold FlowContext_init, bind. destruct (correlation_id ctx); done.
Qed.

Lemma apply_writes_prefix (h0 h : list pyobj) ws :
  h0 `prefix_of` h ->
  Forall (fun w : addr * pyobj => length h0 <= w.1) ws ->
  h0 `prefix_of` apply_writes ws h.
Proof.
  revert h. induction ws as [|w ws IH]; intros h Hp Hws; [done|].
  apply Forall_cons in Hws as [Hw Hws]. simpl. apply IH; [|done].
  by apply prefix_insert_ge.
Qed.

Lemma apply_writes_lookup_ge n0 (h : list pyobj) ws c :
  Forall (fun w : addr * pyobj => w.1 < n0) ws -> n0 <= c ->
  apply_writes ws h !! c = h !! c.
Proof.
  revert h. induction ws as [|w ws IH]; intros h Hws Hc; [done|].
  apply Forall_cons in Hws as [Hw Hws]. simpl. rewrite IH by done.
  apply list_lookup_insert_ne. lia.
Qed.

End ForkFacts.



(** The copy of the cyclic sample: two new objects that refer to each
    other and to none of the old ones. *)
Example fork_cyclic :
  (let* child := fork 3 (mkFlowContext "cid" 0) in
   let* _ := gets (fun _ => tt) in
   let* h := gets objects in
   ret (child, h)) Interp_cyclic
  = (Val (mkFlowContext "cid" 2,
          [ODict [("n", VInt 1); ("items", VRef 1)];
           OList [VStr "x"; VRef 0];
           ODict [("n", VInt 1); ("items", VRef 3)];
           OList [VStr "x"; VRef 2]]),
     set_objects
       [ODict [("n", VInt 1); ("items", VRef 1)];
        OList [VStr "x"; VRef 0];
        ODict [("n", VInt 1); ("items", VRef 3)];
        OList [VStr "x"; VRef 2]] Interp_cyclic).
Proof. vm_compute. reflexivity. Qed.


(** An object that [copy.deepcopy] cannot copy makes [fork] raise
    [TypeError]; the parent is as it was. *)
Example fork_lock :
  fork 3 (mkFlowContext "cid" 0) Interp_lock
  = (Exc (PyException "TypeError" "cannot pickle '_thread.lock' object"),
     Interp_lock).
Proof. vm_compute. reflexivity. Qed.

(** The class invariant: what [__init__] builds is usable, whatever id
    it is given, as long as the metadata it is given, if any, is a
    dictionary of the heap and the ids drawn by [uuid4] are not empty. *)
Lemma FlowContext_init_ok cid md st ctx st' :
  (forall n, uuid_source st n <> "") ->
  (forall a, md = Some a -> exists d, objects st !! a = Some (ODict d)) ->
  FlowContext_init cid md st = (Val ctx, st') ->
  ctx_ok st' ctx.
Proof.
  intros Hu Hmd. unfold FlowContext_init, bind, uuid4_hex, new_object, ret.
  destruct md as [a|].
  - destruct (Hmd a eq_refl) as [d Hd].
    destruct cid as [[|c s]|]; simpl; intros [= <- <-]; split; simpl;
      try done; by eexists.
  - destruct cid as [[|c s]|]; simpl; intros [= <- <-]; split; simpl;
      try done; exists []; by apply list_lookup_middle.
Qed.

(* ===================================================================== *)
(** * Further properties of the registry                                  *)
(* ===================================================================== *)

Section RegistryMore.
Import PyDictFacts.

Lemma flow_steps_lookup w f n :
  lookup_step w f n = PyDict.get n (flow_steps w f).
Proof.
  unfold lookup_step, flow_steps. by destruct (PyDict.get f (reg w)).
Qed.

(** What [register] of a step with a free key does to the dictionaries
    of the flows. *)
Lemma register_fresh_flow_steps info w :
  wf_world w ->
  lookup_step w (StepInfo.flow_name info) (StepInfo.name info) = None ->
  (register info w).1 = Val tt /\
  forall f,
    flow_steps (register info w).2 f =
      flow_steps w f ++
      (if String.eqb (StepInfo.flow_name info) f
       then [(StepInfo.name info, info)] else []).
Proof.
  intros Hw Hfree. unfold lookup_step in Hfree.
  destruct (PyDict.get (StepInfo.flow_name info) (reg w)) as [a|] eqn:E.
  - rewrite (register_existing_flow _ _ _ E), Hfree. split; [done|].
    intros f. unfold flow_steps, reg; simpl. fold (reg w).
    destruct (String.eqb_spec (StepInfo.flow_name info) f) as [<-|Hne].
    + rewrite E. rewrite list_lookup_total_insert_eq
        by apply (wf_bound _ Hw _ _ E).
      by apply set_absent.
    + rewrite app_nil_r.
      destruct (PyDict.get f (reg w)) as [b|] eqn:Eb; [|done].
      apply list_lookup_total_insert_ne. intros ->.
      apply Hne. by apply (wf_inj _ Hw _ _ b).
  - rewrite (register_new_flow _ _ E). split; [done|].
    intros f. unfold flow_steps at 1. unfold reg at 1. simpl.
    destruct (String.eqb_spec (StepInfo.flow_name info) f) as [<-|Hne].
    + rewrite get_set_eq, list_lookup_total_middle by done.
      unfold flow_steps. by rewrite E.
    + rewrite get_set_ne, app_nil_r by done. unfold flow_steps.
      destruct (PyDict.get f (reg w)) as [b|] eqn:Eb; [|done].
      apply lookup_total_app_l. apply (wf_bound _ Hw _ _ Eb).
Qed.

Lemma items_of_flow_cons f i infos :
  items_of_flow f (i :: infos) =
    (if String.eqb (StepInfo.flow_name i) f
     then [(StepInfo.name i, i)] else []) ++ items_of_flow f infos.
Proof.
  unfold items_of_flow; simpl.
  by destruct (String.eqb (StepInfo.flow_name i) f).
Qed.

Lemma register_all_fresh infos :
  forall w,
    wf_world w ->
    NoDup (map step_key infos) ->
    (forall i, i ∈ infos ->
               lookup_step w (StepInfo.flow_name i) (StepInfo.name i) = None) ->
    Forall (fun r => r = Val tt) (register_results infos w) /\
    forall f,
      flow_steps (register_all infos w) f
      = flow_steps w f ++ items_of_flow f infos.
Proof.
  induction infos as [|i infos IH]; intros w Hw Hnd Hfree.
  - split; [constructor|]. intros f. simpl. by rewrite app_nil_r.
  - simpl in Hnd. apply NoDup_cons in Hnd as [Hni Hnd].
    assert (Hi : lookup_step w (StepInfo.flow_name i) (StepInfo.name i) = None).
    { apply Hfree. left. }
    destruct (register_fresh_flow_steps i w Hw Hi) as [Hr Hfs].
    destruct (register_fresh i w Hw Hi) as (w' & Hrun & Hl & Hframe).
    destruct (IH (register i w).2) as [IH1 IH2].
    + by apply register_wf.
    + done.
    + intros j Hj. rewrite Hrun. simpl. rewrite Hframe.
      * apply Hfree. by right.
      * intros Hk. apply Hni.
        assert (step_key j = step_key i) as <- by exact Hk.
        apply (list_elem_of_fmap_2 step_key) in Hj. exact Hj.
    + split.
      * simpl. constructor; done.
      * intros f.
        change (register_all (i :: infos) w)
          with (register_all infos (register i w).2).
        rewrite IH2, Hfs, items_of_flow_cons. by rewrite <- app_assoc.
Qed.

End RegistryMore.

(** X1. Registering steps with pairwise distinct (flow, step) keys in
    an empty registry never raises, and each flow then holds exactly
    its steps, in the order of registration. *)
Theorem register_all_distinct_keys (infos : list StepInfo.t) :
  NoDup (map step_key infos) ->
  Forall (fun r => r = Val tt) (register_results infos World0) /\
  (forall f,
      flow_steps (register_all infos World0) f
      = map (fun i => (StepInfo.name i, i))
            (List.filter (fun i => String.eqb (StepInfo.flow_name i) f) infos)) /\
  (forall f n,
      lookup_step (register_all infos World0) f n = first_registered f n infos).
Proof.
  intros Hnd.
  destruct (register_all_fresh infos World0 wf_World0 Hnd) as [H1 H2].
  { done. }
  split; [done|]. split.
  - intros f. by rewrite H2.
  - intros f n. by rewrite lookup_register_all by apply wf_World0.
Qed.

Lemma register_all_distinct_keys_witness :
  NoDup (map step_key [step_c; step_a; step_b]) /\
  Forall (fun r => r = Val tt)
         (register_results [step_c; step_a; step_b] World0) /\
  (forall f,
      flow_steps (register_all [step_c; step_a; step_b] World0) f
      = map (fun i => (StepInfo.name i, i))
            (List.filter (fun i => String.eqb (StepInfo.flow_name i) f)
                         [step_c; step_a; step_b])) /\
  (forall f n,
      lookup_step (register_all [step_c; step_a; step_b] World0) f n
      = first_registered f n [step_c; step_a; step_b]).
Proof.
  assert (Hnd : NoDup (map step_key [step_c; step_a; step_b])).
  { apply (bool_decide_unpack _). vm_compute. exact I. }
  split; [exact Hnd|].
  exact (register_all_distinct_keys [step_c; step_a; step_b] Hnd).
Defined.

(** X2. After any sequence of registrations in an empty registry,
    [get_all_flow_names] lists every flow that some registered step
    names, each once, and nothing else; the call changes nothing. *)
Theorem get_all_flow_names_registered (infos : list StepInfo.t) :
  exists names,
    get_all_flow_names (register_all infos World0)
      = (Val names, register_all infos World0) /\
    NoDup names /\
    forall f, f ∈ names <->
              exists i, i ∈ infos /\ StepInfo.flow_name i = f.
Proof.
  set (w := register_all infos World0).
  exists (PyDict.keys (reg w)). split; [done|]. split.
  - apply (wf_flows w). apply register_all_wf, wf_World0.
  - intros f.
    pose proof (flow_registered_register_all infos World0 f) as Hr.
    fold w in Hr. split.
    + intros Hin. destruct Hr as [Hr _].
      destruct (PyDict.get f (reg w)) as [a|] eqn:E.
      * destruct Hr as [[? H]|H]; [by eexists | done | done].
      * by apply PyDictFacts.get_None in E.
    + intros Hi. destruct Hr as [_ Hr].
      destruct Hr as [a Ha]; [by right|].
      destruct (decide (f ∈ PyDict.keys (reg w))) as [|Hn]; [done|].
      apply PyDictFacts.get_None in Hn. congruence.
Qed.

Section ClearFacts.
Import PyDictFacts.

Lemma clear_wf w : wf_world w -> wf_world (clear w).2.
Proof.
  intros [Hb Hi Hf Hh]. split; unfold reg; simpl; try done.
  apply wf_nil.
Qed.

End ClearFacts.

(** X3. [clear] forgets every flow and keeps the dictionary objects:
    afterwards no flow name is listed, [get_flow] raises [KeyError] for
    every name, a snapshot taken before still holds its steps, and any
    step can be registered again without a conflict with what was
    stored before. *)
Theorem clear_forgets_everything (w : World) (name : string)
    (info : StepInfo.t) :
  wf_world w ->
  let w' := (clear w).2 in
  clear w = (Val tt, w') /\
  get_all_flow_names w' = (Val [], w') /\
  get_flow name w' = (Exc (KeyError ("Flow '" +:+ name +:+ "' not found")), w') /\
  heap w' = heap w /\
  exists w'',
    register info w' = (Val tt, w'') /\
    lookup_step w'' (StepInfo.flow_name info) (StepInfo.name info) = Some info.
Proof.
  intros Hw w'. split; [done|]. split; [done|]. split; [done|].
  split; [done|].
  destruct (register_fresh info w' (clear_wf w Hw)) as (w'' & Hr & Hl & _).
  { done. }
  by exists w''.
Qed.

Lemma clear_forgets_everything_witness :
  wf_world world_abc /\
  let w' := (clear world_abc).2 in
  clear world_abc = (Val tt, w') /\
  get_all_flow_names w' = (Val [], w') /\
  get_flow "order" w'
    = (Exc (KeyError ("Flow '" +:+ "order" +:+ "' not found")), w') /\
  heap w' = heap world_abc /\
  exists w'',
    register (StepInfo.mk "a" "order" ["b"] false) w' = (Val tt, w'') /\
    lookup_step w'' "order" "a" = Some (StepInfo.mk "a" "order" ["b"] false).
Proof.
  assert (Hwf : wf_world world_abc) by (apply wf_worldb_sound; reflexivity).
  split; [exact Hwf|].
  exact (clear_forgets_everything world_abc "order"
           (StepInfo.mk "a" "order" ["b"] false) Hwf).
Defined.

Section KeysFacts.
Import PyDictFacts.

Lemma register_keys_ok info w :
  wf_world w -> keys_ok w -> keys_ok (register info w).2.
Proof.
  intros Hw Hk f n s.
  destruct (lookup_step w (StepInfo.flow_name info) (StepInfo.name info))
    as [e|] eqn:E.
  - rewrite (register_existing _ _ _ E). simpl. apply Hk.
  - destruct (register_fresh info w Hw E) as (w' & -> & Hl & Hfr). simpl.
    destruct (decide ((f, n) = (StepInfo.flow_name info, StepInfo.name info)))
      as [[= -> ->]|Hne].
    + rewrite Hl. by intros [= <-].
    + rewrite (Hfr f n Hne). apply Hk.
Qed.

Lemma keys_ok_World0 : keys_ok World0.
Proof. intros f n s. done. Qed.

Lemma register_all_keys_ok infos :
  forall w, wf_world w -> keys_ok w -> keys_ok (register_all infos w).
Proof.
  induction infos as [|i infos IH]; intros w Hw Hk; [done|].
  simpl. apply IH; [by apply register_wf | by apply register_keys_ok].
Qed.

End KeysFacts.

(** X4. Every state reached from the empty registry by registrations,
    whether they raise or not, is well formed, and stores each step
    under its own flow name and step name. *)
Theorem register_all_keeps_invariants (infos : list StepInfo.t) :
  wf_world (register_all infos World0) /\
  forall f n s,
    lookup_step (register_all infos World0) f n = Some s ->
    StepInfo.name s = n /\ StepInfo.flow_name s = f.
Proof.
  split; [apply register_all_wf, wf_World0|].
  apply register_all_keys_ok; [apply wf_World0 | apply keys_ok_World0].
Qed.

(** X5. The entry points of a snapshot are exactly the names of the
    steps of the snapshot whose entry point flag is set. *)
Theorem get_flow_entrypoints (w w' : World) (name : string) (fi : FlowInfo.t) :
  wf_world w ->
  keys_ok w ->
  get_flow name w = (Val fi, w') ->
  forall n,
    n ∈ FlowInfo.entrypoints fi <->
    exists s, PyDict.get n (heap w' !!! FlowInfo.steps fi) = Some s /\
              StepInfo.is_entrypoint s = true.
Proof.
  intros Hw Hk Hg n.
  destruct (PyDict.get name (reg w)) as [a|] eqn:E.
  2: { by rewrite (get_flow_missing _ _ E) in Hg. }
  rewrite (get_flow_found _ _ _ E) in Hg. injection Hg as <- <-. simpl.
  rewrite list_lookup_total_middle by done.
  set (d := heap w !!! a).
  assert (Hd : PyDict.wf d) by apply lookup_total_wf, Hw.
  rewrite elem_of_list_to_set, list_elem_of_In, in_map_iff. split.
  - intros (s & Hn & Hs). apply filter_In in Hs as [Hs He].
    exists s. split; [|done].
    unfold PyDict.values in Hs. apply in_map_iff in Hs as ([k s'] & Hs' & Hin).
    simpl in Hs'. subst s'. apply list_elem_of_In in Hin.
    apply (PyDictFacts.elem_get _ _ _ Hd) in Hin as Hget.
    destruct (Hk name k s) as [Hname _].
    { unfold lookup_step. by rewrite E. }
    congruence.
  - intros (s & Hget & He). exists s.
    destruct (Hk name n s) as [Hname _].
    { unfold lookup_step. by rewrite E. }
    split; [done|]. apply filter_In. split; [|done].
    apply PyDictFacts.get_Some_elem in Hget.
    unfold PyDict.values. apply in_map_iff. exists (n, s).
    split; [done|]. by apply list_elem_of_In.
Qed.

Lemma get_flow_entrypoints_witness :
  wf_world world_abc /\
  keys_ok world_abc /\
  get_flow "order" world_abc
    = (Val (FlowInfo.mk "order" 1 {["a"]}), (get_flow "order" world_abc).2) /\
  forall n,
    n ∈ ({["a"]} : gset string) <->
    exists s, PyDict.get n (heap (get_flow "order" world_abc).2 !!! 1) = Some s /\
              StepInfo.is_entrypoint s = true.
Proof.
  assert (Hwf : wf_world world_abc) by (apply wf_worldb_sound; reflexivity).
  assert (Hk : keys_ok world_abc).
  { apply register_all_keys_ok; [apply wf_World0 | apply keys_ok_World0]. }
  assert (Hg : get_flow "order" world_abc
    = (Val (FlowInfo.mk "order" 1 {["a"]}), (get_flow "order" world_abc).2))
    by reflexivity.
  split; [exact Hwf|]. split; [exact Hk|]. split; [exact Hg|].
  exact (get_flow_entrypoints world_abc _ "order" _ Hwf Hk Hg).
Defined.

Section ReadFacts.
Variable repr : string -> string.

(** A state that only gained dictionary objects holds the same
    registry. *)
Lemma lookup_step_grown w h' fs f n :
  wf_world w ->
  lookup_step (mkWorld (heap w ++ h') (_registry w) fs) f n = lookup_step w f n.
Proof.
  intros Hw. unfold lookup_step, reg; simpl. fold (reg w).
  destruct (PyDict.get f (reg w)) as [a|] eqn:E; [|done].
  rewrite lookup_total_app_l; [done|]. apply (wf_bound _ Hw _ _ E).
Qed.

Lemma validate_flow_state name w :
  (validate_flow name w).2 = (get_flow name w).2.
Proof.
  unfold validate_flow, bind. destruct (get_flow name w) as [[fi|e] w1]; [|done].
  unfold load, gets; simpl.
  by destruct (map _ (missing_refs _)).
Qed.

Lemma get_flow_state name w :
  exists h', (get_flow name w).2 = mkWorld (heap w ++ h') (_registry w) (files w).
Proof.
  destruct (PyDict.get name (reg w)) as [a|] eqn:E.
  - rewrite (get_flow_found _ _ _ E). by eexists.
  - rewrite (get_flow_missing _ _ E). exists []. rewrite app_nil_r.
    by destruct w.
Qed.

Lemma generate_dag_state flow_name format output w :
  exists h' fs,
    (generate_dag repr flow_name format output w).2
      = mkWorld (heap w ++ h') (_registry w) fs /\
    (output = None -> fs = files w).
Proof.
  unfold generate_dag. destruct (negb (String.eqb format "mermaid")).
  { exists [], (files w). rewrite app_nil_r. by destruct w. }
  unfold bind.
  destruct (PyDict.get flow_name (reg w)) as [a|] eqn:E.
  - rewrite (get_flow_found _ _ _ E). unfold load, gets; simpl.
    destruct output as [path|]; simpl; [|eexists _, _; by split].
    unfold write_text; simpl.
    destruct (open_for_write (files w) path); simpl; eexists _, _; by split.
  - rewrite (get_flow_missing _ _ E). exists [], (files w).
    rewrite app_nil_r. by destruct w.
Qed.

End ReadFacts.

(** X6. The reading operations never change what the registry holds:
    after [get_flow], [validate_flow], [generate_dag] or
    [get_all_flow_names], whether they return or raise, every
    (flow, step) key has the entry it had, and the flows are the same;
    [generate_dag] without an output path writes no file. *)
Theorem registry_reads_change_nothing
    (repr : string -> string) (w : World)
    (name format : string) (output : option string) :
  wf_world w ->
  let after_get := (get_flow name w).2 in
  let after_validate := (validate_flow name w).2 in
  let after_dag := (generate_dag repr name format output w).2 in
  let after_names := (get_all_flow_names w).2 in
  (forall f n,
      lookup_step after_get f n = lookup_step w f n /\
      lookup_step after_validate f n = lookup_step w f n /\
      lookup_step after_dag f n = lookup_step w f n /\
      lookup_step after_names f n = lookup_step w f n) /\
  reg after_get = reg w /\ reg after_validate = reg w /\
  reg after_dag = reg w /\ reg after_names = reg w /\
  files (generate_dag repr name format None w).2 = files w.
Proof.
  intros Hw. cbv zeta.
  destruct (get_flow_state name w) as [h1 H1].
  destruct (generate_dag_state repr name format output w) as (h2 & fs2 & H2 & _).
  destruct (generate_dag_state repr name format None w) as (h3 & fs3 & H3 & Hfs).
  rewrite validate_flow_state, H1, H2, H3.
  split; [|by rewrite Hfs].
  intros f n. by rewrite !lookup_step_grown.
Qed.

Lemma registry_reads_change_nothing_witness :
  wf_world world_abc /\
  let after_get := (get_flow "order" world_abc).2 in
  let after_validate := (validate_flow "order" world_abc).2 in
  let after_dag :=
    (generate_dag quote "order" "mermaid" (Some "out.mmd") world_abc).2 in
  let after_names := (get_all_flow_names world_abc).2 in
  (forall f n,
      lookup_step after_get f n = lookup_step world_abc f n /\
      lookup_step after_validate f n = lookup_step world_abc f n /\
      lookup_step after_dag f n = lookup_step world_abc f n /\
      lookup_step after_names f n = lookup_step world_abc f n) /\
  reg after_get = reg world_abc /\ reg after_validate = reg world_abc /\
  reg after_dag = reg world_abc /\ reg after_names = reg world_abc /\
  files (generate_dag quote "order" "mermaid" None world_abc).2
    = files world_abc.
Proof.
  assert (Hwf : wf_world world_abc) by (apply wf_worldb_sound; reflexivity).
  split; [exact Hwf|].
  exact (registry_reads_change_nothing quote world_abc "order" "mermaid"
           (Some "out.mmd") Hwf).
Defined.



(** The two outcomes on the sample registry: a path that names a file,
    and the empty path, which names a directory. *)
Example generate_dag_output_paths :
  (exists text w1 w2,
      generate_dag quote "order" "mermaid" None world_abc
        = (Val (Some text), w1) /\
      generate_dag quote "order" "mermaid" (Some "out.mmd") world_abc
        = (Val None, w2) /\
      contents (files w2) = [("out.mmd", text)]) /\
  (generate_dag quote "order" "mermaid" (Some "") world_abc).1
    = Exc (PyException "IsADirectoryError" "[Errno 21] Is a directory: '.'") /\
  files (generate_dag quote "order" "mermaid" (Some "") world_abc).2
    = files world_abc.
Proof.
  split; [|split; vm_compute; reflexivity].
  eexists _, _, _. split; [vm_compute; reflexivity|].
  split; vm_compute; reflexivity.
Qed.

(* ===================================================================== *)
(** * Further properties of the flow context                              *)
(* ===================================================================== *)

Section RemoveFacts.
Context {V : Type}.
Implicit Types (d : pydict V) (k : string).

Lemma get_remove_ne k k' d :
  k <> k' -> PyDict.get k' (PyDict.remove k d) = PyDict.get k' d.
Proof.
  intros Hne. induction d as [|[k0 v0] d IH]; simpl; [done|].
  destruct (String.eqb_spec k0 k) as [->|H0].
  - by destruct (String.eqb_spec k k').
  - simpl. by rewrite IH.
Qed.

Lemma get_remove_eq k d :
  PyDict.wf d -> PyDict.get k (PyDict.remove k d) = None.
Proof.
  unfold PyDict.wf. induction d as [|[k0 v0] d IH]; simpl; [done|].
  rewrite NoDup_cons. intros [Hni Hnd].
  destruct (String.eqb_spec k0 k) as [->|H0].
  - by apply PyDictFacts.get_None.
  - simpl. destruct (String.eqb_spec k0 k); [done | by apply IH].
Qed.

End RemoveFacts.

(** X8. On a context whose metadata is a dictionary, [set_value]
    returns, the value is then what [get_value] returns for that key
    whatever the default, every other key reads as before, and no other
    object of the heap changes; a key that is absent reads as the
    default. *)
Theorem set_value_get_value
    (ctx : FlowContext) (key : string) (value : pyval) (st : Interp)
    (d : pydict pyval) :
  objects st !! _metadata ctx = Some (ODict d) ->
  exists st',
    set_value ctx key value st = (Val tt, st') /\
    (forall default, get_value ctx key default st' = (Val value, st')) /\
    (forall k default,
        k <> key ->
        (get_value ctx k default st').1 = (get_value ctx k default st).1) /\
    (forall a, a <> _metadata ctx -> objects st' !! a = objects st !! a) /\
    (forall k default,
        PyDict.get k d = None -> get_value ctx k default st = (Val default, st)).
Proof.
  intros Hd.
  assert (Hlt : _metadata ctx < length (objects st)) by (by eapply lookup_lt_Some).
  unfold set_value, get_value, bind, metadata_items, put_object, modify, ret.
  rewrite Hd. simpl. eexists. split; [done|]. simpl.
  rewrite list_lookup_insert_eq by done.
  split; [|split; [|split]].
  - intros default. by rewrite PyDictFacts.get_set_eq.
  - intros k default Hk. simpl. by rewrite PyDictFacts.get_set_ne.
  - intros a Ha. by apply list_lookup_insert_ne.
  - intros k default Hk. by rewrite Hk.
Qed.

Lemma set_value_get_value_witness :
  objects Interp_cyclic !! _metadata (mkFlowContext "cid" 0)
    = Some (ODict [("n", VInt 1); ("items", VRef 1)]) /\
  exists st',
    set_value (mkFlowContext "cid" 0) "n" (VInt 2) Interp_cyclic = (Val tt, st') /\
    (forall default,
        get_value (mkFlowContext "cid" 0) "n" default st' = (Val (VInt 2), st')) /\
    (forall k default,
        k <> "n" ->
        (get_value (mkFlowContext "cid" 0) k default st').1
        = (get_value (mkFlowContext "cid" 0) k default Interp_cyclic).1) /\
    (forall a, a <> _metadata (mkFlowContext "cid" 0) ->
               objects st' !! a = objects Interp_cyclic !! a) /\
    (forall k default,
        PyDict.get k [("n", VInt 1); ("items", VRef 1)] = None ->
        get_value (mkFlowContext "cid" 0) k default Interp_cyclic
        = (Val default, Interp_cyclic)).
Proof.
  assert (Hd : objects Interp_cyclic !! _metadata (mkFlowContext "cid" 0)
               = Some (ODict [("n", VInt 1); ("items", VRef 1)])) by reflexivity.
  split; [exact Hd|].
  exact (set_value_get_value (mkFlowContext "cid" 0) "n" (VInt 2)
           Interp_cyclic _ Hd).
Defined.

(** X9. [delete_value] of a key that the metadata does not hold raises
    [KeyError] with that key and changes nothing; of a key it holds, it
    returns, the key then reads as the default, and every other key
    reads as before. *)
Theorem delete_value_missing_or_removed
    (ctx : FlowContext) (key : string) (st : Interp) (d : pydict pyval) :
  objects st !! _metadata ctx = Some (ODict d) ->
  PyDict.wf d ->
  (PyDict.get key d = None ->
   delete_value ctx key st = (Exc (KeyError key), st)) /\
  (PyDict.get key d <> None ->
   exists st',
     delete_value ctx key st = (Val tt, st') /\
     (forall default, get_value ctx key default st' = (Val default, st')) /\
     (forall k default,
         k <> key ->
         (get_value ctx k default st').1 = (get_value ctx k default st).1)).
Proof.
  intros Hd Hwf.
  assert (Hlt : _metadata ctx < length (objects st)) by (by eapply lookup_lt_Some).
  unfold delete_value, get_value, bind, metadata_items, put_object, modify,
    ret, raise, PyDict.contains.
  rewrite Hd. simpl. split.
  - by intros ->.
  - intros Hk. destruct (PyDict.get key d) as [v|]; [|done].
    eexists. split; [done|]. simpl.
    rewrite list_lookup_insert_eq by done. split.
    + intros default. by rewrite get_remove_eq.
    + intros k default Hne. simpl. by rewrite get_remove_ne.
Qed.

Lemma delete_value_missing_or_removed_witness :
  objects Interp_cyclic !! _metadata (mkFlowContext "cid" 0)
    = Some (ODict [("n", VInt 1); ("items", VRef 1)]) /\
  PyDict.wf [("n", VInt 1); ("items", VRef 1)] /\
  PyDict.get "gone" [("n", VInt 1); ("items", VRef 1)] = None /\
  delete_value (mkFlowContext "cid" 0) "gone" Interp_cyclic
    = (Exc (KeyError "gone"), Interp_cyclic) /\
  PyDict.get "n" [("n", VInt 1); ("items", VRef 1)] <> None /\
  exists st',
    delete_value (mkFlowContext "cid" 0) "n" Interp_cyclic = (Val tt, st') /\
    (forall default,
        get_value (mkFlowContext "cid" 0) "n" default st' = (Val default, st')) /\
    (forall k default,
        k <> "n" ->
        (get_value (mkFlowContext "cid" 0) k default st').1
        = (get_value (mkFlowContext "cid" 0) k default Interp_cyclic).1).
Proof.
  assert (Hd : objects Interp_cyclic !! _metadata (mkFlowContext "cid" 0)
               = Some (ODict [("n", VInt 1); ("items", VRef 1)])) by reflexivity.
  assert (Hwf : PyDict.wf [("n", VInt 1); ("items", VRef 1)]).
  { apply (bool_decide_unpack _). vm_compute. exact I. }
  assert (H1 : PyDict.get "gone" [("n", VInt 1); ("items", VRef 1)] = None)
    by reflexivity.
  assert (H2 : PyDict.get "n" [("n", VInt 1); ("items", VRef 1)] <> None)
    by discriminate.
  split; [exact Hd|]. split; [exact Hwf|]. split; [exact H1|].
  split.
  - exact (proj1 (delete_value_missing_or_removed (mkFlowContext "cid" 0)
                    "gone" Interp_cyclic _ Hd Hwf) H1).
  - split; [exact H2|].
    exact (proj2 (delete_value_missing_or_removed (mkFlowContext "cid" 0)
                    "n" Interp_cyclic _ Hd Hwf) H2).
Defined.

(** X10. The [metadata] property returns a new dictionary with the same
    items (the values themselves, so nested containers are shared, not
    copied).  Setting or deleting a key of the context afterwards does
    not change the returned dictionary, and replacing the returned
    dictionary does not change what the context reads. *)
Theorem metadata_is_a_top_level_copy
    (ctx : FlowContext) (st : Interp) (d : pydict pyval) :
  objects st !! _metadata ctx = Some (ODict d) ->
  exists copy st',
    metadata ctx st = (Val copy, st') /\
    copy <> _metadata ctx /\
    objects st' !! copy = Some (ODict d) /\
    objects st' !! _metadata ctx = Some (ODict d) /\
    (forall key value,
        objects (set_value ctx key value st').2 !! copy = Some (ODict d) /\
        objects (delete_value ctx key st').2 !! copy = Some (ODict d)) /\
    (forall o key default,
        (get_value ctx key default (put_object copy o st').2).1
        = (get_value ctx key default st).1).
Proof.
  intros Hd.
  assert (Hlt : _metadata ctx < length (objects st)) by (by eapply lookup_lt_Some).
  unfold metadata, bind, metadata_items, new_object. rewrite Hd. simpl.
  eexists _, _. split; [done|]. simpl.
  assert (Hctx : (objects st ++ [ODict d]) !! _metadata ctx = Some (ODict d)).
  { by rewrite lookup_app_l. }
  split; [lia|]. split; [by apply list_lookup_middle|]. split; [done|].
  split.
  - intros key value.
    unfold set_value, delete_value, bind, metadata_items, put_object, modify,
      raise, ret; simpl.
    rewrite Hctx; simpl.
    split.
    + rewrite list_lookup_insert_ne by lia. by apply list_lookup_middle.
    + destruct (PyDict.contains key d); simpl.
      * rewrite list_lookup_insert_ne by lia. by apply list_lookup_middle.
      * by apply list_lookup_middle.
  - intros o key default.
    unfold get_value, bind, metadata_items, put_object, modify, ret; simpl.
    rewrite list_lookup_insert_ne by lia. by rewrite Hctx, Hd.
Qed.

Lemma metadata_is_a_top_level_copy_witness :
  objects Interp_cyclic !! _metadata (mkFlowContext "cid" 0)
    = Some (ODict [("n", VInt 1); ("items", VRef 1)]) /\
  exists copy st',
    metadata (mkFlowContext "cid" 0) Interp_cyclic = (Val copy, st') /\
    copy <> _metadata (mkFlowContext "cid" 0) /\
    objects st' !! copy = Some (ODict [("n", VInt 1); ("items", VRef 1)]) /\
    objects st' !! _metadata (mkFlowContext "cid" 0)
      = Some (ODict [("n", VInt 1); ("items", VRef 1)]) /\
    (forall key value,
        objects (set_value (mkFlowContext "cid" 0) key value st').2 !! copy
          = Some (ODict [("n", VInt 1); ("items", VRef 1)]) /\
        objects (delete_value (mkFlowContext "cid" 0) key st').2 !! copy
          = Some (ODict [("n", VInt 1); ("items", VRef 1)])) /\
    (forall o key default,
        (get_value (mkFlowContext "cid" 0) key default
           (put_object copy o st').2).1
        = (get_value (mkFlowContext "cid" 0) key default Interp_cyclic).1).
Proof.
  assert (Hd : objects Interp_cyclic !! _metadata (mkFlowContext "cid" 0)
               = Some (ODict [("n", VInt 1); ("items", VRef 1)])) by reflexivity.
  split; [exact Hd|].
  exact (metadata_is_a_top_level_copy (mkFlowContext "cid" 0) Interp_cyclic _ Hd).
Defined.

(* ===================================================================== *)
(** * The module-level functions of [_context.py]                         *)
(* ===================================================================== *)

Lemma _get_or_create_context_some c st :
  _flow_context_var st = Some c -> _get_or_create_context st = (Val c, st).
Proof.
  intros Hc. unfold _get_or_create_context, bind, gets. simpl. by rewrite Hc.
Qed.

Lemma _get_or_create_context_none st :
  _flow_context_var st = None ->
  _get_or_create_context st =
    (Val (mkFlowContext (uuid_source st (uuid_count st)) (length (objects st))),
     mkInterp (objects st ++ [ODict []])
              (Some (mkFlowContext (uuid_source st (uuid_count st))
                                   (length (objects st))))
              (uuid_source st) (S (uuid_count st))
              (_backend st) (_configured st) (_HAS_OTEL st)
              (_flow_name_cache st)).
Proof.
  intros Hc. unfold _get_or_create_context, bind, gets. simpl. by rewrite Hc.
Qed.

(** X11. [_get_or_create_context] always returns a context and leaves it
    as the current one; a second call returns the same context and
    changes nothing.  Inside a flow it returns the current context and
    changes nothing; outside, the new context has the next id of the
    random source and an empty metadata dictionary that no earlier
    object refers to. *)
Theorem get_or_create_context_idempotent (st : Interp) :
  exists c st',
    _get_or_create_context st = (Val c, st') /\
    _flow_context_var st' = Some c /\
    _get_or_create_context st' = (Val c, st') /\
    (forall c0, _flow_context_var st = Some c0 -> c = c0 /\ st' = st) /\
    (_flow_context_var st = None ->
     correlation_id c = uuid_source st (uuid_count st) /\
     objects st' !! _metadata c = Some (ODict []) /\
     objects st !! _metadata c = None /\
     uuid_count st' = S (uuid_count st)).
Proof.
  destruct (_flow_context_var st) as [c0|] eqn:E.
  - exists c0, st. rewrite (_get_or_create_context_some c0 st E).
    split; [done|]. split; [done|]. split; [done|]. split; [|done].
    intros c1 [= <-]. done.
  - rewrite (_get_or_create_context_none st E). eexists _, _.
    split; [done|]. split; [done|].
    split; [by apply _get_or_create_context_some|].
    split; [done|]. intros _. simpl.
    split; [done|]. split; [by apply list_lookup_middle|].
    split; [|done]. by apply lookup_ge_None_2.
Qed.

(** X12. Outside any flow, [set_flow_context_value] returns and leaves a
    new current context, whose id is the next one of the random source;
    [get_flow_context_value] then returns the value for that key and the
    default for every other key.  Reading outside a flow returns the
    default and creates nothing. *)
Theorem set_flow_context_value_creates_context
    (key : string) (value : pyval) (st : Interp) :
  _flow_context_var st = None ->
  (forall k default, get_flow_context_value k default st = (Val default, st)) /\
  exists st',
    set_flow_context_value key value st = (Val tt, st') /\
    current_flow_id st' = (Val (Some (uuid_source st (uuid_count st))), st') /\
    (forall default,
        get_flow_context_value key default st' = (Val value, st')) /\
    (forall k default,
        k <> key -> get_flow_context_value k default st' = (Val default, st')).
Proof.
  intros Hc. split.
  - intros k default. unfold get_flow_context_value, bind, gets. simpl.
    by rewrite Hc.
  - unfold set_flow_context_value, bind.
    rewrite (_get_or_create_context_none st Hc).
    unfold set_value, bind, metadata_items, put_object, modify. simpl.
    rewrite list_lookup_middle by done. simpl.
    eexists. split; [done|]. split; [done|].
    unfold get_flow_context_value, get_value, bind, gets, metadata_items. simpl.
    rewrite list_lookup_insert_eq by (rewrite length_app; simpl; lia).
    split.
    + intros default. simpl. by rewrite String.eqb_refl.
    + intros k default Hk. simpl.
      destruct (String.eqb_spec key k) as [->|]; done.
Qed.

Lemma set_flow_context_value_creates_context_witness :
  _flow_context_var Interp0 = None /\
  (forall k default,
      get_flow_context_value k default Interp0 = (Val default, Interp0)) /\
  exists st',
    set_flow_context_value "user" (VStr "ann") Interp0 = (Val tt, st') /\
    current_flow_id st'
      = (Val (Some (uuid_source Interp0 (uuid_count Interp0))), st') /\
    (forall default,
        get_flow_context_value "user" default st' = (Val (VStr "ann"), st')) /\
    (forall k default,
        k <> "user" -> get_flow_context_value k default st' = (Val default, st')).
Proof.
  assert (Hc : _flow_context_var Interp0 = None) by reflexivity.
  split; [exact Hc|].
  exact (set_flow_context_value_creates_context "user" (VStr "ann") Interp0 Hc).
Defined.

(** X13. Inside a flow whose metadata is a dictionary,
    [set_flow_context_value] writes to the current context: the context
    and its id stay the current ones, no id is drawn,
    [get_flow_context_value] then returns the value, and the other keys
    read as before. *)
Theorem set_flow_context_value_in_flow
    (key : string) (value : pyval) (st : Interp) (c : FlowContext) :
  _flow_context_var st = Some c ->
  ctx_ok st c ->
  exists st',
    set_flow_context_value key value st = (Val tt, st') /\
    _flow_context_var st' = Some c /\
    uuid_count st' = uuid_count st /\
    (forall default,
        get_flow_context_value key default st' = (Val value, st')) /\
    (forall k default,
        k <> key ->
        (get_flow_context_value k default st').1
        = (get_flow_context_value k default st).1).
Proof.
  intros Hc [_ [d Hd]].
  assert (Hlt : _metadata c < length (objects st)) by (by eapply lookup_lt_Some).
  unfold set_flow_context_value, bind.
  rewrite (_get_or_create_context_some c st Hc).
  unfold set_value, bind, metadata_items, put_object, modify. rewrite Hd. simpl.
  eexists. split; [done|]. split; [done|]. split; [done|].
  unfold get_flow_context_value, get_value, bind, gets, metadata_items. simpl.
  rewrite Hc. simpl. rewrite list_lookup_insert_eq by done. rewrite Hd. simpl.
  split.
  - intros default. by rewrite PyDictFacts.get_set_eq.
  - intros k default Hk. by rewrite PyDictFacts.get_set_ne.
Qed.

Lemma set_flow_context_value_in_flow_witness :
  _flow_context_var Interp_outer = Some (mkFlowContext "outer" 0) /\
  ctx_ok Interp_outer (mkFlowContext "outer" 0) /\
  exists st',
    set_flow_context_value "user" (VStr "ann") Interp_outer = (Val tt, st') /\
    _flow_context_var st' = Some (mkFlowContext "outer" 0) /\
    uuid_count st' = uuid_count Interp_outer /\
    (forall default,
        get_flow_context_value "user" default st' = (Val (VStr "ann"), st')) /\
    (forall k default,
        k <> "user" ->
        (get_flow_context_value k default st').1
        = (get_flow_context_value k default Interp_outer).1).
Proof.
  assert (Hc : _flow_context_var Interp_outer = Some (mkFlowContext "outer" 0))
    by reflexivity.
  assert (Hok : ctx_ok Interp_outer (mkFlowContext "outer" 0)).
  { split; [discriminate|]. by exists []. }
  split; [exact Hc|]. split; [exact Hok|].
  exact (set_flow_context_value_in_flow "user" (VStr "ann") Interp_outer _ Hc Hok).
Defined.

(* ===================================================================== *)
(** * [backends/logging.py]                                               *)
(* ===================================================================== *)

(** X14. [LoggingBackend.get_correlation_id] always returns an id, which
    is afterwards the id [current_flow_id] reports, and calling it again
    returns the same id.  Inside a flow it is the id of the flow and
    nothing changes; outside it is the next id of the random source. *)
Theorem LoggingBackend_get_correlation_id_stable (st : Interp) :
  exists cid st',
    LoggingBackend_get_correlation_id st = (Val cid, st') /\
    current_flow_id st' = (Val (Some cid), st') /\
    LoggingBackend_get_correlation_id st' = (Val cid, st') /\
    (forall c, _flow_context_var st = Some c ->
               cid = correlation_id c /\ st' = st) /\
    (_flow_context_var st = None -> cid = uuid_source st (uuid_count st)).
Proof.
  unfold LoggingBackend_get_correlation_id, current_flow_id, bind, gets. simpl.
  destruct (_flow_context_var st) as [c|] eqn:E; simpl.
  - exists (correlation_id c), st. rewrite E. simpl.
    split; [done|]. split; [done|]. split; [done|]. split; [|done].
    by intros c0 [= <-].
  - rewrite (_get_or_create_context_none st E). simpl. eexists _, _.
    split; [done|]. simpl. done.
Qed.

(* ===================================================================== *)
(** * Further properties of [_config.py]                                  *)
(* ===================================================================== *)

Lemma _auto_detect_run st :
  _auto_detect st =
    (Val (if _HAS_OTEL st then OTelBackend else LoggingBackend), st).
Proof.
  unfold _auto_detect, except_RuntimeError, OTelBackend_new, bind, gets; simpl.
  by destruct (_HAS_OTEL st).
Qed.

Lemma get_backend_configured st b :
  _configured st = true -> _backend st = Some b -> get_backend st = (Val b, st).
Proof.
  intros Hc Hb. unfold get_backend, bind, gets; simpl. by rewrite Hc, Hb.
Qed.

Lemma run_config_call_config_ok repr c st :
  config_ok st -> config_ok (run_config_call repr c st).
Proof.
  intros Hc. destruct c as [arg| |]; simpl.
  - by apply configure_config_ok.
  - by apply get_backend_config_ok.
  - apply reset_config_ok.
Qed.

Lemma run_config_calls_config_ok repr cs :
  forall st, config_ok st -> config_ok (run_config_calls repr cs st).
Proof.
  induction cs as [|c cs IH]; intros st Hc; [done|].
  apply IH. by apply run_config_call_config_ok.
Qed.

(** X15. [get_backend] caches its answer: on a configuration that
    satisfies the invariant it returns a backend, the configuration is
    then marked configured, and every later call returns the same
    backend without changing anything.  When nothing was configured the
    backend is the OpenTelemetry one if that library is present and the
    logging one otherwise; the flow context, the heap and the random
    source are never touched. *)
Theorem get_backend_caches (st : Interp) :
  config_ok st ->
  exists b st',
    get_backend st = (Val b, st') /\
    get_backend st' = (Val b, st') /\
    _configured st' = true /\ _backend st' = Some b /\
    (_configured st = true -> st' = st) /\
    (_configured st = false ->
     b = if _HAS_OTEL st then OTelBackend else LoggingBackend) /\
    objects st' = objects st /\
    _flow_context_var st' = _flow_context_var st /\
    uuid_count st' = uuid_count st /\
    _HAS_OTEL st' = _HAS_OTEL st /\
    _flow_name_cache st' = _flow_name_cache st.
Proof.
  intros Hok. destruct (_configured st) eqn:Hc.
  - destruct (_backend st) as [b|] eqn:Hb; [|by destruct (Hok Hc)].
    exists b, st. rewrite (get_backend_configured st b Hc Hb). done.
  - unfold get_backend at 1. unfold bind, gets, modify; simpl. rewrite Hc.
    rewrite _auto_detect_run. simpl. eexists _, _. split; [done|].
    split; [by apply get_backend_configured|]. done.
Qed.

Lemma get_backend_caches_witness :
  config_ok Interp0 /\
  exists b st',
    get_backend Interp0 = (Val b, st') /\
    get_backend st' = (Val b, st') /\
    _configured st' = true /\ _backend st' = Some b /\
    (_configured Interp0 = true -> st' = Interp0) /\
    (_configured Interp0 = false ->
     b = if _HAS_OTEL Interp0 then OTelBackend else LoggingBackend) /\
    objects st' = objects Interp0 /\
    _flow_context_var st' = _flow_context_var Interp0 /\
    uuid_count st' = uuid_count Interp0 /\
    _HAS_OTEL st' = _HAS_OTEL Interp0 /\
    _flow_name_cache st' = _flow_name_cache Interp0.
Proof.
  assert (Hok : config_ok Interp0) by (intros H; discriminate H).
  split; [exact Hok|]. exact (get_backend_caches Interp0 Hok).
Defined.

(** X16. A call of [configure] that fails changes nothing.  A string
    other than ["logging"], ["otel"] and ["auto"] raises [ValueError]
    with the [repr] of the string in the message; ["otel"] without the
    OpenTelemetry library raises [RuntimeError]; in both cases the
    configuration is the one before the call. *)
Theorem configure_failure_changes_nothing
    (repr : string -> string) (s : string) (st : Interp) :
  s <> "logging" -> s <> "auto" ->
  (s = "otel" -> _HAS_OTEL st = false) ->
  (configure repr (ArgStr s) st).2 = st /\
  (s <> "otel" ->
   (configure repr (ArgStr s) st).1
   = Exc (ValueError ("Unknown backend: " +:+ repr s))) /\
  (s = "otel" ->
   exists msg, (configure repr (ArgStr s) st).1 = Exc (RuntimeError msg)).
Proof.
  intros Hl Ha Ho. unfold configure, bind.
  destruct (String.eqb_spec s "logging") as [|_]; [done|].
  destruct (String.eqb_spec s "otel") as [E|E].
  - unfold OTelBackend_new, bind, gets; simpl. rewrite (Ho E). simpl.
    split; [done|]. split; [done|]. intros _. by eexists.
  - destruct (String.eqb_spec s "auto") as [|_]; [done|]. simpl.
    split; [done|]. split; [done|]. done.
Qed.

Lemma configure_failure_changes_nothing_witness :
  "redis" <> "logging" /\ "redis" <> "auto" /\
  ("redis" = "otel" -> _HAS_OTEL Interp_outer = false) /\
  (configure quote (ArgStr "redis") Interp_outer).2 = Interp_outer /\
  ("redis" <> "otel" ->
   (configure quote (ArgStr "redis") Interp_outer).1
   = Exc (ValueError ("Unknown backend: " +:+ quote "redis"))) /\
  ("redis" = "otel" ->
   exists msg,
     (configure quote (ArgStr "redis") Interp_outer).1 = Exc (RuntimeError msg)).
Proof.
  assert (H1 : "redis" <> "logging") by discriminate.
  assert (H2 : "redis" <> "auto") by discriminate.
  assert (H3 : "redis" = "otel" -> _HAS_OTEL Interp_outer = false)
    by (intros _; reflexivity).
  split; [exact H1|]. split; [exact H2|]. split; [exact H3|].
  exact (configure_failure_changes_nothing quote "redis" Interp_outer H1 H2 H3).
Defined.

(** X17. A call of [configure] that returns replaces whatever was
    configured: [get_backend] then returns, without changing anything,
    the instance that was passed, the logging backend for ["logging"],
    the OpenTelemetry backend for ["otel"], and for ["auto"] the
    OpenTelemetry backend if its library is present and the logging
    backend otherwise. *)
Theorem configure_then_get_backend
    (repr : string -> string) (arg : backend_arg) (st : Interp) :
  (configure repr arg st).1 = Val tt ->
  let st' := (configure repr arg st).2 in
  exists b,
    get_backend st' = (Val b, st') /\
    match arg with
    | ArgInstance b0 => b = b0
    | ArgStr s =>
        (s = "logging" /\ b = LoggingBackend) \/
        (s = "otel" /\ _HAS_OTEL st = true /\ b = OTelBackend) \/
        (s = "auto" /\
         b = if _HAS_OTEL st then OTelBackend else LoggingBackend)
    end.
Proof.
  unfold configure, bind. destruct arg as [b0|s]; simpl.
  { intros _. exists b0. split; [|done]. by apply get_backend_configured. }
  destruct (String.eqb_spec s "logging") as [->|_]; simpl.
  { intros _. exists LoggingBackend. split; [by apply get_backend_configured|].
    by left. }
  destruct (String.eqb_spec s "otel") as [->|_]; simpl.
  { unfold OTelBackend_new, bind, gets; simpl.
    destruct (_HAS_OTEL st) eqn:E; simpl; [|done].
    intros _. exists OTelBackend. split; [by apply get_backend_configured|].
    right; left. done. }
  destruct (String.eqb_spec s "auto") as [->|_]; simpl; [|done].
  rewrite _auto_detect_run. simpl. intros _.
  eexists. split; [by apply get_backend_configured|]. right; right. done.
Qed.

Lemma configure_then_get_backend_witness :
  (configure quote (ArgStr "auto") Interp_outer).1 = Val tt /\
  exists b,
    get_backend (configure quote (ArgStr "auto") Interp_outer).2
      = (Val b, (configure quote (ArgStr "auto") Interp_outer).2) /\
    (("auto" = "logging" /\ b = LoggingBackend) \/
     ("auto" = "otel" /\ _HAS_OTEL Interp_outer = true /\ b = OTelBackend) \/
     ("auto" = "auto" /\
      b = if _HAS_OTEL Interp_outer then OTelBackend else LoggingBackend)).
Proof.
  assert (H : (configure quote (ArgStr "auto") Interp_outer).1 = Val tt)
    by reflexivity.
  split; [exact H|].
  exact (configure_then_get_backend quote (ArgStr "auto") Interp_outer H).
Defined.

(** X18. The assertion of [get_backend] never fails: from a
    configuration that satisfies the invariant (the initial one does),
    after any sequence of calls of [configure], [get_backend] and
    [reset], whether they return or raise, [get_backend] returns a
    backend. *)
Theorem get_backend_never_asserts
    (repr : string -> string) (cs : list config_call) (st : Interp) :
  config_ok st ->
  exists b, (get_backend (run_config_calls repr cs st)).1 = Val b.
Proof.
  intros Hok. apply get_backend_returns. by apply run_config_calls_config_ok.
Qed.

Lemma get_backend_never_asserts_witness :
  config_ok Interp0 /\
  exists b,
    (get_backend
       (run_config_calls quote
          [CallConfigure (ArgStr "otel"); CallReset;
           CallConfigure (ArgInstance (UserBackend 7)); CallGetBackend]
          Interp0)).1 = Val b.
Proof.
  assert (Hok : config_ok Interp0) by (intros H; discriminate H).
  split; [exact Hok|].
  exact (get_backend_never_asserts quote
           [CallConfigure (ArgStr "otel"); CallReset;
            CallConfigure (ArgInstance (UserBackend 7)); CallGetBackend]
           Interp0 Hok).
Defined.

(* ===================================================================== *)
(** * Further properties of [_decorators.py]                              *)
(* ===================================================================== *)

Lemma rsplit_dot_no_dot s : has_dot s = false -> rsplit_dot s = None.
Proof.
  induction s as [|c s IH]; simpl; [done|].
  intros [Hc Hs]%orb_false_iff. by rewrite (IH Hs), Hc.
Qed.

Lemma rsplit_dot_last p q :
  has_dot q = false ->
  rsplit_dot (p +:+ "." +:+ q) = Some (p, q).
Proof.
  intros Hq. induction p as [|c p IH].
  - change (rsplit_dot (String "." q) = Some ("", q)). simpl.
    by rewrite (rsplit_dot_no_dot q Hq).
  - change (rsplit_dot (String c (p +:+ "." +:+ q)) = Some (String c p, q)).
    simpl. by rewrite IH.
Qed.

(** X19. [_resolve_flow_name] never changes the state.  A cached name
    wins whatever the qualified name is; without a cache entry the
    answer is the text before the last dot of the qualified name, and
    ["<unknown>"] when the qualified name has no dot. *)
Theorem resolve_flow_name_answers
    (fid : nat) (st : Interp) (p q : string) :
  has_dot q = false ->
  (forall cached qualname,
      _flow_name_cache st !! fid = Some cached ->
      _resolve_flow_name fid qualname st = (Val cached, st)) /\
  (_flow_name_cache st !! fid = None ->
   _resolve_flow_name fid (p +:+ "." +:+ q) st = (Val p, st) /\
   _resolve_flow_name fid q st = (Val "<unknown>", st)).
Proof.
  intros Hq. unfold _resolve_flow_name, bind, gets; simpl. split.
  - intros cached qualname ->. done.
  - intros ->. by rewrite (rsplit_dot_last p q Hq), (rsplit_dot_no_dot q Hq).
Qed.

Lemma resolve_flow_name_answers_witness :
  has_dot "method" = false /\
  (forall cached qualname,
      _flow_name_cache Interp0 !! 5 = Some cached ->
      _resolve_flow_name 5 qualname Interp0 = (Val cached, Interp0)) /\
  (_flow_name_cache Interp0 !! 5 = None ->
   _resolve_flow_name 5 ("Outer.Inner" +:+ "." +:+ "method") Interp0
     = (Val "Outer.Inner", Interp0) /\
   _resolve_flow_name 5 "method" Interp0 = (Val "<unknown>", Interp0)).
Proof.
  assert (Hq : has_dot "method" = false) by reflexivity.
  split; [exact Hq|].
  exact (resolve_flow_name_answers 5 Interp0 "Outer.Inner" "method" Hq).
Defined.

(** ** The wrappers with a backend whose spans are transparent *)

Lemma with_return_transparent cm (body : M Interp pyval) st :
  transparent cm ->
  _flow_context_var st <> None ->
  with_return cm body st = body st.
Proof.
  intros [[h Hen] Hex] Hc. unfold with_return. rewrite (Hen st Hc).
  destruct (body st) as [[v|e] st2]; by rewrite Hex.
Qed.

Lemma LoggingBackend_span_transparent step_name flow_name :
  transparent (LoggingBackend_span step_name flow_name).
Proof.
  split; [|done]. exists tt. intros st Hc. simpl.
  unfold LoggingBackend_get_correlation_id, current_flow_id, bind, gets; simpl.
  by destruct (_flow_context_var st).
Qed.

Lemma get_backend_again st :
  config_ok st ->
  exists b st', get_backend st = (Val b, st') /\ get_backend st' = (Val b, st').
Proof.
  intros Hok. destruct (_configured st) eqn:Hc.
  - destruct (_backend st) as [b|] eqn:Hb; [|by destruct (Hok Hc)].
    exists b, st. by rewrite (get_backend_configured st b Hc Hb).
  - unfold get_backend at 1. unfold bind, gets, modify; simpl. rewrite Hc.
    rewrite _auto_detect_run. simpl. eexists _, _. split; [done|].
    by apply get_backend_configured.
Qed.

Lemma get_backend_twice st :
  config_ok st ->
  exists b, get_backend st = (Val b, (get_backend st).2) /\
            get_backend (get_backend st).2 = (Val b, (get_backend st).2).
Proof.
  intros Hok. destruct (get_backend_again st Hok) as (b & st' & H1 & H2).
  exists b. rewrite H1. simpl. by rewrite H2.
Qed.

Lemma step_wrapper_run backend_impl step_name fid fn args st :
  (forall b n f, transparent (span (backend_impl b) n f)) ->
  config_ok st ->
  _flow_context_var st <> None ->
  step_wrapper backend_impl step_name fid fn args st
  = call fn args (get_backend st).2.
Proof.
  intros Htr Hok Hc.
  unfold step_wrapper, get_flow_context, bind, gets; simpl.
  destruct (_flow_context_var st) as [c|] eqn:E; [|done].
  destruct (get_backend_twice st Hok) as [b [Hb _]]. rewrite Hb.
  destruct (_resolve_flow_name_pure fid (__qualname__ fn) (get_backend st).2)
    as [fl Hfl].
  rewrite Hfl. apply with_return_transparent; [apply Htr|].
  simpl. rewrite get_backend_context, E. done.
Qed.

(** The state in which the function under [entrypoint] runs. *)
Lemma entrypoint_wrapper_run backend_impl step_name fid fn args st :
  (forall b n f, transparent (span (backend_impl b) n f)) ->
  config_ok st ->
  let fresh := mkFlowContext (uuid_source st (uuid_count st))
                             (length (objects st)) in
  let st1 := (get_backend
                (mkInterp (objects st ++ [ODict []]) (Some fresh)
                          (uuid_source st) (S (uuid_count st))
                          (_backend st) (_configured st) (_HAS_OTEL st)
                          (_flow_name_cache st))).2 in
  _flow_context_var st1 = Some fresh /\
  config_ok st1 /\
  entrypoint_wrapper backend_impl step_name fid fn args st
  = ((call fn args st1).1, set_context_var None (call fn args st1).2).
Proof.
  intros Htr Hok fresh st1.
  set (st0 := mkInterp (objects st ++ [ODict []]) (Some fresh)
                       (uuid_source st) (S (uuid_count st))
                       (_backend st) (_configured st) (_HAS_OTEL st)
                       (_flow_name_cache st)) in *.
  assert (Hok0 : config_ok st0) by done.
  assert (Hc1 : _flow_context_var st1 = Some fresh).
  { unfold st1. by rewrite get_backend_context. }
  split; [done|]. split; [by apply get_backend_config_ok|].
  rewrite entrypoint_wrapper_unfold. cbv zeta. fold fresh. fold st0.
  destruct (get_backend_twice st0 Hok0) as [b [Hb _]]. rewrite Hb. fold st1.
  unfold try_finally, bind.
  destruct (_resolve_flow_name_pure fid (__qualname__ fn) st1) as [fl Hfl].
  rewrite Hfl.
  rewrite with_return_transparent; [|apply Htr|by rewrite Hc1].
  by destruct (call fn args st1) as [r st2].
Qed.

(** X20. Inside a flow, with a backend whose spans are transparent (as
    those of the logging backend are), a call of a function decorated
    with [step] is a call of the function itself, in the same flow
    context and with the backend resolved: its value is returned, its
    exception propagates, and the state it leaves is the final state. *)
Theorem step_call_in_flow_runs_function
    (backend_impl : backend_ref -> TracingBackend)
    (step_name : string) (fid : nat) (fn : pyfunc) (args : list pyval)
    (st : Interp) :
  (forall b n f, transparent (span (backend_impl b) n f)) ->
  config_ok st ->
  _flow_context_var st <> None ->
  step_wrapper backend_impl step_name fid fn args st
    = call fn args (get_backend st).2 /\
  _flow_context_var (get_backend st).2 = _flow_context_var st /\
  objects (get_backend st).2 = objects st.
Proof.
  intros Htr Hok Hc. split; [by apply step_wrapper_run|].
  split; [apply get_backend_context|].
  unfold get_backend, bind, gets; simpl.
  destruct (_configured st); [by destruct (_backend st)|].
  by rewrite _auto_detect_run.
Qed.

Lemma step_call_in_flow_runs_function_witness :
  (forall (b : backend_ref) n f,
      transparent (span ((fun _ => LoggingBackend_impl) b) n f)) /\
  config_ok Interp_outer /\
  _flow_context_var Interp_outer <> None /\
  step_wrapper (fun _ => LoggingBackend_impl) "probe" 3 probe [] Interp_outer
    = call probe [] (get_backend Interp_outer).2 /\
  _flow_context_var (get_backend Interp_outer).2
    = _flow_context_var Interp_outer /\
  objects (get_backend Interp_outer).2 = objects Interp_outer.
Proof.
  assert (Htr : forall (b : backend_ref) n f,
             transparent (span ((fun _ => LoggingBackend_impl) b) n f)).
  { intros b n f. apply LoggingBackend_span_transparent. }
  assert (Hok : config_ok Interp_outer) by (intros _; discriminate).
  assert (Hc : _flow_context_var Interp_outer <> None) by discriminate.
  split; [exact Htr|]. split; [exact Hok|]. split; [exact Hc|].
  exact (step_call_in_flow_runs_function (fun _ => LoggingBackend_impl)
           "probe" 3 probe [] Interp_outer Htr Hok Hc).
Defined.

(** X21. With a backend whose spans are transparent, a call of a
    function decorated with [entrypoint] runs the function in a state
    whose current context is new (the next id of the random source, an
    empty metadata dictionary), returns its value or propagates its
    exception, and clears the context after it. *)
Theorem entrypoint_call_runs_function_in_new_context
    (backend_impl : backend_ref -> TracingBackend)
    (step_name : string) (fid : nat) (fn : pyfunc) (args : list pyval)
    (st : Interp) :
  (forall b n f, transparent (span (backend_impl b) n f)) ->
  config_ok st ->
  exists st1,
    current_flow_id st1 = (Val (Some (uuid_source st (uuid_count st))), st1) /\
    (forall key default,
        get_flow_context_value key default st1 = (Val default, st1)) /\
    entrypoint_wrapper backend_impl step_name fid fn args st
    = ((call fn args st1).1, set_context_var None (call fn args st1).2).
Proof.
  intros Htr Hok.
  destruct (entrypoint_wrapper_run backend_impl step_name fid fn args st Htr Hok)
    as (Hc1 & Hok1 & Hrun).
  eexists. split; [|split; [|exact Hrun]].
  - unfold current_flow_id, bind, gets; simpl. by rewrite Hc1.
  - intros key default.
    unfold get_flow_context_value, get_value, metadata_items, bind, gets; simpl.
    rewrite Hc1. simpl.
    match goal with
    | |- context [objects (get_backend ?s).2] =>
        assert (Ho : objects (get_backend s).2 = objects s)
    end.
    { unfold get_backend, bind, gets; simpl.
      destruct (_configured st); [by destruct (_backend st)|].
      by rewrite _auto_detect_run. }
    rewrite Ho. simpl. by rewrite list_lookup_middle.
Qed.

Lemma entrypoint_call_runs_function_in_new_context_witness :
  (forall (b : backend_ref) n f,
      transparent (span ((fun _ => LoggingBackend_impl) b) n f)) /\
  config_ok Interp0 /\
  exists st1,
    current_flow_id st1
      = (Val (Some (uuid_source Interp0 (uuid_count Interp0))), st1) /\
    (forall key default,
        get_flow_context_value key default st1 = (Val default, st1)) /\
    entrypoint_wrapper (fun _ => LoggingBackend_impl) "failing" 1 failing []
                       Interp0
    = ((call failing [] st1).1, set_context_var None (call failing [] st1).2).
Proof.
  assert (Htr : forall (b : backend_ref) n f,
             transparent (span ((fun _ => LoggingBackend_impl) b) n f)).
  { intros b n f. apply LoggingBackend_span_transparent. }
  assert (Hok : config_ok Interp0) by (intros H; discriminate H).
  split; [exact Htr|]. split; [exact Hok|].
  exact (entrypoint_call_runs_function_in_new_context
           (fun _ => LoggingBackend_impl) "failing" 1 failing [] Interp0 Htr Hok).
Defined.

(** X22. A step called from an entrypoint runs in the context of the
    entrypoint: when the function under [entrypoint] is a call of a
    function [g] decorated with [step], with a transparent backend, the
    whole call is [g] run where [current_flow_id] is the id drawn by the
    entrypoint; the result is the one of [g], and the context is cleared
    at the end. *)
Theorem step_inside_entrypoint_shares_context
    (backend_impl : backend_ref -> TracingBackend)
    (entry_name step_name name qualname : string) (fid_e fid_s : nat)
    (g : pyfunc) (args : list pyval) (st : Interp) :
  (forall b n f, transparent (span (backend_impl b) n f)) ->
  config_ok st ->
  exists st1,
    current_flow_id st1 = (Val (Some (uuid_source st (uuid_count st))), st1) /\
    entrypoint_wrapper backend_impl entry_name fid_e
      (mkPyfunc name qualname false (step_wrapper backend_impl step_name fid_s g))
      args st
    = ((call g args st1).1, set_context_var None (call g args st1).2).
Proof.
  intros Htr Hok.
  destruct (entrypoint_wrapper_run backend_impl entry_name fid_e
              (mkPyfunc name qualname false
                 (step_wrapper backend_impl step_name fid_s g))
              args st Htr Hok) as (Hc1 & Hok1 & Hrun).
  eexists. split; [|rewrite Hrun; simpl].
  - unfold current_flow_id, bind, gets; simpl. by rewrite Hc1.
  - rewrite step_wrapper_run; [|done|done|by rewrite Hc1].
    match goal with
    | |- context [get_backend (get_backend ?s).2] =>
        destruct (get_backend_twice s) as [b [Hb1 Hb2]]; [done|]
    end.
    by rewrite Hb2.
Qed.

Lemma step_inside_entrypoint_shares_context_witness :
  (forall (b : backend_ref) n f,
      transparent (span ((fun _ => LoggingBackend_impl) b) n f)) /\
  config_ok Interp0 /\
  exists st1,
    current_flow_id st1
      = (Val (Some (uuid_source Interp0 (uuid_count Interp0))), st1) /\
    entrypoint_wrapper (fun _ => LoggingBackend_impl) "receive" 1
      (mkPyfunc "receive" "Flow.receive" false
         (step_wrapper (fun _ => LoggingBackend_impl) "probe" 2 probe))
      [] Interp0
    = ((call probe [] st1).1, set_context_var None (call probe [] st1).2).
Proof.
  assert (Htr : forall (b : backend_ref) n f,
             transparent (span ((fun _ => LoggingBackend_impl) b) n f)).
  { intros b n f. apply LoggingBackend_span_transparent. }
  assert (Hok : config_ok Interp0) by (intros H; discriminate H).
  split; [exact Htr|]. split; [exact Hok|].
  exact (step_inside_entrypoint_shares_context
           (fun _ => LoggingBackend_impl) "receive" "probe" "receive"
           "Flow.receive" 1 2 probe [] Interp0 Htr Hok).
Defined.

(* ===================================================================== *)
(** * The class decorator [flow]                                          *)
(* ===================================================================== *)

Lemma register_outcome info w :
  (register info w).1 = Val tt \/
  register info w = (Exc (ValueError (conflict_message info)), w).
Proof.
  destruct (PyDict.get (StepInfo.flow_name info) (reg w)) as [a|] eqn:E.
  - rewrite (register_existing_flow _ _ _ E).
    destruct (PyDict.get (StepInfo.name info) (heap w !!! a)) as [e|];
      [|by left].
    destruct (StepInfo.eqb e info); simpl; [by left | by right].
  - rewrite (register_new_flow _ _ E). by left.
Qed.

Lemma register_success_lookup info w :
  wf_world w ->
  (register info w).1 = Val tt ->
  lookup_step (register info w).2 (StepInfo.flow_name info) (StepInfo.name info)
  = Some info.
Proof.
  intros Hw Hr.
  destruct (lookup_step w (StepInfo.flow_name info) (StepInfo.name info))
    as [e|] eqn:E.
  - pose proof (register_existing info w e E) as Hreg.
    rewrite Hreg in Hr |- *. simpl in Hr |- *.
    revert Hr. destruct (StepInfo_eqb_spec e info) as [Heq|Hne]; intros Hr;
      [by subst e | discriminate Hr].
  - destruct (register_fresh info w Hw E) as (w' & Hreg & Hl & _).
    by rewrite Hreg.
Qed.

Lemma register_all_success_lookup infos :
  forall w,
    wf_world w ->
    Forall (fun r => r = Val tt) (register_results infos w) ->
    forall i, i ∈ infos ->
      lookup_step (register_all infos w)
                  (StepInfo.flow_name i) (StepInfo.name i) = Some i.
Proof.
  induction infos as [|j infos IH]; intros w Hw Hres i Hi.
  - by apply elem_of_nil in Hi.
  - simpl in Hres. apply Forall_cons in Hres as [Hj Hres].
    change (register_all (j :: infos) w)
      with (register_all infos (register j w).2).
    apply elem_of_cons in Hi as [->|Hi].
    + rewrite (lookup_register_all infos _ _ _ (register_wf j w Hw)).
      by rewrite (register_success_lookup j w Hw Hj).
    + apply IH; [by apply register_wf | done | done].
Qed.

Lemma cache_after_lookup name ws :
  forall cache fid,
    cache_after name ws cache !! fid =
      if decide (fid ∈ map wrapper_id ws) then Some name else cache !! fid.
Proof.
  induction ws as [|w ws IH]; intros cache fid.
  - change (cache_after name [] cache) with cache.
    case_decide as H; [|done]. simpl in H. by apply elem_of_nil in H.
  - change (cache_after name (w :: ws) cache)
      with (cache_after name ws (<[wrapper_id w := name]> cache)).
    rewrite IH.
    change (map wrapper_id (w :: ws)) with (wrapper_id w :: map wrapper_id ws).
    destruct (decide (fid = wrapper_id w)) as [->|Hne].
    + rewrite lookup_insert_eq.
      case_decide as H1; case_decide as H2; try done;
        destruct H2; apply elem_of_cons; by left.
    + rewrite lookup_insert_ne by done.
      case_decide as H1; case_decide as H2; try done.
      * destruct H2. apply elem_of_cons. by right.
      * apply elem_of_cons in H2 as [?|?]; done.
Qed.

Lemma flow_scan_marked name a wr attrs w st :
  flow_scan name ((a, MarkedAttr wr) :: attrs) (mkProgram w st) =
    match register (step_of_wrapper name wr) w with
    | (Val _, w1) =>
        flow_scan name attrs
          (mkProgram w1
             (with_flow_name_cache
                (<[wrapper_id wr := name]> (_flow_name_cache st)) st))
    | (Exc e, w1) => (Exc e, mkProgram w1 st)
    end.
Proof.
  simpl. unfold bind, in_world, in_interp, step_of_wrapper; simpl.
  by destruct (register _ w) as [[[]|e] w1].
Qed.

Lemma flow_scan_plain name a attrs p :
  flow_scan name ((a, PlainAttr) :: attrs) p = flow_scan name attrs p.
Proof. done. Qed.

Lemma steps_of_attrs_marked name a wr attrs :
  steps_of_attrs name ((a, MarkedAttr wr) :: attrs)
  = step_of_wrapper name wr :: steps_of_attrs name attrs.
Proof. done. Qed.

Lemma flow_scan_success name attrs :
  forall w st,
    Forall (fun r => r = Val tt) (register_results (steps_of_attrs name attrs) w) ->
    flow_scan name attrs (mkProgram w st) =
      (Val tt,
       mkProgram (register_all (steps_of_attrs name attrs) w)
                 (with_flow_name_cache
                    (cache_after name (marked_wrappers attrs)
                                 (_flow_name_cache st)) st)).
Proof.
  induction attrs as [|[a obj] attrs IH]; intros w st Hres.
  - simpl. unfold ret. by destruct st.
  - destruct obj as [wr|].
    + rewrite steps_of_attrs_marked in Hres |- *.
      cbn [register_results] in Hres. apply Forall_cons in Hres as [Hr Hres].
      rewrite flow_scan_marked.
      change (register_all (step_of_wrapper name wr :: steps_of_attrs name attrs) w)
        with (register_all (steps_of_attrs name attrs)
                (register (step_of_wrapper name wr) w).2).
      destruct (register (step_of_wrapper name wr) w) as [r w1].
      simpl in Hr, Hres. subst r. cbn [snd].
      by rewrite (IH w1 _ Hres).
    + rewrite flow_scan_plain. apply IH. exact Hres.
Qed.

Lemma flow_scan_conflict name pre a wr post :
  forall w st,
    Forall (fun r => r = Val tt) (register_results (steps_of_attrs name pre) w) ->
    (register (step_of_wrapper name wr)
              (register_all (steps_of_attrs name pre) w)).1 <> Val tt ->
    flow_scan name (pre ++ (a, MarkedAttr wr) :: post) (mkProgram w st) =
      (Exc (ValueError (conflict_message (step_of_wrapper name wr))),
       mkProgram (register_all (steps_of_attrs name pre) w)
                 (with_flow_name_cache
                    (cache_after name (marked_wrappers pre)
                                 (_flow_name_cache st)) st)).
Proof.
  induction pre as [|[b obj] pre IH]; intros w st Hres Hfail.
  - change ([] ++ (a, MarkedAttr wr) :: post) with ((a, MarkedAttr wr) :: post).
    rewrite flow_scan_marked.
    change (register_all (steps_of_attrs name []) w) with w in *.
    destruct (register_outcome (step_of_wrapper name wr) w) as [H|H]; [done|].
    rewrite H. by destruct st.
  - change (((b, obj) :: pre) ++ (a, MarkedAttr wr) :: post)
      with ((b, obj) :: (pre ++ (a, MarkedAttr wr) :: post)).
    destruct obj as [wb|].
    + rewrite steps_of_attrs_marked in Hres, Hfail |- *.
      cbn [register_results] in Hres. apply Forall_cons in Hres as [Hr Hres].
      rewrite flow_scan_marked.
      change (register_all (step_of_wrapper name wb :: steps_of_attrs name pre) w)
        with (register_all (steps_of_attrs name pre)
                (register (step_of_wrapper name wb) w).2) in *.
      destruct (register (step_of_wrapper name wb) w) as [r w1].
      simpl in Hr, Hres, Hfail. subst r. cbn [snd].
      by rewrite (IH w1 _ Hres Hfail).
    + rewrite flow_scan_plain. apply IH; done.
Qed.

(** X23. When every registration succeeds (each step name of the class
    is free in the flow, or already holds the same step), [flow] returns
    the class stamped with the flow name; every method made by
    [entrypoint] or [step] is then registered under the flow with the
    name, predecessors and kind of its marker, and
    [_resolve_flow_name] answers the flow name for its wrapper whatever
    its qualified name; the cache entries of other functions, the heap
    and the flow context are unchanged. *)
Theorem flow_registers_marked_methods
    (name : string) (cls : pyclass) (p : Program) :
  wf_world (world p) ->
  Forall (fun r => r = Val tt)
         (register_results (steps_of_attrs name (class_vars cls)) (world p)) ->
  exists p',
    flow name cls p = (Val (mkPyclass (class_vars cls) (Some name)), p') /\
    world p' = register_all (steps_of_attrs name (class_vars cls)) (world p) /\
    (forall w, w ∈ marked_wrappers (class_vars cls) ->
       lookup_step (world p') name (marker_name (__penstock_step__ w))
       = Some (StepInfo.mk (marker_name (__penstock_step__ w)) name
                           (marker_after (__penstock_step__ w))
                           (marker_is_entrypoint (__penstock_step__ w))) /\
       forall qualname,
         _resolve_flow_name (wrapper_id w) qualname (interp p')
         = (Val name, interp p')) /\
    (forall fid, fid ∉ map wrapper_id (marked_wrappers (class_vars cls)) ->
       _flow_name_cache (interp p') !! fid = _flow_name_cache (interp p) !! fid) /\
    objects (interp p') = objects (interp p) /\
    _flow_context_var (interp p') = _flow_context_var (interp p).
Proof.
  destruct p as [w st]. simpl. intros Hw Hres.
  unfold flow, bind. simpl.
  rewrite (flow_scan_success name (class_vars cls) w st Hres). simpl.
  eexists. split; [done|]. simpl. split; [done|].
  split; [|split; [|done]].
  - intros wr Hwr. split.
    + apply (register_all_success_lookup _ w Hw Hres (step_of_wrapper name wr)).
      unfold steps_of_attrs. by apply (list_elem_of_fmap_2 (step_of_wrapper name)).
    + intros qualname. unfold _resolve_flow_name, bind, gets; simpl.
      rewrite cache_after_lookup, decide_True; [done|].
      by apply (list_elem_of_fmap_2 wrapper_id).
  - intros fid Hfid. by rewrite cache_after_lookup, decide_False.
Qed.

Lemma flow_registers_marked_methods_witness :
  wf_world (world Program0) /\
  Forall (fun r => r = Val tt)
         (register_results (steps_of_attrs "order" (class_vars sample_class))
                           (world Program0)) /\
  exists p',
    flow "order" sample_class Program0
      = (Val (mkPyclass (class_vars sample_class) (Some "order")), p') /\
    world p'
      = register_all (steps_of_attrs "order" (class_vars sample_class))
                     (world Program0) /\
    (forall w, w ∈ marked_wrappers (class_vars sample_class) ->
       lookup_step (world p') "order" (marker_name (__penstock_step__ w))
       = Some (StepInfo.mk (marker_name (__penstock_step__ w)) "order"
                           (marker_after (__penstock_step__ w))
                           (marker_is_entrypoint (__penstock_step__ w))) /\
       forall qualname,
         _resolve_flow_name (wrapper_id w) qualname (interp p')
         = (Val "order", interp p')) /\
    (forall fid,
       fid ∉ map wrapper_id (marked_wrappers (class_vars sample_class)) ->
       _flow_name_cache (interp p') !! fid
       = _flow_name_cache (interp Program0) !! fid) /\
    objects (interp p') = objects (interp Program0) /\
    _flow_context_var (interp p') = _flow_context_var (interp Program0).
Proof.
  assert (Hw : wf_world (world Program0)) by exact wf_World0.
  assert (Hres : Forall (fun r => r = Val tt)
                   (register_results
                      (steps_of_attrs "order" (class_vars sample_class))
                      (world Program0))).
  { vm_compute. repeat constructor. }
  split; [exact Hw|]. split; [exact Hres|].
  exact (flow_registers_marked_methods "order" sample_class Program0 Hw Hres).
Defined.

(** X24. [flow] does not undo anything when it fails: if the method
    [wr] is the first whose registration conflicts, [flow] raises the
    [ValueError] of [register] for that step, the steps of the methods
    before it stay registered and cached, and nothing of the methods
    after it is registered. *)
Theorem flow_conflict_keeps_earlier_steps
    (name : string) (cls : pyclass) (p : Program)
    (pre post : list (string * class_attr)) (a : string) (wr : wrapped) :
  class_vars cls = pre ++ (a, MarkedAttr wr) :: post ->
  Forall (fun r => r = Val tt)
         (register_results (steps_of_attrs name pre) (world p)) ->
  (register (step_of_wrapper name wr)
            (register_all (steps_of_attrs name pre) (world p))).1 <> Val tt ->
  exists p',
    flow name cls p
      = (Exc (ValueError (conflict_message (step_of_wrapper name wr))), p') /\
    world p' = register_all (steps_of_attrs name pre) (world p) /\
    _flow_name_cache (interp p')
      = cache_after name (marked_wrappers pre) (_flow_name_cache (interp p)).
Proof.
  destruct p as [w st]. simpl. intros Hcls Hres Hfail.
  unfold flow, bind. simpl. rewrite Hcls.
  rewrite (flow_scan_conflict name pre a wr post w st Hres Hfail).
  eexists. split; [done|]. done.
Qed.

Lemma flow_conflict_keeps_earlier_steps_witness :
  class_vars sample_class
    = [("receive", MarkedAttr (_make_entrypoint (fun _ => LoggingBackend_impl)
                                 1 probe None AfterNone));
       ("limit", PlainAttr)]
      ++ ("ship", MarkedAttr (_make_step (fun _ => LoggingBackend_impl)
                                2 failing (Some "ship")
                                (AfterOne (AfterCallable "probe")))) :: [] /\
  Forall (fun r => r = Val tt)
    (register_results
       (steps_of_attrs "order"
          [("receive", MarkedAttr (_make_entrypoint (fun _ => LoggingBackend_impl)
                                     1 probe None AfterNone));
           ("limit", PlainAttr)])
       (world (mkProgram world_ship Interp0))) /\
  (register
     (step_of_wrapper "order"
        (_make_step (fun _ => LoggingBackend_impl) 2 failing (Some "ship")
                    (AfterOne (AfterCallable "probe"))))
     (register_all
        (steps_of_attrs "order"
           [("receive", MarkedAttr (_make_entrypoint
                                      (fun _ => LoggingBackend_impl)
                                      1 probe None AfterNone));
            ("limit", PlainAttr)])
        (world (mkProgram world_ship Interp0)))).1 <> Val tt /\
  exists p',
    flow "order" sample_class (mkProgram world_ship Interp0)
      = (Exc (ValueError
                (conflict_message
                   (step_of_wrapper "order"
                      (_make_step (fun _ => LoggingBackend_impl) 2 failing
                                  (Some "ship")
                                  (AfterOne (AfterCallable "probe")))))), p') /\
    world p'
      = register_all
          (steps_of_attrs "order"
             [("receive", MarkedAttr (_make_entrypoint
                                        (fun _ => LoggingBackend_impl)
                                        1 probe None AfterNone));
              ("limit", PlainAttr)])
          (world (mkProgram world_ship Interp0)) /\
    _flow_name_cache (interp p')
      = cache_after "order"
          (marked_wrappers
             [("receive", MarkedAttr (_make_entrypoint
                                        (fun _ => LoggingBackend_impl)
                                        1 probe None AfterNone));
              ("limit", PlainAttr)])
          (_flow_name_cache (interp (mkProgram world_ship Interp0))).
Proof.
  assert (Hcls : class_vars sample_class
    = [("receive", MarkedAttr (_make_entrypoint (fun _ => LoggingBackend_impl)
                                 1 probe None AfterNone));
       ("limit", PlainAttr)]
      ++ ("ship", MarkedAttr (_make_step (fun _ => LoggingBackend_impl)
                                2 failing (Some "ship")
                                (AfterOne (AfterCallable "probe")))) :: [])
    by reflexivity.
  assert (Hres : Forall (fun r => r = Val tt)
    (register_results
       (steps_of_attrs "order"
          [("receive", MarkedAttr (_make_entrypoint (fun _ => LoggingBackend_impl)
                                     1 probe None AfterNone));
           ("limit", PlainAttr)])
       (world (mkProgram world_ship Interp0)))).
  { vm_compute. repeat constructor. }
  assert (Hfail : (register
     (step_of_wrapper "order"
        (_make_step (fun _ => LoggingBackend_impl) 2 failing (Some "ship")
                    (AfterOne (AfterCallable "probe"))))
     (register_all
        (steps_of_attrs "order"
           [("receive", MarkedAttr (_make_entrypoint
                                      (fun _ => LoggingBackend_impl)
                                      1 probe None AfterNone));
            ("limit", PlainAttr)])
        (world (mkProgram world_ship Interp0)))).1 <> Val tt).
  { vm_compute. discriminate. }
  split; [exact Hcls|]. split; [exact Hres|]. split; [exact Hfail|].
  exact (flow_conflict_keeps_earlier_steps "order" sample_class
           (mkProgram world_ship Interp0) _ _ _ _ Hcls Hres Hfail).
Defined.

(* ===================================================================== *)
(** * The integrations: Celery, Django, structlog                         *)
(* ===================================================================== *)

Lemma truthy_nonempty s : s <> "" -> truthy s = true.
Proof. by destruct s. Qed.

(** The state in which a task runs: a new context with the id [cid] and
    an empty metadata dictionary. *)
Lemma FlowContext_init_restored cid st :
  cid <> "" ->
  FlowContext_init (Some cid) None st =
    (Val (mkFlowContext cid (length (objects st))),
     set_objects (objects st ++ [ODict []]) st).
Proof.
  intros Hc. unfold FlowContext_init, bind, new_object, ret.
  by rewrite (truthy_nonempty cid Hc).
Qed.

Lemma flow_task_wrapper_run fn args headers st ctx st0 :
  FlowContext_init
    (PyDict.get "penstock_correlation_id"
       (match headers with Some h => h | None => [] end)) None st
  = (Val ctx, st0) ->
  flow_task_wrapper fn args headers st
  = ((call fn args (set_context_var (Some ctx) st0)).1,
     set_context_var None (call fn args (set_context_var (Some ctx) st0)).2).
Proof.
  intros Hinit. unfold flow_task_wrapper, bind. rewrite Hinit.
  unfold _set_context, modify, try_finally, _reset_context; simpl.
  by destruct (call fn args _) as [r st2].
Qed.

(** X25. The Celery round trip of [flow_task]: in a flow with a
    non-empty id, the helper [_penstock_headers] returns headers with
    which the wrapper, on any worker, runs the task where
    [current_flow_id] is the id of the producer.  No id is drawn on the
    worker, the metadata of the producer does not travel (every key
    reads as its default), the result of the task is returned and the
    context of the worker is cleared after it. *)
Theorem flow_task_restores_producer_id
    (producer worker : Interp) (c : FlowContext)
    (fn : pyfunc) (args : list pyval) :
  _flow_context_var producer = Some c ->
  correlation_id c <> "" ->
  exists headers st1,
    _penstock_headers producer = (Val headers, producer) /\
    current_flow_id st1 = (Val (Some (correlation_id c)), st1) /\
    uuid_count st1 = uuid_count worker /\
    (forall key default,
        get_flow_context_value key default st1 = (Val default, st1)) /\
    flow_task_wrapper fn args (Some headers) worker
    = ((call fn args st1).1, set_context_var None (call fn args st1).2).
Proof.
  intros Hc Hid.
  exists [("penstock_correlation_id", correlation_id c)],
         (set_context_var
            (Some (mkFlowContext (correlation_id c) (length (objects worker))))
            (set_objects (objects worker ++ [ODict []]) worker)).
  split.
  { unfold _penstock_headers, current_flow_id, bind, gets; simpl.
    by rewrite Hc. }
  split; [done|]. split; [done|]. split.
  - intros key default.
    unfold get_flow_context_value, get_value, metadata_items, bind, gets; simpl.
    by rewrite list_lookup_middle.
  - apply flow_task_wrapper_run.
    exact (FlowContext_init_restored (correlation_id c) worker Hid).
Qed.

Lemma flow_task_restores_producer_id_witness :
  _flow_context_var Interp_outer = Some (mkFlowContext "outer" 0) /\
  correlation_id (mkFlowContext "outer" 0) <> "" /\
  exists headers st1,
    _penstock_headers Interp_outer = (Val headers, Interp_outer) /\
    current_flow_id st1
      = (Val (Some (correlation_id (mkFlowContext "outer" 0))), st1) /\
    uuid_count st1 = uuid_count Interp0 /\
    (forall key default,
        get_flow_context_value key default st1 = (Val default, st1)) /\
    flow_task_wrapper probe [] (Some headers) Interp0
    = ((call probe [] st1).1, set_context_var None (call probe [] st1).2).
Proof.
  assert (Hc : _flow_context_var Interp_outer = Some (mkFlowContext "outer" 0))
    by reflexivity.
  assert (Hid : correlation_id (mkFlowContext "outer" 0) <> "") by discriminate.
  split; [exact Hc|]. split; [exact Hid|].
  exact (flow_task_restores_producer_id Interp_outer Interp0 _ probe [] Hc Hid).
Defined.

(** X26. Without an id in the headers (no headers passed, no entry, or
    an empty id), the wrapper of [flow_task] runs the task in a context
    with the next id of the random source, and clears the context after
    it. *)
Theorem flow_task_without_id_draws_new_id
    (fn : pyfunc) (args : list pyval) (headers : option (pydict string))
    (worker : Interp) :
  (forall h, headers = Some h ->
             PyDict.get "penstock_correlation_id" h = None \/
             PyDict.get "penstock_correlation_id" h = Some "") ->
  exists st1,
    current_flow_id st1
      = (Val (Some (uuid_source worker (uuid_count worker))), st1) /\
    uuid_count st1 = S (uuid_count worker) /\
    flow_task_wrapper fn args headers worker
    = ((call fn args st1).1, set_context_var None (call fn args st1).2).
Proof.
  intros Hh.
  assert (Hinit :
    FlowContext_init
      (PyDict.get "penstock_correlation_id"
         (match headers with Some h => h | None => [] end)) None worker
    = FlowContext_init None None worker).
  { destruct headers as [h|]; [|done].
    destruct (Hh h eq_refl) as [-> | ->]; done. }
  rewrite FlowContext_init_fresh in Hinit.
  rewrite (flow_task_wrapper_run fn args headers worker _ _ Hinit).
  eexists. split; [|split; [|done]]; done.
Qed.

Lemma flow_task_without_id_draws_new_id_witness :
  (forall h, Some [("penstock_correlation_id", "")] = Some h ->
             PyDict.get "penstock_correlation_id" h = None \/
             PyDict.get "penstock_correlation_id" h = Some "") /\
  exists st1,
    current_flow_id st1
      = (Val (Some (uuid_source Interp0 (uuid_count Interp0))), st1) /\
    uuid_count st1 = S (uuid_count Interp0) /\
    flow_task_wrapper probe [] (Some [("penstock_correlation_id", "")]) Interp0
    = ((call probe [] st1).1, set_context_var None (call probe [] st1).2).
Proof.
  assert (Hh : forall h, Some [("penstock_correlation_id", "")] = Some h ->
             PyDict.get "penstock_correlation_id" h = None \/
             PyDict.get "penstock_correlation_id" h = Some "").
  { intros h [= <-]. right. reflexivity. }
  split; [exact Hh|].
  exact (flow_task_without_id_draws_new_id probe []
           (Some [("penstock_correlation_id", "")]) Interp0 Hh).
Defined.

(** X29. [FlowMiddleware.__call__] runs the view in a new context whose
    id is the next one of the random source.  If the view returns a
    response, the response is returned with the header
    [X-Correlation-ID] set to that id, replacing any value the view gave
    it, and with its other headers as they were; if the view raises, the
    exception propagates.  In both cases the context is cleared. *)
Theorem FlowMiddleware_call_outcome
    (get_response : pyval -> M Interp (pydict string)) (request : pyval)
    (st : Interp) :
  exists st1,
    current_flow_id st1 = (Val (Some (uuid_source st (uuid_count st))), st1) /\
    _flow_context_var (FlowMiddleware_call get_response request st).2 = None /\
    (forall response st2,
        get_response request st1 = (Val response, st2) ->
        exists response',
          FlowMiddleware_call get_response request st
            = (Val response', set_context_var None st2) /\
          PyDict.get "X-Correlation-ID" response'
            = Some (uuid_source st (uuid_count st)) /\
          forall k, k <> "X-Correlation-ID" ->
                    PyDict.get k response' = PyDict.get k response) /\
    (forall e st2,
        get_response request st1 = (Exc e, st2) ->
        FlowMiddleware_call get_response request st
          = (Exc e, set_context_var None st2)).
Proof.
  unfold FlowMiddleware_call, bind. rewrite FlowContext_init_fresh.
  unfold _set_context, modify; simpl.
  exists (set_context_var
            (Some (mkFlowContext (uuid_source st (uuid_count st))
                                 (length (objects st))))
            (mkInterp (objects st ++ [ODict []]) (_flow_context_var st)
                      (uuid_source st) (S (uuid_count st))
                      (_backend st) (_configured st) (_HAS_OTEL st)
                      (_flow_name_cache st))).
  split; [done|]. split; [by apply try_finally_reset|].
  split.
  - intros response st2 Hr. unfold try_finally, bind. rewrite Hr. simpl.
    eexists. split; [done|].
    split; [by apply PyDictFacts.get_set_eq|].
    intros k Hk. apply PyDictFacts.get_set_ne. by intros <-.
  - intros e st2 Hr. unfold try_finally, bind. by rewrite Hr.
Qed.

(** X30. [flow_processor] never changes the interpreter state.  Inside
    a flow the event dictionary it returns has [flow_id] set to the id
    of the flow, replacing any earlier value, and every other key as
    before; outside a flow the dictionary is returned as it was, so no
    [flow_id] is added. *)
Theorem flow_processor_adds_flow_id
    (logger : pyval) (method_name : string) (event_dict : pydict pyval)
    (st : Interp) :
  (flow_processor logger method_name event_dict st).2 = st /\
  (forall c,
      _flow_context_var st = Some c ->
      exists d,
        (flow_processor logger method_name event_dict st).1 = Val d /\
        PyDict.get "flow_id" d = Some (VStr (correlation_id c)) /\
        forall k, k <> "flow_id" -> PyDict.get k d = PyDict.get k event_dict) /\
  (_flow_context_var st = None ->
   (flow_processor logger method_name event_dict st).1 = Val event_dict).
Proof.
  unfold flow_processor, current_flow_id, bind, gets; simpl.
  split; [done|]. split.
  - intros c ->. eexists. split; [done|].
    split; [by apply PyDictFacts.get_set_eq|].
    intros k Hk. apply PyDictFacts.get_set_ne. by intros <-.
  - by intros ->.
Qed.
